(** * Buyer Request Workflow: a shallow embedding of [main.py]

    The FastAPI handlers of [main.py] are embedded as transactions over an
    explicit database value.  Every table of [init_db] is the list of its
    rows in insertion (rowid) order; [PRIMARY KEY] and [NOT NULL]
    constraints are written out as the [IntegrityError] that sqlite raises.
    The values that the source draws from its environment -- the random
    strings of [secrets] and the readings of [datetime.utcnow()] -- are
    explicit arguments of the handlers, one argument per call in the source.

    Instants are integers (microseconds); the TEXT columns that hold
    [isoformat()] strings are modelled by the instant itself, since
    [datetime.fromisoformat] inverts [isoformat] and the text order of such
    strings is the order of the instants.  The [metadata] column holds
    [json.dumps] of a dictionary and is read back with [json.loads]; it is
    modelled by the JSON value. *)

From Stdlib Require Import ZArith List String Ascii Bool Lia.
From Stdlib Require Import Permutation Sorted.
Import ListNotations.
Open Scope string_scope.
Open Scope list_scope.
Open Scope Z_scope.

(** ** Enumerations *)

Inductive Role : Type := BUYER | FACTORY.

Definition Role_value (r : Role) : string :=
  match r with
  | BUYER => "buyer"
  | FACTORY => "factory"
  end.

Inductive Action : Type :=
  CREATE_REQUEST | CREATE_EVIDENCE | ADD_VERSION | FULFILL_ITEM | LOGIN.

Definition Action_value (a : Action) : string :=
  match a with
  | CREATE_REQUEST => "CREATE_REQUEST"
  | CREATE_EVIDENCE => "CREATE_EVIDENCE"
  | ADD_VERSION => "ADD_VERSION"
  | FULFILL_ITEM => "FULFILL_ITEM"
  | LOGIN => "LOGIN"
  end.

Inductive ObjectType : Type := REQUEST | EVIDENCE | VERSION | REQUEST_ITEM.

Definition ObjectType_value (o : ObjectType) : string :=
  match o with
  | REQUEST => "Request"
  | EVIDENCE => "Evidence"
  | VERSION => "Version"
  | REQUEST_ITEM => "RequestItem"
  end.

(** ** JSON values of the audit metadata *)

#[local] Set Warnings "-register-all".

Inductive json : Type :=
| JNull
| JStr (s : string)
| JNum (n : Z)
| JArr (l : list json)
| JObj (fields : list (string * json)).

Definition jopt (o : option string) : json :=
  match o with
  | Some s => JStr s
  | None => JNull
  end.

(** The value stored under a key of a JSON object. *)
Fixpoint assoc (k : string) (fields : list (string * json)) : option json :=
  match fields with
  | [] => None
  | (k', v) :: rest => if String.eqb k' k then Some v else assoc k rest
  end.

Definition jfield (k : string) (j : json) : option json :=
  match j with
  | JObj fields => assoc k fields
  | _ => None
  end.

(** ** Rows of the six tables *)

Record audit_row : Type := mk_audit {
  a_id : Z;
  a_timestamp : Z;
  a_actor_user_id : string;
  a_actor_role : string;
  a_action : string;
  a_object_type : string;
  a_object_id : string;
  a_metadata : json
}.

Record evidence_row : Type := mk_evidence {
  e_id : string;
  e_factory_id : string;
  e_name : string;
  e_doc_type : string;
  e_created_at : Z
}.

Record version_row : Type := mk_version {
  v_id : string;
  v_evidence_id : string;
  v_version_number : Z;
  v_expiry : option string;
  v_notes : option string;
  v_created_at : Z
}.

Record request_row : Type := mk_request {
  r_id : string;
  r_buyer_id : string;
  r_factory_id : string;
  r_title : string;
  r_status : string;
  r_created_at : Z
}.

Record item_row : Type := mk_item {
  i_id : string;
  i_request_id : string;
  i_doc_type : string;
  i_status : string;
  i_evidence_id : option string;
  i_version_id : option string;
  i_fulfilled_at : option Z
}.

Record token_row : Type := mk_token {
  t_token : string;
  t_user_id : string;
  t_role : string;
  t_factory_id : option string;
  t_created_at : Z;
  t_expires_at : Z
}.

Record DB : Type := mk_db {
  audit_log : list audit_row;
  evidence : list evidence_row;
  evidence_versions : list version_row;
  requests : list request_row;
  request_items : list item_row;
  auth_tokens : list token_row
}.

(** [init_db] on a fresh file: six empty tables. *)
Definition init_db : DB := mk_db [] [] [] [] [] [].

(** ** Request and response bodies (the pydantic models) *)

Record LoginRequest : Type := mk_LoginRequest {
  lr_userId : string;
  lr_role : Role;
  lr_factoryId : option string
}.

Record LoginResponse : Type := mk_LoginResponse {
  lresp_token : string;
  lresp_userId : string;
  lresp_role : string;
  lresp_factoryId : option string
}.

Record EvidenceCreate : Type := mk_EvidenceCreate {
  ec_name : string;
  ec_docType : string;
  ec_expiry : option string;
  ec_notes : option string
}.

Record EvidenceResponse : Type := mk_EvidenceResponse {
  er_evidenceId : string;
  er_versionId : string
}.

Record VersionCreate : Type := mk_VersionCreate {
  vc_notes : option string;
  vc_expiry : option string
}.

Record RequestItem : Type := mk_RequestItem { ri_docType : string }.

Record RequestCreate : Type := mk_RequestCreate {
  rc_factoryId : string;
  rc_title : string;
  rc_items : list RequestItem
}.

Record FulfillRequest : Type := mk_FulfillRequest {
  fr_evidenceId : string;
  fr_versionId : string
}.

Record RequestCreated : Type := mk_RequestCreated {
  rcd_requestId : string;
  rcd_status : string;
  rcd_itemIds : list string
}.

Record FulfillResponse : Type := mk_FulfillResponse {
  fresp_success : bool;
  fresp_itemId : string;
  fresp_status : string
}.

Record RequestView : Type := mk_RequestView {
  rv_requestId : string;
  rv_buyerId : string;
  rv_factoryId : string;
  rv_title : string;
  rv_status : string;
  rv_createdAt : Z;
  rv_items : list item_row
}.

(** The dictionary returned by [get_current_user]. *)
Record User : Type := mk_User {
  userId : string;
  role : string;
  factoryId : option string
}.

(** ** Exceptions and transactions *)

Inductive exn : Type :=
| HTTPException (status_code : Z) (detail : string)
| IntegrityError (constraint : string)
| OverflowError (message : string).

Inductive result (A : Type) : Type :=
| Ok (a : A)
| Raise (e : exn).
Arguments Ok {A} a.
Arguments Raise {A} e.

(** Code that runs against a connection: it sees the working state of the
    connection and leaves a working state, with a value or an exception. *)
Definition Tx (A : Type) : Type := DB -> result A * DB.

Definition ret {A} (a : A) : Tx A := fun db => (Ok a, db).

Definition raise {A} (e : exn) : Tx A := fun db => (Raise e, db).

Definition bind {A B} (m : Tx A) (k : A -> Tx B) : Tx B :=
  fun db =>
    match m db with
    | (Ok a, db') => k a db'
    | (Raise e, db') => (Raise e, db')
    end.

Definition select {A} (q : DB -> A) : Tx A := fun db => (Ok (q db), db).

Definition execute (w : DB -> result DB) : Tx unit :=
  fun db =>
    match w db with
    | Ok db' => (Ok tt, db')
    | Raise e => (Raise e, db)
    end.

Notation "x <- m ;; k" := (bind m (fun x => k))
  (at level 61, m at next level, right associativity).
Notation "m ;;; k" := (bind m (fun _ => k))
  (at level 61, right associativity).

(** [with get_db() as conn]: the body runs on the connection; a normal exit
    commits its working state, an exception rolls back to the state at entry
    and is re-raised. *)
Definition get_db {A} (body : Tx A) : Tx A :=
  fun db =>
    match body db with
    | (Ok a, db') => (Ok a, db')
    | (Raise e, _) => (Raise e, db)
    end.

(** ** Small pieces of Python and SQL *)

Definition HTTP (code : Z) (detail : string) : exn := HTTPException code detail.

(** Truthiness of an [Optional[str]]. *)
Definition truthy (o : option string) : bool :=
  match o with
  | Some s => negb (String.eqb s "")
  | None => false
  end.

(** [s.startswith(p)]. *)
Definition startswith (p s : string) : bool := String.prefix p s.

(** [s.split(" ")]. *)
Fixpoint split_space (s : string) : list string :=
  match s with
  | EmptyString => [EmptyString]
  | String c s' =>
      if Ascii.eqb c " "%char then EmptyString :: split_space s'
      else match split_space s' with
           | [] => [String c EmptyString]
           | w :: ws => String c w :: ws
           end
  end.

(** [cursor.fetchone()]. *)
Definition fetchone {A} (rows : list A) : option A := hd_error rows.

(** [INSERT] into a table whose TEXT column [key], named [column], is the
    primary key. *)
Definition insert_pk {R} (column : string) (key : R -> string) (row : R)
    (rows : list R) : result (list R) :=
  if existsb (fun r => String.eqb (key r) (key row)) rows
  then Raise (IntegrityError ("UNIQUE constraint failed: " ++ column)%string)
  else Ok (rows ++ [row]).

(** [MAX(col)] and [SUM(col)] are NULL over no rows. *)
Definition sql_max (l : list Z) : option Z :=
  match l with
  | [] => None
  | x :: xs => Some (fold_left Z.max xs x)
  end.

Definition sql_sum (l : list Z) : option Z :=
  match l with
  | [] => None
  | _ => Some (fold_left Z.add l 0)
  end.

Definition sql_count {A} (l : list A) : Z := Z.of_nat (List.length l).

(** [ORDER BY key DESC], rows with equal keys kept in rowid order. *)
Fixpoint insert_desc {A} (key : A -> Z) (x : A) (l : list A) : list A :=
  match l with
  | [] => [x]
  | y :: ys => if key y <=? key x then x :: l else y :: insert_desc key x ys
  end.

Definition order_by_desc {A} (key : A -> Z) (l : list A) : list A :=
  fold_right (insert_desc key) [] l.

(** [generate_id(prefix)]: the prefix followed by
    [secrets.token_hex(4).upper()], here the argument [hex]. *)
Definition generate_id (prefix hex : string) : string :=
  (prefix ++ hex)%string.
Arguments generate_id : simpl never.

(** [timedelta(hours=24)]. *)
Definition hours_24 : Z := 24 * 3600 * 1000000.

(** ** Writes to the tables *)

Definition with_audit_log (db : DB) (t : list audit_row) : DB :=
  mk_db t (evidence db) (evidence_versions db) (requests db)
        (request_items db) (auth_tokens db).

Definition with_evidence (db : DB) (t : list evidence_row) : DB :=
  mk_db (audit_log db) t (evidence_versions db) (requests db)
        (request_items db) (auth_tokens db).

Definition with_evidence_versions (db : DB) (t : list version_row) : DB :=
  mk_db (audit_log db) (evidence db) t (requests db)
        (request_items db) (auth_tokens db).

Definition with_requests (db : DB) (t : list request_row) : DB :=
  mk_db (audit_log db) (evidence db) (evidence_versions db) t
        (request_items db) (auth_tokens db).

Definition with_request_items (db : DB) (t : list item_row) : DB :=
  mk_db (audit_log db) (evidence db) (evidence_versions db) (requests db)
        t (auth_tokens db).

Definition with_auth_tokens (db : DB) (t : list token_row) : DB :=
  mk_db (audit_log db) (evidence db) (evidence_versions db) (requests db)
        (request_items db) t.

Definition on_table {R} (f : list R -> result (list R))
    (get : DB -> list R) (set : DB -> list R -> DB) (db : DB) : result DB :=
  match f (get db) with
  | Ok t => Ok (set db t)
  | Raise e => Raise e
  end.

Definition insert_evidence (row : evidence_row) : Tx unit :=
  execute (on_table (insert_pk "evidence.id" e_id row) evidence with_evidence).

Definition insert_version (row : version_row) : Tx unit :=
  execute (on_table (insert_pk "evidence_versions.id" v_id row)
                    evidence_versions with_evidence_versions).

Definition insert_request (row : request_row) : Tx unit :=
  execute (on_table (insert_pk "requests.id" r_id row) requests with_requests).

Definition insert_item (row : item_row) : Tx unit :=
  execute (on_table (insert_pk "request_items.id" i_id row)
                    request_items with_request_items).

Definition insert_token (row : token_row) : Tx unit :=
  execute (on_table (insert_pk "auth_tokens.token" t_token row)
                    auth_tokens with_auth_tokens).

(** The [id] of [audit_log] is [INTEGER PRIMARY KEY AUTOINCREMENT]: one more
    than the largest id handed out; no row of the table is ever deleted. *)
Definition next_audit_id (rows : list audit_row) : Z :=
  match sql_max (map a_id rows) with
  | Some m => m + 1
  | None => 1
  end.

(** ** Helper functions of the source *)

(** [log_audit]; [now] is its reading of [datetime.utcnow()]. *)
Definition log_audit (now : Z) (actor_user_id actor_role : string)
    (action : Action) (object_type : ObjectType) (object_id : string)
    (metadata : json) : Tx unit :=
  execute (fun db =>
    Ok (with_audit_log db
          (audit_log db ++
             [mk_audit (next_audit_id (audit_log db)) now actor_user_id
                       actor_role (Action_value action)
                       (ObjectType_value object_type) object_id metadata]))).

(** [authorization.split(" ")[1]]. *)
Definition bearer_token (authorization : string) : string :=
  nth 1 (split_space authorization) "".

Definition token_rows (token : string) (db : DB) : list token_row :=
  filter (fun r => String.eqb (t_token r) token) (auth_tokens db).

(** [get_current_user]; [now] is its reading of [datetime.utcnow()]. *)
Definition get_current_user (authorization : option string) (now : Z)
    : Tx User :=
  match authorization with
  | None =>
      raise (HTTP 401 "Missing or invalid authorization header")
  | Some header =>
      if negb (negb (String.eqb header "") && startswith "Bearer " header)
      then raise (HTTP 401 "Missing or invalid authorization header")
      else
        let token := bearer_token header in
        get_db (
          row <- select (fun db => fetchone (token_rows token db)) ;;
          match row with
          | None => raise (HTTP 401 "Invalid token")
          | Some row =>
              if t_expires_at row <? now
              then raise (HTTP 401 "Token expired")
              else ret (mk_User (t_user_id row) (t_role row)
                                (t_factory_id row))
          end)
  end.

(** [require_role(required_role)] with its dependency [get_current_user]. *)
Definition require_role (required_role : Role)
    (authorization : option string) (now : Z) : Tx User :=
  user <- get_current_user authorization now ;;
  if negb (String.eqb (role user) (Role_value required_role))
  then raise (HTTP 403
                ("Requires " ++ Role_value required_role ++ " role")%string)
  else ret user.

(** ** Endpoints

    Every endpoint takes the [Authorization] header and the body or path
    parameters of the request, then the random strings and clock readings
    it consumes, in the order in which the source draws them. *)

Definition is_factory (r : Role) : bool :=
  match r with FACTORY => true | BUYER => false end.

Definition is_buyer (r : Role) : bool :=
  match r with BUYER => true | FACTORY => false end.

(** [POST /auth/login]; [token] is [secrets.token_urlsafe(32)]. *)
Definition login (request : LoginRequest) (token : string)
    (t_issue t_created t_audit : Z) : Tx LoginResponse :=
  if is_factory (lr_role request) && negb (truthy (lr_factoryId request))
  then raise (HTTP 400 "Factory role requires factoryId")
  else if is_buyer (lr_role request) && truthy (lr_factoryId request)
  then raise (HTTP 400 "Buyer role should not have factoryId")
  else
    let expires_at := t_issue + hours_24 in
    get_db (
      insert_token (mk_token token (lr_userId request)
                             (Role_value (lr_role request))
                             (lr_factoryId request) t_created expires_at) ;;;
      log_audit t_audit (lr_userId request) (Role_value (lr_role request))
                LOGIN REQUEST "N/A"
                (JObj [("userId", JStr (lr_userId request));
                       ("role", JStr (Role_value (lr_role request)));
                       ("factoryId", jopt (lr_factoryId request))])) ;;;
    ret (mk_LoginResponse token (lr_userId request)
                          (Role_value (lr_role request))
                          (lr_factoryId request)).

(** The body of [create_evidence] inside [with get_db()].  The column
    [evidence.factory_id] is [NOT NULL]. *)
Definition create_evidence_tx (ev : EvidenceCreate) (user : User)
    (evidence_id version_id : string) (t_evidence t_version t_audit : Z)
    : Tx unit :=
  match factoryId user with
  | None =>
      raise (IntegrityError "NOT NULL constraint failed: evidence.factory_id")
  | Some fid =>
      insert_evidence (mk_evidence evidence_id fid (ec_name ev)
                                   (ec_docType ev) t_evidence)
  end ;;;
  insert_version (mk_version version_id evidence_id 1 (ec_expiry ev)
                             (ec_notes ev) t_version) ;;;
  log_audit t_audit (userId user) (role user) CREATE_EVIDENCE EVIDENCE
            evidence_id
            (JObj [("factoryId", jopt (factoryId user));
                   ("name", JStr (ec_name ev));
                   ("docType", JStr (ec_docType ev));
                   ("versionId", JStr version_id)]).

(** [POST /evidence]. *)
Definition create_evidence (authorization : option string)
    (ev : EvidenceCreate) (t_auth : Z) (hex_e hex_v : string)
    (t_evidence t_version t_audit : Z) : Tx EvidenceResponse :=
  user <- require_role FACTORY authorization t_auth ;;
  let evidence_id := generate_id "E" hex_e in
  let version_id := generate_id "V" hex_v in
  get_db (create_evidence_tx ev user evidence_id version_id
                             t_evidence t_version t_audit) ;;;
  ret (mk_EvidenceResponse evidence_id version_id).

Definition evidence_rows (evidence_id : string) (db : DB)
    : list evidence_row :=
  filter (fun r => String.eqb (e_id r) evidence_id) (evidence db).

(** The rows of [evidence_versions] of one evidence id. *)
Definition versions_of (evidence_id : string) (db : DB) : list version_row :=
  filter (fun r => String.eqb (v_evidence_id r) evidence_id)
         (evidence_versions db).

(** Python's [row['factory_id'] != user['factoryId']]. *)
Definition factory_differs (row_factory : string) (user : User) : bool :=
  match factoryId user with
  | Some f => negb (String.eqb row_factory f)
  | None => true
  end.

(** The body of [add_evidence_version] inside [with get_db()]. *)
Definition add_evidence_version_tx (evidence_id : string)
    (version : VersionCreate) (user : User) (hex_v : string)
    (t_version t_audit : Z) : Tx string :=
  row <- select (fun db => fetchone (evidence_rows evidence_id db)) ;;
  match row with
  | None => raise (HTTP 404 "Evidence not found")
  | Some row =>
      if factory_differs (e_factory_id row) user
      then raise (HTTP 403 "Cannot add version to other factory's evidence")
      else
        max_row <- select (fun db =>
          sql_max (map v_version_number (versions_of evidence_id db))) ;;
        let max_version := match max_row with Some m => m | None => 0 end in
        let new_version_number := max_version + 1 in
        let version_id := generate_id "V" hex_v in
        insert_version (mk_version version_id evidence_id new_version_number
                                   (vc_expiry version) (vc_notes version)
                                   t_version) ;;;
        log_audit t_audit (userId user) (role user) ADD_VERSION VERSION
                  version_id
                  (JObj [("factoryId", jopt (factoryId user));
                         ("evidenceId", JStr evidence_id);
                         ("versionNumber", JNum new_version_number)]) ;;;
        ret version_id
  end.

(** [POST /evidence/{evidence_id}/versions]. *)
Definition add_evidence_version (authorization : option string)
    (evidence_id : string) (version : VersionCreate) (t_auth : Z)
    (hex_v : string) (t_version t_audit : Z) : Tx EvidenceResponse :=
  user <- require_role FACTORY authorization t_auth ;;
  version_id <- get_db (add_evidence_version_tx evidence_id version user
                                                hex_v t_version t_audit) ;;
  ret (mk_EvidenceResponse evidence_id version_id).

(** The loop of [create_request] over [request.items]; [hex k] is the
    [k]-th string drawn for an item id. *)
Fixpoint insert_items (request_id : string) (items : list RequestItem)
    (hex : nat -> string) (k : nat) : Tx (list string) :=
  match items with
  | [] => ret []
  | item :: rest =>
      let item_id := generate_id "I" (hex k) in
      insert_item (mk_item item_id request_id (ri_docType item) "pending"
                           None None None) ;;;
      item_ids <- insert_items request_id rest hex (S k) ;;
      ret (item_id :: item_ids)
  end.

(** The body of [create_request] inside [with get_db()]. *)
Definition create_request_tx (request : RequestCreate) (user : User)
    (request_id : string) (t_request : Z) (hex_items : nat -> string)
    (t_audit : Z) : Tx (list string) :=
  insert_request (mk_request request_id (userId user) (rc_factoryId request)
                             (rc_title request) "pending" t_request) ;;;
  item_ids <- insert_items request_id (rc_items request) hex_items 0%nat ;;
  log_audit t_audit (userId user) (role user) CREATE_REQUEST REQUEST
            request_id
            (JObj [("buyerId", JStr (userId user));
                   ("factoryId", JStr (rc_factoryId request));
                   ("title", JStr (rc_title request));
                   ("itemCount", JNum (sql_count (rc_items request)));
                   ("items",
                    JArr (map (fun item =>
                                 JObj [("docType", JStr (ri_docType item))])
                              (rc_items request)))]) ;;;
  ret item_ids.

(** [POST /requests]. *)
Definition create_request (authorization : option string)
    (request : RequestCreate) (t_auth : Z) (hex_r : string) (t_request : Z)
    (hex_items : nat -> string) (t_audit : Z) : Tx RequestCreated :=
  user <- require_role BUYER authorization t_auth ;;
  let request_id := generate_id "R" hex_r in
  item_ids <- get_db (create_request_tx request user request_id t_request
                                        hex_items t_audit) ;;
  ret (mk_RequestCreated request_id "pending" item_ids).

(** The rows of [request_items] of one request id. *)
Definition items_of (request_id : string) (db : DB) : list item_row :=
  filter (fun r => String.eqb (i_request_id r) request_id) (request_items db).

Definition request_rows (request_id : string) (db : DB) : list request_row :=
  filter (fun r => String.eqb (r_id r) request_id) (requests db).

(** [WHERE factory_id = ?]: a NULL parameter matches no row. *)
Definition requests_for (f : option string) (db : DB) : list request_row :=
  filter (fun r => match f with
                   | Some f => String.eqb (r_factory_id r) f
                   | None => false
                   end) (requests db).

(** [GET /factory/requests]. *)
Definition get_factory_requests (authorization : option string) (t_auth : Z)
    : Tx (list RequestView) :=
  user <- require_role FACTORY authorization t_auth ;;
  get_db (
    rows <- select (fun db =>
      order_by_desc r_created_at (requests_for (factoryId user) db)) ;;
    select (fun db =>
      map (fun row =>
             mk_RequestView (r_id row) (r_buyer_id row) (r_factory_id row)
                            (r_title row) (r_status row) (r_created_at row)
                            (items_of (r_id row) db))
          rows)).

(** [SELECT status, doc_type FROM request_items WHERE id = ? AND
    request_id = ?]. *)
Definition item_rows (item_id request_id : string) (db : DB)
    : list item_row :=
  filter (fun r => String.eqb (i_id r) item_id &&
                   String.eqb (i_request_id r) request_id)
         (request_items db).

(** [SELECT id FROM evidence_versions WHERE id = ? AND evidence_id = ?]. *)
Definition version_rows (version_id evidence_id : string) (db : DB)
    : list version_row :=
  filter (fun r => String.eqb (v_id r) version_id &&
                   String.eqb (v_evidence_id r) evidence_id)
         (evidence_versions db).

(** [UPDATE request_items SET status = 'fulfilled', evidence_id = ?,
    version_id = ?, fulfilled_at = ? WHERE id = ?]. *)
Definition update_item (evidence_id version_id : string) (now : Z)
    (item_id : string) (db : DB) : DB :=
  with_request_items db
    (map (fun r =>
            if String.eqb (i_id r) item_id
            then mk_item (i_id r) (i_request_id r) (i_doc_type r) "fulfilled"
                         (Some evidence_id) (Some version_id) (Some now)
            else r)
         (request_items db)).

(** [UPDATE requests SET status = 'completed' WHERE id = ?]. *)
Definition complete_request (request_id : string) (db : DB) : DB :=
  with_requests db
    (map (fun r =>
            if String.eqb (r_id r) request_id
            then mk_request (r_id r) (r_buyer_id r) (r_factory_id r)
                            (r_title r) "completed" (r_created_at r)
            else r)
         (requests db)).

(** [SELECT COUNT( * ) as total, SUM(CASE WHEN status = 'fulfilled' THEN 1
    ELSE 0 END) as fulfilled FROM request_items WHERE request_id = ?]. *)
Definition item_counts (request_id : string) (db : DB) : Z * option Z :=
  let rows := items_of request_id db in
  (sql_count rows,
   sql_sum (map (fun r => if String.eqb (i_status r) "fulfilled"
                          then 1 else 0) rows)).

(** Python's [counts['total'] == counts['fulfilled']], the second of which
    may be [None]. *)
Definition counts_equal (counts : Z * option Z) : bool :=
  match snd counts with
  | Some fulfilled => fst counts =? fulfilled
  | None => false
  end.

(** The body of [fulfill_request_item] inside [with get_db()]. *)
Definition fulfill_request_item_tx (request_id item_id : string)
    (fulfill : FulfillRequest) (user : User) (t_fulfilled t_audit : Z)
    : Tx unit :=
  request_row <- select (fun db => fetchone (request_rows request_id db)) ;;
  match request_row with
  | None => raise (HTTP 404 "Request not found")
  | Some request_row =>
  if factory_differs (r_factory_id request_row) user
  then raise (HTTP 403 "Cannot fulfill other factory's requests")
  else
  item_row <- select (fun db =>
    fetchone (item_rows item_id request_id db)) ;;
  match item_row with
  | None => raise (HTTP 404 "Request item not found")
  | Some item_row =>
  let previous_status := i_status item_row in
  let doc_type := i_doc_type item_row in
  evidence_row <- select (fun db =>
    fetchone (evidence_rows (fr_evidenceId fulfill) db)) ;;
  match evidence_row with
  | None => raise (HTTP 404 "Evidence not found")
  | Some evidence_row =>
  if factory_differs (e_factory_id evidence_row) user
  then raise (HTTP 403 "Cannot use other factory's evidence")
  else
  version_row <- select (fun db =>
    fetchone (version_rows (fr_versionId fulfill)
                           (fr_evidenceId fulfill) db)) ;;
  match version_row with
  | None => raise (HTTP 404 "Evidence version not found")
  | Some _ =>
  execute (fun db =>
    Ok (update_item (fr_evidenceId fulfill) (fr_versionId fulfill)
                    t_fulfilled item_id db)) ;;;
  counts <- select (item_counts request_id) ;;
  (if counts_equal counts
   then execute (fun db => Ok (complete_request request_id db))
   else ret tt) ;;;
  log_audit t_audit (userId user) (role user) FULFILL_ITEM REQUEST_ITEM
            item_id
            (JObj [("factoryId", jopt (factoryId user));
                   ("buyerId", JStr (r_buyer_id request_row));
                   ("requestId", JStr request_id);
                   ("docType", JStr doc_type);
                   ("evidenceId", JStr (fr_evidenceId fulfill));
                   ("versionId", JStr (fr_versionId fulfill));
                   ("previousStatus", JStr previous_status);
                   ("newStatus", JStr "fulfilled")])
  end end end end.

(** [POST /requests/{request_id}/items/{item_id}/fulfill]. *)
Definition fulfill_request_item (authorization : option string)
    (request_id item_id : string) (fulfill : FulfillRequest)
    (t_auth t_fulfilled t_audit : Z) : Tx FulfillResponse :=
  user <- require_role FACTORY authorization t_auth ;;
  get_db (fulfill_request_item_tx request_id item_id fulfill user
                                  t_fulfilled t_audit) ;;;
  ret (mk_FulfillResponse true item_id "fulfilled").

(** [LIMIT ?]: a negative limit is no limit. *)
Definition sql_limit {A} (limit : Z) (l : list A) : list A :=
  if limit <? 0 then l else firstn (Z.to_nat limit) l.

(** A Python [int] can be bound to a parameter of a statement only if it is
    a signed 64-bit integer; [cursor.execute] raises [OverflowError] for any
    other. *)
Definition fits_sqlite_integer (n : Z) : bool :=
  (- 2 ^ 63 <=? n) && (n <=? 2 ^ 63 - 1).

(** [GET /audit]; [limit] is bound to [LIMIT ?]. *)
Definition get_audit_log (authorization : option string) (limit : Z)
    (t_auth : Z) : Tx (list audit_row) :=
  user <- get_current_user authorization t_auth ;;
  get_db (
    if fits_sqlite_integer limit
    then select (fun db =>
           sql_limit limit (order_by_desc a_timestamp (audit_log db)))
    else raise (OverflowError
                  "Python int too large to convert to SQLite INTEGER")).

(** ** The exposed operations as a transition system *)

Inductive op : Type :=
| Login (request : LoginRequest) (token : string)
        (t_issue t_created t_audit : Z)
| CreateEvidence (authorization : option string) (ev : EvidenceCreate)
        (t_auth : Z) (hex_e hex_v : string)
        (t_evidence t_version t_audit : Z)
| AddVersion (authorization : option string) (evidence_id : string)
        (version : VersionCreate) (t_auth : Z) (hex_v : string)
        (t_version t_audit : Z)
| CreateRequest (authorization : option string) (request : RequestCreate)
        (t_auth : Z) (hex_r : string) (t_request : Z)
        (hex_items : nat -> string) (t_audit : Z)
| GetFactoryRequests (authorization : option string) (t_auth : Z)
| FulfillItem (authorization : option string) (request_id item_id : string)
        (fulfill : FulfillRequest) (t_auth t_fulfilled t_audit : Z)
| GetAuditLog (authorization : option string) (limit : Z) (t_auth : Z)
| Root.

(** The database after one call of an endpoint. *)
Definition exec (o : op) (db : DB) : DB :=
  match o with
  | Login request token t1 t2 t3 => snd (login request token t1 t2 t3 db)
  | CreateEvidence a ev t0 he hv t1 t2 t3 =>
      snd (create_evidence a ev t0 he hv t1 t2 t3 db)
  | AddVersion a eid version t0 hv t1 t2 =>
      snd (add_evidence_version a eid version t0 hv t1 t2 db)
  | CreateRequest a request t0 hr t1 hi t2 =>
      snd (create_request a request t0 hr t1 hi t2 db)
  | GetFactoryRequests a t0 => snd (get_factory_requests a t0 db)
  | FulfillItem a rid iid fulfill t0 t1 t2 =>
      snd (fulfill_request_item a rid iid fulfill t0 t1 t2 db)
  | GetAuditLog a limit t0 => snd (get_audit_log a limit t0 db)
  | Root => db
  end.

(** The database after a sequence of calls, the first of the list first. *)
Definition run (ops : list op) (db : DB) : DB :=
  fold_left (fun db o => exec o db) ops db.

(** The states the service can be in: those reached from [init_db]. *)
Definition reachable (db : DB) : Prop := exists ops, db = run ops init_db.

(** ** The fulfilment transaction, case by case *)

(** The audit record written by a successful [fulfill_request_item]. *)
Definition fulfill_audit (db : DB) (request_id item_id : string)
    (fulfill : FulfillRequest) (user : User) (request_row : request_row)
    (item_row : item_row) (t_audit : Z) : audit_row :=
  mk_audit (next_audit_id (audit_log db)) t_audit (userId user) (role user)
           "FULFILL_ITEM" "RequestItem" item_id
           (JObj [("factoryId", jopt (factoryId user));
                  ("buyerId", JStr (r_buyer_id request_row));
                  ("requestId", JStr request_id);
                  ("docType", JStr (i_doc_type item_row));
                  ("evidenceId", JStr (fr_evidenceId fulfill));
                  ("versionId", JStr (fr_versionId fulfill));
                  ("previousStatus", JStr (i_status item_row));
                  ("newStatus", JStr "fulfilled")]).

(** The tables after the two UPDATEs of a successful fulfilment. *)
Definition fulfill_updates (request_id item_id : string)
    (fulfill : FulfillRequest) (t_fulfilled : Z) (db : DB) : DB :=
  let db1 := update_item (fr_evidenceId fulfill) (fr_versionId fulfill)
                         t_fulfilled item_id db in
  if counts_equal (item_counts request_id db1)
  then complete_request request_id db1
  else db1.

(** The checks of the transaction, in the order of the source. *)
Inductive fulfill_check (request_id item_id : string)
    (fulfill : FulfillRequest) (user : User) (db : DB)
    : result (request_row * item_row) -> Prop :=
| check_request_missing :
    fetchone (request_rows request_id db) = None ->
    fulfill_check request_id item_id fulfill user db
      (Raise (HTTP 404 "Request not found"))
| check_request_foreign rq :
    fetchone (request_rows request_id db) = Some rq ->
    factory_differs (r_factory_id rq) user = true ->
    fulfill_check request_id item_id fulfill user db
      (Raise (HTTP 403 "Cannot fulfill other factory's requests"))
| check_item_missing rq :
    fetchone (request_rows request_id db) = Some rq ->
    factory_differs (r_factory_id rq) user = false ->
    fetchone (item_rows item_id request_id db) = None ->
    fulfill_check request_id item_id fulfill user db
      (Raise (HTTP 404 "Request item not found"))
| check_evidence_missing rq it :
    fetchone (request_rows request_id db) = Some rq ->
    factory_differs (r_factory_id rq) user = false ->
    fetchone (item_rows item_id request_id db) = Some it ->
    fetchone (evidence_rows (fr_evidenceId fulfill) db) = None ->
    fulfill_check request_id item_id fulfill user db
      (Raise (HTTP 404 "Evidence not found"))
| check_evidence_foreign rq it ev :
    fetchone (request_rows request_id db) = Some rq ->
    factory_differs (r_factory_id rq) user = false ->
    fetchone (item_rows item_id request_id db) = Some it ->
    fetchone (evidence_rows (fr_evidenceId fulfill) db) = Some ev ->
    factory_differs (e_factory_id ev) user = true ->
    fulfill_check request_id item_id fulfill user db
      (Raise (HTTP 403 "Cannot use other factory's evidence"))
| check_version_missing rq it ev :
    fetchone (request_rows request_id db) = Some rq ->
    factory_differs (r_factory_id rq) user = false ->
    fetchone (item_rows item_id request_id db) = Some it ->
    fetchone (evidence_rows (fr_evidenceId fulfill) db) = Some ev ->
    factory_differs (e_factory_id ev) user = false ->
    fetchone (version_rows (fr_versionId fulfill) (fr_evidenceId fulfill) db)
      = None ->
    fulfill_check request_id item_id fulfill user db
      (Raise (HTTP 404 "Evidence version not found"))
| check_passed rq it ev v :
    fetchone (request_rows request_id db) = Some rq ->
    factory_differs (r_factory_id rq) user = false ->
    fetchone (item_rows item_id request_id db) = Some it ->
    fetchone (evidence_rows (fr_evidenceId fulfill) db) = Some ev ->
    factory_differs (e_factory_id ev) user = false ->
    fetchone (version_rows (fr_versionId fulfill) (fr_evidenceId fulfill) db)
      = Some v ->
    fulfill_check request_id item_id fulfill user db (Ok (rq, it)).

(** ** A sample run

    Buyer [buyer1] logs in, factory users of F001 and F002 log in, the buyer
    requests one "Test Report" from F001, and each factory records one
    evidence document. *)

Definition sample_ops : list op :=
  [ Login (mk_LoginRequest "buyer1" BUYER None) "tokB" 0 1 2;
    Login (mk_LoginRequest "f1" FACTORY (Some "F001")) "tokF" 3 4 5;
    Login (mk_LoginRequest "f2" FACTORY (Some "F002")) "tokG" 3 4 5;
    CreateRequest (Some "Bearer tokB")
      (mk_RequestCreate "F001" "Q1" [mk_RequestItem "Test Report"])
      6 "0001" 7 (fun _ => "0002") 8;
    CreateEvidence (Some "Bearer tokF")
      (mk_EvidenceCreate "Safety" "Test Report" None None)
      9 "0003" "0004" 10 11 12;
    CreateEvidence (Some "Bearer tokG")
      (mk_EvidenceCreate "Other" "Test Report" None None)
      9 "0005" "0006" 10 11 12 ].

Definition sample_db : DB := Eval vm_compute in run sample_ops init_db.

(** ** The rows written by the successful operations *)

Definition login_token_row (request : LoginRequest) (token : string)
    (t_issue t_created : Z) : token_row :=
  mk_token token (lr_userId request) (Role_value (lr_role request))
           (lr_factoryId request) t_created (t_issue + hours_24).

Definition login_audit (db : DB) (request : LoginRequest) (t_audit : Z)
    : audit_row :=
  mk_audit (next_audit_id (audit_log db)) t_audit (lr_userId request)
           (Role_value (lr_role request)) "LOGIN" "Request" "N/A"
           (JObj [("userId", JStr (lr_userId request));
                  ("role", JStr (Role_value (lr_role request)));
                  ("factoryId", jopt (lr_factoryId request))]).

Definition create_evidence_audit (db : DB) (ev : EvidenceCreate)
    (user : User) (evidence_id version_id : string) (t_audit : Z)
    : audit_row :=
  mk_audit (next_audit_id (audit_log db)) t_audit (userId user) (role user)
           "CREATE_EVIDENCE" "Evidence" evidence_id
           (JObj [("factoryId", jopt (factoryId user));
                  ("name", JStr (ec_name ev));
                  ("docType", JStr (ec_docType ev));
                  ("versionId", JStr version_id)]).

(** The number [add_evidence_version] gives to the next version. *)
Definition next_version_number (evidence_id : string) (db : DB) : Z :=
  match sql_max (map v_version_number (versions_of evidence_id db)) with
  | Some m => m
  | None => 0
  end + 1.

Definition add_version_audit (db : DB) (evidence_id : string) (user : User)
    (version_id : string) (t_audit : Z) : audit_row :=
  mk_audit (next_audit_id (audit_log db)) t_audit (userId user) (role user)
           "ADD_VERSION" "Version" version_id
           (JObj [("factoryId", jopt (factoryId user));
                  ("evidenceId", JStr evidence_id);
                  ("versionNumber",
                   JNum (next_version_number evidence_id db))]).

Definition create_request_audit (db : DB) (request : RequestCreate)
    (user : User) (request_id : string) (t_audit : Z) : audit_row :=
  mk_audit (next_audit_id (audit_log db)) t_audit (userId user) (role user)
           "CREATE_REQUEST" "Request" request_id
           (JObj [("buyerId", JStr (userId user));
                  ("factoryId", JStr (rc_factoryId request));
                  ("title", JStr (rc_title request));
                  ("itemCount", JNum (sql_count (rc_items request)));
                  ("items",
                   JArr (map (fun item =>
                                JObj [("docType", JStr (ri_docType item))])
                             (rc_items request)))]).

(** The item rows that the loop of [create_request] inserts. *)
Fixpoint new_item_rows (request_id : string) (items : list RequestItem)
    (hex : nat -> string) (k : nat) : list item_row :=
  match items with
  | [] => []
  | item :: rest =>
      mk_item (generate_id "I" (hex k)) request_id (ri_docType item)
              "pending" None None None
      :: new_item_rows request_id rest hex (S k)
  end.

(** No row of the table has this primary key. *)
Definition pk_free {R} (key : R -> string) (k : string) (rows : list R)
    : Prop :=
  existsb (fun r => String.eqb (key r) k) rows = false.

(** ** The state changes of the service

    [effect db o db'] lists the ways in which a call [o] can change the
    database [db]: one case per mutating endpoint, with the conditions under
    which the endpoint commits and the state it commits. *)

Inductive effect (db : DB) : op -> DB -> Prop :=
| eff_login request token t1 t2 t3 :
    pk_free t_token token (auth_tokens db) ->
    effect db (Login request token t1 t2 t3)
      (mk_db (audit_log db ++ [login_audit db request t3])
             (evidence db) (evidence_versions db) (requests db)
             (request_items db)
             (auth_tokens db ++ [login_token_row request token t1 t2]))
| eff_create_evidence a ev t0 he hv t1 t2 t3 user fid :
    require_role FACTORY a t0 db = (Ok user, db) ->
    factoryId user = Some fid ->
    pk_free e_id (generate_id "E" he) (evidence db) ->
    pk_free v_id (generate_id "V" hv) (evidence_versions db) ->
    effect db (CreateEvidence a ev t0 he hv t1 t2 t3)
      (mk_db (audit_log db ++
                [create_evidence_audit db ev user (generate_id "E" he)
                                       (generate_id "V" hv) t3])
             (evidence db ++
                [mk_evidence (generate_id "E" he) fid (ec_name ev)
                             (ec_docType ev) t1])
             (evidence_versions db ++
                [mk_version (generate_id "V" hv) (generate_id "E" he) 1
                            (ec_expiry ev) (ec_notes ev) t2])
             (requests db) (request_items db) (auth_tokens db))
| eff_add_version a eid version t0 hv t1 t2 user row :
    require_role FACTORY a t0 db = (Ok user, db) ->
    fetchone (evidence_rows eid db) = Some row ->
    factory_differs (e_factory_id row) user = false ->
    pk_free v_id (generate_id "V" hv) (evidence_versions db) ->
    effect db (AddVersion a eid version t0 hv t1 t2)
      (mk_db (audit_log db ++
                [add_version_audit db eid user (generate_id "V" hv) t2])
             (evidence db)
             (evidence_versions db ++
                [mk_version (generate_id "V" hv) eid
                            (next_version_number eid db)
                            (vc_expiry version) (vc_notes version) t1])
             (requests db) (request_items db) (auth_tokens db))
| eff_create_request a request t0 hr t1 hex t2 user :
    require_role BUYER a t0 db = (Ok user, db) ->
    pk_free r_id (generate_id "R" hr) (requests db) ->
    NoDup (map i_id (new_item_rows (generate_id "R" hr) (rc_items request)
                                   hex 0)) ->
    (forall id,
       In id (map i_id (new_item_rows (generate_id "R" hr)
                                      (rc_items request) hex 0)) ->
       pk_free i_id id (request_items db)) ->
    effect db (CreateRequest a request t0 hr t1 hex t2)
      (mk_db (audit_log db ++
                [create_request_audit db request user (generate_id "R" hr)
                                      t2])
             (evidence db) (evidence_versions db)
             (requests db ++
                [mk_request (generate_id "R" hr) (userId user)
                            (rc_factoryId request) (rc_title request)
                            "pending" t1])
             (request_items db ++
                new_item_rows (generate_id "R" hr) (rc_items request) hex 0)
             (auth_tokens db))
| eff_fulfill a rid iid f t0 t1 t2 user rq it :
    require_role FACTORY a t0 db = (Ok user, db) ->
    fulfill_check rid iid f user db (Ok (rq, it)) ->
    effect db (FulfillItem a rid iid f t0 t1 t2)
      (with_audit_log (fulfill_updates rid iid f t1 db)
         (audit_log db ++ [fulfill_audit db rid iid f user rq it t2])).

(** ** Items and request status as seen by the queries *)

(** The row of [request_items] with a given primary key. *)
Definition item_by_id (item_id : string) (db : DB) : option item_row :=
  fetchone (filter (fun r => String.eqb (i_id r) item_id) (request_items db)).

(** What the [UPDATE] of a fulfilment makes of an item row. *)
Definition fulfilled_with (evidence_id version_id : string) (now : Z)
    (r : item_row) : item_row :=
  mk_item (i_id r) (i_request_id r) (i_doc_type r) "fulfilled"
          (Some evidence_id) (Some version_id) (Some now).

Definition is_fulfilled (r : item_row) : bool :=
  String.eqb (i_status r) "fulfilled".

(** The status that the specification derives from the items. *)
Definition derived_status (items : list item_row) : string :=
  if forallb is_fulfilled items then "completed" else "pending".

(** The sample run continued: F001 fulfils the item with version 1 of its
    evidence and then records a second version. *)
Definition fulfilled_db : DB :=
  Eval vm_compute in
    run [ FulfillItem (Some "Bearer tokF") "R0001" "I0002"
            (mk_FulfillRequest "E0003" "V0004") 20 21 22;
          AddVersion (Some "Bearer tokF") "E0003"
            (mk_VersionCreate (Some "renewed") None) 23 "000A" 24 25 ]
        sample_db.

(** What [UPDATE requests SET status = 'completed'] makes of a row. *)
Definition completed (r : request_row) : request_row :=
  mk_request (r_id r) (r_buyer_id r) (r_factory_id r) (r_title r)
             "completed" (r_created_at r).

(** ** Invariants of the reachable states *)

(** Item ids are unique and every item belongs to a request on record. *)
Definition items_keyed (db : DB) : Prop :=
  NoDup (map i_id (request_items db)) /\
  forall it, In it (request_items db) ->
             In (i_request_id it) (map r_id (requests db)).

(** The status that the code keeps in [requests.status]: a request without
    items is pending, any other has the derived status. *)
Definition stored_status (items : list item_row) : string :=
  match items with
  | [] => "pending"
  | _ => derived_status items
  end.

Definition status_kept (db : DB) : Prop :=
  forall rq, In rq (requests db) ->
             r_status rq = stored_status (items_of (r_id rq) db).

Definition requests_inv (db : DB) : Prop := items_keyed db /\ status_kept db.

(** Every version belongs to an evidence row on record, and the versions of
    an evidence id are numbered 1, 2, ... in the order of their insertion. *)
Definition versions_inv (db : DB) : Prop :=
  (forall v, In v (evidence_versions db) ->
             In (v_evidence_id v) (map e_id (evidence db))) /\
  forall eid,
    map v_version_number (versions_of eid db)
    = map Z.of_nat (seq 1 (List.length (versions_of eid db))).

(** A request on record that has no items. *)
Definition empty_request (rid : string) (rq : request_row) (db : DB) : Prop :=
  fetchone (request_rows rid db) = Some rq /\ items_of rid db = [].

(** ** Statements of the specification that the code does not satisfy *)

(** "A second fulfilment attempt on a fulfilled item does not change its
    recorded evidenceId, versionId or fulfilment timestamp." *)
Definition refulfill_keeps_record_on : Prop :=
  forall a rid iid f t0 t1 t2 db it it',
    item_by_id iid db = Some it ->
    i_status it = "fulfilled" ->
    item_by_id iid (snd (fulfill_request_item a rid iid f t0 t1 t2 db))
      = Some it' ->
    i_evidence_id it' = i_evidence_id it /\
    i_version_id it' = i_version_id it /\
    i_fulfilled_at it' = i_fulfilled_at it.

(** The sample run continued otherwise: the buyer also creates a request
    without items. *)
Definition empty_request_ops : list op :=
  sample_ops ++
  [ CreateRequest (Some "Bearer tokB") (mk_RequestCreate "F001" "Nothing" [])
      30 "00E0" 31 (fun _ => "0000") 32 ].

Definition empty_request_db : DB :=
  Eval vm_compute in run empty_request_ops init_db.

(** The sample run continued otherwise: the buyer also requests a test
    report from factory F002. *)
Definition two_factory_ops : list op :=
  sample_ops ++
  [ CreateRequest (Some "Bearer tokB")
      (mk_RequestCreate "F002" "Q2" [mk_RequestItem "Test Report"])
      13 "0007" 14 (fun _ => "0008") 15 ].

Definition two_factory_db : DB :=
  Eval vm_compute in run two_factory_ops init_db.

(** "For every request, after every successful fulfillItem the request's
    stored status is completed if and only if every item belonging to that
    request is fulfilled, and otherwise pending." *)
Definition every_request_has_derived_status_on : Prop :=
  forall db a rid iid f t0 t1 t2 resp db',
    reachable db ->
    fulfill_request_item a rid iid f t0 t1 t2 db = (Ok resp, db') ->
    forall rq, In rq (requests db') ->
               r_status rq = derived_status (items_of (r_id rq) db').

(** "A factory identity receives AuthorizationError (403) from every
    fulfillItem that targets evidence owned by another factory." *)
Definition foreign_evidence_always_403_on : Prop :=
  forall a rid iid f t0 t1 t2 db user ev,
    require_role FACTORY a t0 db = (Ok user, db) ->
    fetchone (evidence_rows (fr_evidenceId f) db) = Some ev ->
    factory_differs (e_factory_id ev) user = true ->
    exists detail,
      fst (fulfill_request_item a rid iid f t0 t1 t2 db)
      = Raise (HTTP 403 detail).

(** "Resolution fails with AuthenticationError when the current time is
    greater than or equal to the expiry instant." *)
Definition resolve_fails_from_expiry_on : Prop :=
  forall (db : DB) (header : string) (row : token_row) (now : Z),
    startswith "Bearer " header = true ->
    fetchone (token_rows (bearer_token header) db) = Some row ->
    t_expires_at row <= now ->
    exists detail,
      fst (get_current_user (Some header) now db)
      = Raise (HTTP 401 detail).

(** "The audit record of every successful mutating operation names the
    mutated entity": for [login] the mutated entity is the session, whose
    primary key is the token. *)
Definition login_audit_names_session_on : Prop :=
  forall request token t1 t2 t3 db resp db',
    login request token t1 t2 t3 db = (Ok resp, db') ->
    exists rec,
      audit_log db' = audit_log db ++ [rec] /\ a_object_id rec = token.

(** ** Proof automation *)

Ltac tx_unfold :=
  unfold bind, ret, raise, select, execute, get_db, on_table in *.

(** ** Further notions used for the rest of the code *)

(** A string without the character that [split(" ")] cuts at; the tokens of
    [secrets.token_urlsafe] are such strings. *)
Fixpoint no_space (s : string) : bool :=
  match s with
  | EmptyString => true
  | String c s' => negb (Ascii.eqb c " "%char) && no_space s'
  end.

(** [l'] is [l] with rows appended: nothing of [l] was changed or removed. *)
Definition extends {A} (l l' : list A) : Prop := exists s, l' = l ++ s.

(** The columns of a request row other than [status]. *)
Definition request_fixed (r : request_row)
    : string * string * string * string * Z :=
  (r_id r, r_buyer_id r, r_factory_id r, r_title r, r_created_at r).

(** The columns of an item row that no statement updates. *)
Definition item_fixed (r : item_row) : string * string * string :=
  (i_id r, i_request_id r, i_doc_type r).

(** The answer of [get_factory_requests] for one request row. *)
Definition request_view (db : DB) (row : request_row) : RequestView :=
  mk_RequestView (r_id row) (r_buyer_id row) (r_factory_id row)
                 (r_title row) (r_status row) (r_created_at row)
                 (items_of (r_id row) db).

(** Descending order of a key, as [ORDER BY key DESC] produces it. *)
Definition desc {A} (key : A -> Z) (x y : A) : Prop := key y <= key x.

(** The pending item row that [create_request] inserts for a generated id
    and a requested document. *)
Definition pending_item (request_id : string) (p : string * RequestItem)
    : item_row :=
  mk_item (fst p) request_id (ri_docType (snd p)) "pending" None None None.

(** ** Further invariants of the reachable states *)

(** The primary key of every table identifies one row. *)
Definition keys_unique (db : DB) : Prop :=
  NoDup (map e_id (evidence db)) /\
  NoDup (map v_id (evidence_versions db)) /\
  NoDup (map r_id (requests db)) /\
  NoDup (map i_id (request_items db)) /\
  NoDup (map t_token (auth_tokens db)).

(** The ids of the audit records are 1, 2, ... in the order of insertion. *)
Definition audit_ids_consecutive (db : DB) : Prop :=
  map a_id (audit_log db)
  = map Z.of_nat (seq 1 (List.length (audit_log db))).

(** A session is a factory session with a factory id or a buyer session
    without one. *)
Definition session_well_formed (t : token_row) : Prop :=
  (t_role t = "factory" /\ truthy (t_factory_id t) = true) \/
  (t_role t = "buyer" /\ truthy (t_factory_id t) = false).

(** Evidence belongs to a factory that has logged in. *)
Definition evidence_owned (db : DB) (e : evidence_row) : Prop :=
  e_factory_id e <> "" /\
  exists t, In t (auth_tokens db) /\ t_role t = "factory" /\
            t_factory_id t = Some (e_factory_id e).

Definition sessions_inv (db : DB) : Prop :=
  (forall t, In t (auth_tokens db) -> session_well_formed t) /\
  (forall e, In e (evidence db) -> evidence_owned db e).

(** An item is pending and carries nothing, or it is fulfilled and carries
    a version of evidence that belongs to the factory its request is
    addressed to. *)
Definition item_consistent (db : DB) (it : item_row) : Prop :=
  (i_status it = "pending" /\ i_evidence_id it = None /\
   i_version_id it = None /\ i_fulfilled_at it = None) \/
  (i_status it = "fulfilled" /\
   exists eid vid t rq ev v,
     i_evidence_id it = Some eid /\ i_version_id it = Some vid /\
     i_fulfilled_at it = Some t /\
     In rq (requests db) /\ r_id rq = i_request_id it /\
     In ev (evidence db) /\ e_id ev = eid /\
     e_factory_id ev = r_factory_id rq /\
     In v (evidence_versions db) /\ v_id v = vid /\ v_evidence_id v = eid).

Definition items_consistent (db : DB) : Prop :=
  forall it, In it (request_items db) -> item_consistent db it.

(** Every evidence row has its first version. *)
Definition evidence_versioned (db : DB) : Prop :=
  forall e, In e (evidence db) ->
    exists v, In v (evidence_versions db) /\ v_evidence_id v = e_id e /\
              v_version_number v = 1.

(** The [Authorization] header of a call that needs a session. *)
Definition op_header (o : op) : option (option string) :=
  match o with
  | CreateEvidence a _ _ _ _ _ _ _ => Some a
  | AddVersion a _ _ _ _ _ _ => Some a
  | CreateRequest a _ _ _ _ _ _ => Some a
  | FulfillItem a _ _ _ _ _ _ => Some a
  | _ => None
  end.

(** The reading of the clock that a call hands to [log_audit]. *)
Definition op_audit_time (o : op) : option Z :=
  match o with
  | Login _ _ _ _ t => Some t
  | CreateEvidence _ _ _ _ _ _ _ t => Some t
  | AddVersion _ _ _ _ _ _ t => Some t
  | CreateRequest _ _ _ _ _ _ t => Some t
  | FulfillItem _ _ _ _ _ _ t => Some t
  | _ => None
  end.

(** * Properties *)

(** ** Lists and query results *)

Lemma fetchone_in {A} (l : list A) (x : A) : fetchone l = Some x -> In x l.
Proof. destruct l; simpl; [discriminate|]. intros H; inversion H; auto. Qed.

Lemma fetchone_map {A B} (g : A -> B) (l : list A) :
  fetchone (map g l) = option_map g (fetchone l).
Proof. destruct l; reflexivity. Qed.

Lemma fetchone_filter_app {A} (p : A -> bool) (l l' : list A) (x : A) :
  fetchone (filter p l) = Some x -> fetchone (filter p (l ++ l')) = Some x.
Proof.
  rewrite filter_app. destruct (filter p l); simpl; [discriminate|auto].
Qed.

Lemma fetchone_filter_weaken {A} (p q : A -> bool) (l : list A) (x : A) :
  fetchone (filter (fun r => p r && q r) l) = Some x ->
  exists y, fetchone (filter p l) = Some y.
Proof.
  induction l as [|z l IH]; simpl; [discriminate|].
  destruct (p z); simpl; [eauto|]. exact IH.
Qed.

Lemma filter_none {A} (p : A -> bool) (l : list A) :
  (forall x, In x l -> p x = false) -> filter p l = [].
Proof.
  induction l as [|x l IH]; intros H; simpl; [reflexivity|].
  rewrite (H x) by (left; reflexivity). apply IH. intros y Hy. apply H.
  right. exact Hy.
Qed.

Lemma filter_all {A} (p : A -> bool) (l : list A) :
  (forall x, In x l -> p x = true) -> filter p l = l.
Proof.
  induction l as [|x l IH]; intros H; simpl; [reflexivity|].
  rewrite (H x) by (left; reflexivity). f_equal. apply IH. intros y Hy.
  apply H. right. exact Hy.
Qed.

Lemma filter_map_stable {A} (p : A -> bool) (g : A -> A) (l : list A) :
  (forall x, p (g x) = p x) -> filter p (map g l) = map g (filter p l).
Proof.
  intros Hp. induction l as [|x l IH]; simpl; [reflexivity|].
  rewrite Hp. destruct (p x); simpl; congruence.
Qed.

Lemma in_insert_desc {A} (key : A -> Z) (x y : A) (l : list A) :
  In y (insert_desc key x l) <-> y = x \/ In y l.
Proof.
  induction l as [|z l IH]; simpl.
  - intuition.
  - destruct (key z <=? key x); simpl; [intuition|].
    rewrite IH. intuition.
Qed.

Lemma in_order_by_desc {A} (key : A -> Z) (y : A) (l : list A) :
  In y (order_by_desc key l) <-> In y l.
Proof.
  unfold order_by_desc. induction l as [|x l IH]; simpl; [tauto|].
  rewrite in_insert_desc, IH. intuition.
Qed.

Lemma fold_left_add_shift (l : list Z) (a : Z) :
  fold_left Z.add l a = a + fold_left Z.add l 0.
Proof.
  revert a. induction l as [|x l IH]; intros a; simpl; [lia|].
  rewrite (IH (a + x)), (IH x). lia.
Qed.

(** ** Primary keys *)

Section PrimaryKeys.

Context {R : Type} (key : R -> string).

Lemma insert_pk_ok (column : string) (row : R)
    (rows rows' : list R) :
  insert_pk column key row rows = Ok rows' ->
  pk_free key (key row) rows /\ rows' = rows ++ [row].
Proof.
  unfold insert_pk, pk_free. destruct (existsb _ rows); [discriminate|].
  intros H; inversion H; auto.
Qed.

Lemma insert_pk_free (column : string) (row : R)
    (rows : list R) :
  pk_free key (key row) rows ->
  insert_pk column key row rows = Ok (rows ++ [row]).
Proof. unfold insert_pk, pk_free. intros ->. reflexivity. Qed.

Lemma pk_free_app (k : string) (l1 l2 : list R) :
  pk_free key k (l1 ++ l2) <-> pk_free key k l1 /\ pk_free key k l2.
Proof.
  unfold pk_free. rewrite existsb_app, orb_false_iff. tauto.
Qed.

Lemma pk_free_not_in (k : string) (l : list R) :
  pk_free key k l <-> ~ In k (map key l).
Proof.
  unfold pk_free. induction l as [|x l IH]; simpl.
  - tauto.
  - rewrite orb_false_iff, IH, String.eqb_neq. tauto.
Qed.

Lemma pk_free_filter (k : string) (l : list R) :
  pk_free key k l -> filter (fun r => String.eqb (key r) k) l = [].
Proof.
  unfold pk_free. intros H. apply filter_none. intros x Hx.
  destruct (String.eqb (key x) k) eqn:E; [|reflexivity].
  rewrite <- H. symmetry. apply existsb_exists. eauto.
Qed.

Lemma nodup_key_eq (l : list R) (x y : R) :
  NoDup (map key l) -> In x l -> In y l -> key x = key y -> x = y.
Proof.
  induction l as [|z l IH]; simpl; [tauto|].
  intros Hnd Hx Hy Hk. inversion Hnd as [|? ? Hnot Hnd']; subst.
  destruct Hx as [<-|Hx], Hy as [<-|Hy]; auto.
  - exfalso. apply Hnot. rewrite Hk. apply in_map. exact Hy.
  - exfalso. apply Hnot. rewrite <- Hk. apply in_map. exact Hx.
Qed.

End PrimaryKeys.

(** ** Identity resolution *)

Lemma get_current_user_reads (a : option string) (now : Z) (db : DB) :
  snd (get_current_user a now db) = db.
Proof.
  unfold get_current_user.
  destruct a as [header|]; [|reflexivity].
  destruct (negb _); [reflexivity|].
  tx_unfold.
  destruct (fetchone _) as [row|]; [|reflexivity].
  destruct (_ <? _); reflexivity.
Qed.

Lemma require_role_reads (r : Role) (a : option string) (now : Z) (db : DB) :
  snd (require_role r a now db) = db.
Proof.
  unfold require_role, bind.
  pose proof (get_current_user_reads a now db) as H.
  destruct (get_current_user a now db) as [[u|e] db']; simpl in *; subst;
    [|reflexivity].
  destruct (negb _); reflexivity.
Qed.

Lemma require_role_ok (r : Role) (a : option string) (now : Z) (db db' : DB)
    (u : User) :
  require_role r a now db = (Ok u, db') ->
  get_current_user a now db = (Ok u, db) /\ role u = Role_value r /\ db' = db.
Proof.
  intros H.
  pose proof (require_role_reads r a now db) as Hs.
  rewrite H in Hs; simpl in Hs; subst db'.
  unfold require_role, bind in H.
  pose proof (get_current_user_reads a now db) as Hg.
  destruct (get_current_user a now db) as [[u'|e] db'']; simpl in *; subst;
    [|discriminate].
  destruct (String.eqb (role u') (Role_value r)) eqn:E; simpl in H;
    [|discriminate].
  unfold ret in H. inversion H; subst.
  apply String.eqb_eq in E. auto.
Qed.

Lemma require_role_intro (r : Role) (a : option string) (now : Z) (db : DB)
    (u : User) :
  get_current_user a now db = (Ok u, db) -> role u = Role_value r ->
  require_role r a now db = (Ok u, db).
Proof.
  intros H Hr. unfold require_role, bind. rewrite H, Hr, String.eqb_refl.
  reflexivity.
Qed.

(** What a successful resolution says about the header and the session. *)
Lemma get_current_user_ok (a : option string) (now : Z) (db db' : DB)
    (u : User) :
  get_current_user a now db = (Ok u, db') ->
  exists header row,
    a = Some header /\
    fetchone (token_rows (bearer_token header) db) = Some row /\
    now <= t_expires_at row /\
    u = mk_User (t_user_id row) (t_role row) (t_factory_id row).
Proof.
  unfold get_current_user. destruct a as [header|]; [|discriminate].
  destruct (negb _); [discriminate|].
  tx_unfold.
  destruct (fetchone _) as [row|] eqn:Hrow; [|discriminate].
  destruct (t_expires_at row <? now) eqn:Hexp; [discriminate|].
  intros H; inversion H; subst.
  exists header, row. repeat split; auto.
  apply Z.ltb_ge in Hexp. exact Hexp.
Qed.

Lemma startswith_nonempty (p s : string) :
  p <> "" -> startswith p s = true -> String.eqb s "" = false.
Proof.
  intros Hp H. destruct s; [|reflexivity].
  destruct p; [congruence|discriminate].
Qed.

(** ** The fulfilment transaction, case by case *)

Lemma audit_log_fulfill_updates rid iid f t db :
  audit_log (fulfill_updates rid iid f t db) = audit_log db.
Proof.
  unfold fulfill_updates. destruct (counts_equal _); reflexivity.
Qed.

(** The transaction body does what its checks decide: an exception leaves
    the working state untouched, a pass performs the two UPDATEs and the
    audit INSERT. *)
Lemma fulfill_tx_cases rid iid f user t1 t2 db :
  exists c, fulfill_check rid iid f user db c /\
    fulfill_request_item_tx rid iid f user t1 t2 db =
    match c with
    | Raise e => (Raise e, db)
    | Ok (rq, it) =>
        let db2 := fulfill_updates rid iid f t1 db in
        (Ok tt, with_audit_log db2
                  (audit_log db2 ++
                     [fulfill_audit db rid iid f user rq it t2]))
    end.
Proof.
  unfold fulfill_request_item_tx. tx_unfold.
  destruct (fetchone (request_rows rid db)) as [rq|] eqn:Hrq;
    [|eexists; split; [apply check_request_missing; auto|reflexivity]].
  destruct (factory_differs (r_factory_id rq) user) eqn:Hf1;
    [eexists; split; [eapply check_request_foreign; eauto|reflexivity]|].
  destruct (fetchone (item_rows iid rid db)) as [it|] eqn:Hit;
    [|eexists; split; [eapply check_item_missing; eauto|reflexivity]].
  destruct (fetchone (evidence_rows (fr_evidenceId f) db)) as [ev|] eqn:Hev;
    [|eexists; split; [eapply check_evidence_missing; eauto|reflexivity]].
  destruct (factory_differs (e_factory_id ev) user) eqn:Hf2;
    [eexists; split; [eapply check_evidence_foreign; eauto|reflexivity]|].
  destruct (fetchone (version_rows (fr_versionId f) (fr_evidenceId f) db))
    as [v|] eqn:Hv;
    [|eexists; split; [eapply check_version_missing; eauto|reflexivity]].
  exists (Ok (rq, it)). split; [eapply check_passed; eauto|].
  cbv zeta. unfold fulfill_updates, fulfill_audit, log_audit. tx_unfold.
  destruct (counts_equal _); reflexivity.
Qed.

Lemma fulfill_endpoint a rid iid f t0 t1 t2 db user :
  require_role FACTORY a t0 db = (Ok user, db) ->
  fulfill_request_item a rid iid f t0 t1 t2 db =
  match fulfill_request_item_tx rid iid f user t1 t2 db with
  | (Ok _, db') => (Ok (mk_FulfillResponse true iid "fulfilled"), db')
  | (Raise e, _) => (Raise e, db)
  end.
Proof.
  intros H. unfold fulfill_request_item. unfold bind at 1. rewrite H.
  unfold bind, get_db, ret.
  destruct (fulfill_request_item_tx rid iid f user t1 t2 db) as [[u|e] db'];
    reflexivity.
Qed.

Lemma fulfill_endpoint_denied a rid iid f t0 t1 t2 db e db' :
  require_role FACTORY a t0 db = (Raise e, db') ->
  fulfill_request_item a rid iid f t0 t1 t2 db = (Raise e, db).
Proof.
  intros H. pose proof (require_role_reads FACTORY a t0 db) as Hs.
  rewrite H in Hs; simpl in Hs; subst.
  unfold fulfill_request_item. unfold bind at 1. rewrite H. reflexivity.
Qed.

Lemma fulfill_raise a rid iid f t0 t1 t2 db e db' :
  fulfill_request_item a rid iid f t0 t1 t2 db = (Raise e, db') -> db' = db.
Proof.
  pose proof (require_role_reads FACTORY a t0 db) as Hs.
  destruct (require_role FACTORY a t0 db) as [[user|e'] db0] eqn:Hrole;
    simpl in Hs; subst db0.
  - rewrite (fulfill_endpoint _ _ _ _ _ _ _ _ _ Hrole).
    destruct (fulfill_request_item_tx rid iid f user t1 t2 db)
      as [[u|e'] d]; intros H; inversion H; reflexivity.
  - rewrite (fulfill_endpoint_denied _ _ _ _ _ _ _ _ _ _ Hrole).
    intros H; inversion H; reflexivity.
Qed.

Lemma fulfill_tx_raise rid iid f user t1 t2 db e db' :
  fulfill_request_item_tx rid iid f user t1 t2 db = (Raise e, db') ->
  db' = db.
Proof.
  destruct (fulfill_tx_cases rid iid f user t1 t2 db) as [c [Hc Heq]].
  rewrite Heq. destruct c as [[rq it]|e']; intros H; inversion H.
  reflexivity.
Qed.

(** ** What each successful operation writes *)

Lemma get_db_raise {A} (body : Tx A) (db db' : DB) (e : exn) :
  get_db body db = (Raise e, db') -> db' = db.
Proof.
  unfold get_db. destruct (body db) as [[x|e'] d]; intros H; inversion H;
    reflexivity.
Qed.

(** The shape shared by the endpoints that depend on [require_role]. *)
Lemma guarded_endpoint {A B} (r : Role) (a : option string) (t0 : Z)
    (body : User -> Tx A) (k : User -> A -> B) (db : DB) :
  (user <- require_role r a t0 ;;
   x <- get_db (body user) ;; ret (k user x)) db
  = match require_role r a t0 db with
    | (Raise e, _) => (Raise e, db)
    | (Ok user, _) =>
        match body user db with
        | (Ok x, db') => (Ok (k user x), db')
        | (Raise e, _) => (Raise e, db)
        end
    end.
Proof.
  pose proof (require_role_reads r a t0 db) as Hs.
  unfold bind at 1.
  destruct (require_role r a t0 db) as [[user|e] db0]; simpl in Hs; subst;
    [|reflexivity].
  unfold bind, get_db, ret.
  destruct (body user db) as [[x|e] db']; reflexivity.
Qed.

Lemma login_ok request token t1 t2 t3 db resp db' :
  login request token t1 t2 t3 db = (Ok resp, db') ->
  pk_free t_token token (auth_tokens db) /\
  resp = mk_LoginResponse token (lr_userId request)
                          (Role_value (lr_role request))
                          (lr_factoryId request) /\
  db' = mk_db (audit_log db ++ [login_audit db request t3])
              (evidence db) (evidence_versions db) (requests db)
              (request_items db)
              (auth_tokens db ++ [login_token_row request token t1 t2]).
Proof.
  unfold login.
  destruct (is_factory _ && _); [discriminate|].
  destruct (is_buyer _ && _); [discriminate|].
  unfold insert_token, log_audit. tx_unfold.
  destruct (insert_pk _ _ _ _) as [rows|e] eqn:Hins; [|discriminate].
  apply insert_pk_ok in Hins. destruct Hins as [Hfree ->].
  simpl. intros H; inversion H; subst. auto.
Qed.

Lemma login_raise request token t1 t2 t3 db e db' :
  login request token t1 t2 t3 db = (Raise e, db') -> db' = db.
Proof.
  unfold login.
  destruct (is_factory _ && _); [intros H; inversion H; reflexivity|].
  destruct (is_buyer _ && _); [intros H; inversion H; reflexivity|].
  unfold bind at 1.
  destruct (get_db _ db) as [[x|e'] d] eqn:Hg.
  - discriminate.
  - apply get_db_raise in Hg. intros H; inversion H; subst. reflexivity.
Qed.

Lemma create_evidence_tx_ok ev user eid vid t1 t2 t3 db u db' :
  create_evidence_tx ev user eid vid t1 t2 t3 db = (Ok u, db') ->
  exists fid,
    factoryId user = Some fid /\
    pk_free e_id eid (evidence db) /\
    pk_free v_id vid (evidence_versions db) /\
    db' = mk_db (audit_log db ++ [create_evidence_audit db ev user eid vid t3])
                (evidence db ++ [mk_evidence eid fid (ec_name ev)
                                             (ec_docType ev) t1])
                (evidence_versions db ++
                   [mk_version vid eid 1 (ec_expiry ev) (ec_notes ev) t2])
                (requests db) (request_items db) (auth_tokens db).
Proof.
  unfold create_evidence_tx.
  destruct (factoryId user) as [fid|] eqn:Hfid; [|discriminate].
  unfold insert_evidence, insert_version, log_audit. tx_unfold.
  destruct (insert_pk "evidence.id" _ _ _) as [rows|e] eqn:He; [|discriminate].
  apply insert_pk_ok in He. destruct He as [Hfe ->]. simpl.
  destruct (insert_pk "evidence_versions.id" _ _ _) as [rows|e] eqn:Hv;
    [|discriminate].
  apply insert_pk_ok in Hv. destruct Hv as [Hfv ->]. simpl.
  intros H; inversion H; subst. exists fid.
  unfold create_evidence_audit. rewrite Hfid.
  repeat split; solve [reflexivity | assumption].
Qed.

Lemma create_evidence_cases a ev t0 he hv t1 t2 t3 db :
  create_evidence a ev t0 he hv t1 t2 t3 db
  = match require_role FACTORY a t0 db with
    | (Raise e, _) => (Raise e, db)
    | (Ok user, _) =>
        match create_evidence_tx ev user (generate_id "E" he)
                (generate_id "V" hv) t1 t2 t3 db with
        | (Ok _, db') =>
            (Ok (mk_EvidenceResponse (generate_id "E" he)
                                     (generate_id "V" hv)), db')
        | (Raise e, _) => (Raise e, db)
        end
    end.
Proof.
  unfold create_evidence.
  apply (guarded_endpoint FACTORY a t0
           (fun user => create_evidence_tx ev user (generate_id "E" he)
                          (generate_id "V" hv) t1 t2 t3)
           (fun _ _ => mk_EvidenceResponse (generate_id "E" he)
                                           (generate_id "V" hv))).
Qed.

Lemma add_evidence_version_tx_ok eid version user hv t1 t2 db vid db' :
  add_evidence_version_tx eid version user hv t1 t2 db = (Ok vid, db') ->
  exists row,
    fetchone (evidence_rows eid db) = Some row /\
    factory_differs (e_factory_id row) user = false /\
    pk_free v_id (generate_id "V" hv) (evidence_versions db) /\
    vid = generate_id "V" hv /\
    db' = mk_db (audit_log db ++ [add_version_audit db eid user vid t2])
                (evidence db)
                (evidence_versions db ++
                   [mk_version vid eid (next_version_number eid db)
                               (vc_expiry version) (vc_notes version) t1])
                (requests db) (request_items db) (auth_tokens db).
Proof.
  unfold add_evidence_version_tx, insert_version, log_audit. tx_unfold.
  destruct (fetchone (evidence_rows eid db)) as [row|] eqn:Hrow;
    [|discriminate].
  destruct (factory_differs _ _) eqn:Hf; [discriminate|].
  destruct (insert_pk _ _ _ _) as [rows|e] eqn:Hv; [|discriminate].
  apply insert_pk_ok in Hv. destruct Hv as [Hfv ->]. simpl.
  intros H; inversion H; subst. exists row.
  unfold add_version_audit, next_version_number.
  repeat split; solve [reflexivity | assumption].
Qed.

Lemma add_evidence_version_cases a eid version t0 hv t1 t2 db :
  add_evidence_version a eid version t0 hv t1 t2 db
  = match require_role FACTORY a t0 db with
    | (Raise e, _) => (Raise e, db)
    | (Ok user, _) =>
        match add_evidence_version_tx eid version user hv t1 t2 db with
        | (Ok vid, db') => (Ok (mk_EvidenceResponse eid vid), db')
        | (Raise e, _) => (Raise e, db)
        end
    end.
Proof.
  unfold add_evidence_version.
  apply (guarded_endpoint FACTORY a t0
           (fun user => add_evidence_version_tx eid version user hv t1 t2)
           (fun _ vid => mk_EvidenceResponse eid vid)).
Qed.

Lemma insert_items_ok rid items hex : forall k db ids db',
  insert_items rid items hex k db = (Ok ids, db') ->
  db' = with_request_items db
          (request_items db ++ new_item_rows rid items hex k) /\
  ids = map i_id (new_item_rows rid items hex k) /\
  NoDup (map i_id (new_item_rows rid items hex k)) /\
  (forall id, In id (map i_id (new_item_rows rid items hex k)) ->
              pk_free i_id id (request_items db)).
Proof.
  induction items as [|item rest IH]; intros k db ids db' H.
  - simpl in H. unfold ret in H. inversion H; subst. simpl.
    rewrite app_nil_r. destruct db'; repeat split; try constructor.
    intros id [].
  - simpl in H. unfold insert_item in H. tx_unfold.
    destruct (insert_pk _ _ _ _) as [rows|e] eqn:Hins; [|discriminate].
    apply insert_pk_ok in Hins. destruct Hins as [Hfree ->].
    simpl in Hfree.
    destruct (insert_items rid rest hex (S k) _) as [[ids'|e] db1] eqn:Hrec;
      [|discriminate].
    apply IH in Hrec. destruct Hrec as (-> & -> & Hnd & Hfr).
    inversion H; subst. simpl.
    repeat split.
    + unfold with_request_items. simpl. rewrite <- app_assoc. reflexivity.
    + constructor; [|exact Hnd].
      intros Hin. apply Hfr in Hin. simpl in Hin.
      apply pk_free_app in Hin. destruct Hin as [_ Hin].
      unfold pk_free in Hin. simpl in Hin.
      rewrite String.eqb_refl in Hin. discriminate.
    + intros id [<-|Hin]; [exact Hfree|].
      apply Hfr in Hin. simpl in Hin. apply pk_free_app in Hin. tauto.
Qed.

Lemma create_request_tx_ok request user rid t1 hex t2 db ids db' :
  create_request_tx request user rid t1 hex t2 db = (Ok ids, db') ->
  let rows := new_item_rows rid (rc_items request) hex 0 in
  pk_free r_id rid (requests db) /\
  ids = map i_id rows /\
  NoDup (map i_id rows) /\
  (forall id, In id (map i_id rows) -> pk_free i_id id (request_items db)) /\
  db' = mk_db (audit_log db ++ [create_request_audit db request user rid t2])
              (evidence db) (evidence_versions db)
              (requests db ++
                 [mk_request rid (userId user) (rc_factoryId request)
                             (rc_title request) "pending" t1])
              (request_items db ++ rows) (auth_tokens db).
Proof.
  unfold create_request_tx, insert_request, log_audit. tx_unfold.
  destruct (insert_pk _ _ _ _) as [rows|e] eqn:Hins; [|discriminate].
  apply insert_pk_ok in Hins. destruct Hins as [Hfree ->]. simpl in Hfree.
  destruct (insert_items _ _ _ _ _) as [[ids'|e] db1] eqn:Hitems;
    [|discriminate].
  apply insert_items_ok in Hitems. destruct Hitems as (-> & -> & Hnd & Hfr).
  simpl. intros H; inversion H; subst.
  repeat split; solve [reflexivity | assumption].
Qed.

Lemma create_request_cases a request t0 hr t1 hex t2 db :
  create_request a request t0 hr t1 hex t2 db
  = match require_role BUYER a t0 db with
    | (Raise e, _) => (Raise e, db)
    | (Ok user, _) =>
        match create_request_tx request user (generate_id "R" hr) t1 hex t2
                db with
        | (Ok ids, db') =>
            (Ok (mk_RequestCreated (generate_id "R" hr) "pending" ids), db')
        | (Raise e, _) => (Raise e, db)
        end
    end.
Proof.
  unfold create_request.
  apply (guarded_endpoint BUYER a t0
           (fun user => create_request_tx request user (generate_id "R" hr)
                          t1 hex t2)
           (fun _ ids => mk_RequestCreated (generate_id "R" hr) "pending"
                           ids)).
Qed.

Lemma fulfill_cases a rid iid f t0 t1 t2 db :
  fulfill_request_item a rid iid f t0 t1 t2 db
  = match require_role FACTORY a t0 db with
    | (Raise e, _) => (Raise e, db)
    | (Ok user, _) =>
        match fulfill_request_item_tx rid iid f user t1 t2 db with
        | (Ok _, db') => (Ok (mk_FulfillResponse true iid "fulfilled"), db')
        | (Raise e, _) => (Raise e, db)
        end
    end.
Proof.
  unfold fulfill_request_item.
  apply (guarded_endpoint FACTORY a t0
           (fun user => fulfill_request_item_tx rid iid f user t1 t2)
           (fun _ _ => mk_FulfillResponse true iid "fulfilled")).
Qed.

Lemma get_factory_requests_reads a t0 db :
  snd (get_factory_requests a t0 db) = db.
Proof.
  unfold get_factory_requests. unfold bind at 1.
  pose proof (require_role_reads FACTORY a t0 db) as Hs.
  destruct (require_role FACTORY a t0 db) as [[user|e] db0]; simpl in Hs;
    subst; reflexivity.
Qed.

Lemma get_audit_log_reads a limit t0 db :
  snd (get_audit_log a limit t0 db) = db.
Proof.
  unfold get_audit_log. unfold bind at 1.
  pose proof (get_current_user_reads a t0 db) as Hs.
  destruct (get_current_user a t0 db) as [[user|e] db0]; simpl in Hs;
    subst; [|reflexivity].
  destruct (fits_sqlite_integer limit); reflexivity.
Qed.

Lemma fulfill_ok a rid iid f t0 t1 t2 db resp db' :
  fulfill_request_item a rid iid f t0 t1 t2 db = (Ok resp, db') ->
  exists user rq it,
    require_role FACTORY a t0 db = (Ok user, db) /\
    fulfill_check rid iid f user db (Ok (rq, it)) /\
    resp = mk_FulfillResponse true iid "fulfilled" /\
    db' = with_audit_log (fulfill_updates rid iid f t1 db)
            (audit_log db ++ [fulfill_audit db rid iid f user rq it t2]).
Proof.
  rewrite fulfill_cases.
  pose proof (require_role_reads FACTORY a t0 db) as Hs.
  destruct (require_role FACTORY a t0 db) as [[user|e] db0]; simpl in Hs;
    subst; [|discriminate].
  destruct (fulfill_tx_cases rid iid f user t1 t2 db) as [c [Hc Heq]].
  rewrite Heq. destruct c as [[rq it]|e]; [|discriminate].
  cbv zeta. rewrite audit_log_fulfill_updates.
  intros H; inversion H; subst. exists user, rq, it. auto.
Qed.

(** ** Every call either changes nothing or has one of the listed effects *)

Lemma exec_effect (o : op) (db : DB) :
  exec o db = db \/ effect db o (exec o db).
Proof.
  destruct o; simpl.
  - destruct (login request token t_issue t_created t_audit db)
      as [[resp|e] db'] eqn:H; simpl.
    + apply login_ok in H. destruct H as (Hfree & _ & ->).
      right. constructor. exact Hfree.
    + apply login_raise in H. auto.
  - rewrite create_evidence_cases.
    destruct (require_role FACTORY authorization t_auth db)
      as [[user|e] db0] eqn:Hrole; [|auto].
    pose proof (require_role_ok _ _ _ _ _ _ Hrole) as (_ & _ & ->).
    destruct (create_evidence_tx _ _ _ _ _ _ _ db) as [[u|e] db1] eqn:H;
      [|auto].
    apply create_evidence_tx_ok in H.
    destruct H as (fid & Hfid & Hfe & Hfv & ->).
    right. simpl. econstructor; eauto.
  - rewrite add_evidence_version_cases.
    destruct (require_role FACTORY authorization t_auth db)
      as [[user|e] db0] eqn:Hrole; [|auto].
    pose proof (require_role_ok _ _ _ _ _ _ Hrole) as (_ & _ & ->).
    destruct (add_evidence_version_tx _ _ _ _ _ _ db) as [[u|e] db1] eqn:H;
      [|auto].
    apply add_evidence_version_tx_ok in H.
    destruct H as (row & Hrow & Hsame & Hfv & -> & ->).
    right. simpl. econstructor; eauto.
  - rewrite create_request_cases.
    destruct (require_role BUYER authorization t_auth db)
      as [[user|e] db0] eqn:Hrole; [|auto].
    pose proof (require_role_ok _ _ _ _ _ _ Hrole) as (_ & _ & ->).
    destruct (create_request_tx _ _ _ _ _ _ db) as [[u|e] db1] eqn:H;
      [|auto].
    apply create_request_tx_ok in H.
    destruct H as (Hfr & _ & Hnd & Hfi & ->).
    right. simpl. econstructor; eauto.
  - left. apply get_factory_requests_reads.
  - destruct (fulfill_request_item authorization request_id item_id fulfill
                t_auth t_fulfilled t_audit db) as [[resp|e] db'] eqn:H.
    + apply fulfill_ok in H.
      destruct H as (user & rq & it & Hrole & Hc & _ & ->).
      right. simpl. econstructor; eauto.
    + left. simpl. eapply fulfill_raise; eauto.
  - left. apply get_audit_log_reads.
  - auto.
Qed.

(** A property kept by every effect holds after every run. *)
Lemma run_invariant (P : DB -> Prop) :
  (forall db o db', P db -> effect db o db' -> P db') ->
  forall ops db, P db -> P (run ops db).
Proof.
  intros Hstep ops. unfold run.
  induction ops as [|o ops IH]; intros db HP; simpl; [exact HP|].
  apply IH. destruct (exec_effect o db) as [->|He]; [exact HP|].
  eapply Hstep; eauto.
Qed.

Lemma run_app (ops1 ops2 : list op) (db : DB) :
  run (ops1 ++ ops2) db = run ops2 (run ops1 db).
Proof. unfold run. apply fold_left_app. Qed.

Lemma reachable_invariant (P : DB -> Prop) :
  P init_db ->
  (forall db o db', P db -> effect db o db' -> P db') ->
  forall db, reachable db -> P db.
Proof.
  intros H0 Hstep db [ops ->]. apply run_invariant; assumption.
Qed.

Lemma reachable_run (ops : list op) (db : DB) :
  reachable db -> reachable (run ops db).
Proof.
  intros [ops0 ->]. exists (ops0 ++ ops). symmetry. apply run_app.
Qed.

(** ** Queries over appended and updated tables *)

Lemma request_items_update_item eid vid now iid db :
  request_items (update_item eid vid now iid db)
  = map (fun r => if String.eqb (i_id r) iid
                  then fulfilled_with eid vid now r else r)
        (request_items db).
Proof. reflexivity. Qed.

Lemma request_items_fulfill_updates rid iid f t db :
  request_items (fulfill_updates rid iid f t db)
  = map (fun r => if String.eqb (i_id r) iid
                  then fulfilled_with (fr_evidenceId f) (fr_versionId f) t r
                  else r)
        (request_items db).
Proof.
  unfold fulfill_updates. destruct (counts_equal _); reflexivity.
Qed.

Lemma item_by_id_fulfill_updates rid iid f t db iid' :
  item_by_id iid' (fulfill_updates rid iid f t db)
  = option_map
      (fun r => if String.eqb iid' iid
                then fulfilled_with (fr_evidenceId f) (fr_versionId f) t r
                else r)
      (item_by_id iid' db).
Proof.
  unfold item_by_id. rewrite request_items_fulfill_updates.
  rewrite filter_map_stable
    by (intros x; destruct (String.eqb (i_id x) iid); reflexivity).
  rewrite fetchone_map.
  destruct (fetchone _) as [r|] eqn:Hr; simpl; [|reflexivity].
  destruct (filter _ _) as [|r0 l0] eqn:Hf; [discriminate|].
  simpl in Hr. inversion Hr; subst r0.
  assert (Hin : In r (filter (fun r => String.eqb (i_id r) iid')
                             (request_items db)))
    by (rewrite Hf; left; reflexivity).
  apply filter_In in Hin. destruct Hin as [_ Hid].
  apply String.eqb_eq in Hid. rewrite Hid. reflexivity.
Qed.

(** One call does to an item what a fulfilment of that item does, or
    nothing. *)
Lemma exec_item (o : op) (db : DB) (iid : string) (it : item_row) :
  item_by_id iid db = Some it ->
  item_by_id iid (exec o db) = Some it \/
  exists a rid f t0 t1 t2,
    o = FulfillItem a rid iid f t0 t1 t2 /\
    item_by_id iid (exec o db)
    = Some (fulfilled_with (fr_evidenceId f) (fr_versionId f) t1 it).
Proof.
  intros Hit.
  destruct (exec_effect o db) as [->|He]; [auto|].
  remember (exec o db) as db' eqn:Hdb'. clear Hdb'.
  inversion He; subst; auto.
  - left. unfold item_by_id in *. simpl.
    apply fetchone_filter_app. exact Hit.
  - assert (Hq : item_by_id iid
                   (with_audit_log (fulfill_updates rid iid0 f t1 db)
                      (audit_log db ++
                         [fulfill_audit db rid iid0 f user rq it0 t2]))
                 = item_by_id iid (fulfill_updates rid iid0 f t1 db))
      by reflexivity.
    rewrite Hq, item_by_id_fulfill_updates, Hit. simpl.
    destruct (String.eqb iid iid0) eqn:E; [|auto].
    apply String.eqb_eq in E. subst iid0. right.
    exists a, rid, f, t0, t1, t2. auto.
Qed.

(** ** The counts of [fulfill_request_item] *)

Lemma fulfilled_sum_bound (l : list item_row) :
  let s := fold_left Z.add
             (map (fun r => if String.eqb (i_status r) "fulfilled"
                            then 1 else 0) l) 0 in
  0 <= s <= Z.of_nat (List.length l) /\
  (s = Z.of_nat (List.length l) <-> forallb is_fulfilled l = true).
Proof.
  induction l as [|x l IH]; cbv zeta in *.
  - simpl. split; [lia|]. tauto.
  - cbn [map fold_left List.length forallb].
    rewrite fold_left_add_shift, Nat2Z.inj_succ.
    destruct IH as [Hb Hiff]. unfold is_fulfilled at 1.
    destruct (String.eqb (i_status x) "fulfilled");
      cbn [andb]; rewrite ?Z.add_0_l.
    + split; [lia|]. rewrite <- Hiff. lia.
    + split; [lia|]. split; [lia|discriminate].
Qed.

Lemma counts_equal_spec (rid : string) (db : DB) :
  counts_equal (item_counts rid db)
  = match items_of rid db with
    | [] => false
    | _ => forallb is_fulfilled (items_of rid db)
    end.
Proof.
  unfold counts_equal, item_counts, sql_sum, sql_count. simpl.
  destruct (items_of rid db) as [|x l] eqn:E; [reflexivity|].
  remember (x :: l) as items.
  destruct (map _ items) eqn:Em; [subst; discriminate|].
  rewrite <- Em. clear Em.
  pose proof (fulfilled_sum_bound items) as [Hb Hiff]. cbv zeta in *.
  destruct (forallb is_fulfilled items) eqn:Hall.
  - apply Z.eqb_eq. symmetry. apply Hiff. reflexivity.
  - apply Z.eqb_neq. intros Heq. symmetry in Heq. apply Hiff in Heq.
    discriminate.
Qed.

Lemma counts_equal_stored (rid : string) (db : DB) :
  stored_status (items_of rid db)
  = if counts_equal (item_counts rid db) then "completed" else "pending".
Proof.
  rewrite counts_equal_spec. unfold stored_status, derived_status.
  destruct (items_of rid db); reflexivity.
Qed.

(** ** Requests and their items under the effects *)

Lemma new_item_rows_in rid items hex : forall k r,
  In r (new_item_rows rid items hex k) ->
  i_request_id r = rid /\ i_status r = "pending".
Proof.
  induction items as [|item rest IH]; intros k r; simpl; [tauto|].
  intros [<-|Hin]; [auto|]. eapply IH; eauto.
Qed.

Lemma items_of_unknown_request (rid : string) (db : DB) :
  items_keyed db -> pk_free r_id rid (requests db) -> items_of rid db = [].
Proof.
  intros [_ Hfk] Hfree. apply filter_none. intros it Hin.
  apply String.eqb_neq. intros Heq. apply Hfk in Hin. rewrite Heq in Hin.
  apply pk_free_not_in in Hfree. contradiction.
Qed.

Lemma requests_fulfill_updates rid iid f t db :
  requests (fulfill_updates rid iid f t db)
  = if counts_equal
         (item_counts rid (update_item (fr_evidenceId f) (fr_versionId f)
                                       t iid db))
    then map (fun r => if String.eqb (r_id r) rid then completed r else r)
             (requests db)
    else requests db.
Proof.
  unfold fulfill_updates. destruct (counts_equal _); reflexivity.
Qed.

Lemma items_of_fulfill_updates rid iid f t db x :
  items_of x (fulfill_updates rid iid f t db)
  = map (fun r => if String.eqb (i_id r) iid
                  then fulfilled_with (fr_evidenceId f) (fr_versionId f) t r
                  else r)
        (items_of x db).
Proof.
  unfold items_of. rewrite request_items_fulfill_updates.
  apply filter_map_stable.
  intros r. destruct (String.eqb (i_id r) iid); reflexivity.
Qed.

Lemma items_of_update_item eid vid t iid db x :
  items_of x (update_item eid vid t iid db)
  = map (fun r => if String.eqb (i_id r) iid
                  then fulfilled_with eid vid t r else r)
        (items_of x db).
Proof.
  unfold items_of. rewrite request_items_update_item.
  apply filter_map_stable.
  intros r. destruct (String.eqb (i_id r) iid); reflexivity.
Qed.

Lemma forallb_fulfilled_update eid vid t iid (l : list item_row) :
  forallb is_fulfilled l = true ->
  forallb is_fulfilled
    (map (fun r => if String.eqb (i_id r) iid
                   then fulfilled_with eid vid t r else r) l) = true.
Proof.
  induction l as [|x l IH]; simpl; [auto|].
  rewrite andb_true_iff. intros [Hx Hl]. rewrite (IH Hl), andb_true_r.
  destruct (String.eqb (i_id x) iid); [reflexivity|exact Hx].
Qed.

Lemma create_request_keeps_inv db rid rq_new rows audit :
  requests_inv db ->
  r_id rq_new = rid -> r_status rq_new = "pending" ->
  pk_free r_id rid (requests db) ->
  NoDup (map i_id rows) ->
  (forall id, In id (map i_id rows) -> pk_free i_id id (request_items db)) ->
  (forall r, In r rows -> i_request_id r = rid /\ i_status r = "pending") ->
  requests_inv (mk_db audit (evidence db) (evidence_versions db)
                      (requests db ++ [rq_new]) (request_items db ++ rows)
                      (auth_tokens db)).
Proof.
  intros [[Hnd Hfk] Hst] Hid Hpend Hfree Hndr Hfri Hrows.
  assert (Hnone : items_of rid db = [])
    by (apply items_of_unknown_request; [split|]; assumption).
  split; [split|]; simpl.
  - rewrite map_app. apply NoDup_app; [assumption|assumption|].
    intros id Hin Hin'. apply Hfri in Hin'. apply pk_free_not_in in Hin'.
    contradiction.
  - intros it Hin. rewrite map_app. apply in_or_app.
    apply in_app_or in Hin. destruct Hin as [Hin|Hin].
    + left. apply Hfk. exact Hin.
    + right. simpl. left. rewrite Hid. symmetry. apply Hrows. exact Hin.
  - intros rq Hin. unfold items_of. simpl. rewrite filter_app.
    apply in_app_or in Hin. destruct Hin as [Hin|[<-|[]]].
    + assert (Hne : r_id rq <> rid).
      { intros Heq. apply pk_free_not_in in Hfree. apply Hfree.
        rewrite <- Heq. apply in_map. exact Hin. }
      rewrite (filter_none _ rows), app_nil_r; [apply Hst; exact Hin|].
      intros r Hr. apply String.eqb_neq. apply Hrows in Hr.
      intuition congruence.
    + rewrite Hid. fold (items_of rid db). rewrite Hnone. simpl.
      rewrite filter_all
        by (intros r Hr; apply String.eqb_eq; apply Hrows; exact Hr).
      rewrite Hpend. destruct rows as [|r rows']; [reflexivity|].
      unfold stored_status, derived_status. simpl.
      destruct (Hrows r (or_introl eq_refl)) as [_ Hp].
      unfold is_fulfilled. rewrite Hp. reflexivity.
Qed.

Lemma fulfill_keeps_inv db rid iid f t rq it audit :
  requests_inv db ->
  fetchone (request_rows rid db) = Some rq ->
  fetchone (item_rows iid rid db) = Some it ->
  requests_inv (with_audit_log (fulfill_updates rid iid f t db) audit).
Proof.
  intros [[Hnd Hfk] Hst] Hrq Hit.
  set (upd := fun r => if String.eqb (i_id r) iid
                       then fulfilled_with (fr_evidenceId f)
                                           (fr_versionId f) t r
                       else r).
  assert (Hupd_id : forall r, i_id (upd r) = i_id r)
    by (intros r; unfold upd; destruct (String.eqb (i_id r) iid);
        reflexivity).
  assert (Hupd_rid : forall r, i_request_id (upd r) = i_request_id r)
    by (intros r; unfold upd; destruct (String.eqb (i_id r) iid);
        reflexivity).
  apply fetchone_in in Hit. apply filter_In in Hit.
  destruct Hit as [Hit_in Hit_key]. apply andb_true_iff in Hit_key.
  destruct Hit_key as [Hit_id Hit_rid].
  apply String.eqb_eq in Hit_id. apply String.eqb_eq in Hit_rid.
  assert (Hids : map r_id (requests (fulfill_updates rid iid f t db))
                 = map r_id (requests db)).
  { rewrite requests_fulfill_updates. destruct (counts_equal _); [|auto].
    rewrite map_map. apply map_ext. intros r.
    destruct (String.eqb (r_id r) rid); reflexivity. }
  split; [split|].
  - change (NoDup (map i_id (request_items
                               (fulfill_updates rid iid f t db)))).
    rewrite request_items_fulfill_updates, map_map.
    rewrite (map_ext _ i_id Hupd_id). exact Hnd.
  - intros it' Hin.
    change (In it' (request_items (fulfill_updates rid iid f t db))) in Hin.
    change (In (i_request_id it')
               (map r_id (requests (fulfill_updates rid iid f t db)))).
    rewrite Hids. rewrite request_items_fulfill_updates in Hin.
    apply in_map_iff in Hin. destruct Hin as (r & <- & Hr).
    fold (upd r). rewrite Hupd_rid. apply Hfk. exact Hr.
  - intros rq' Hin.
    change (In rq' (requests (fulfill_updates rid iid f t db))) in Hin.
    change (r_status rq'
            = stored_status (items_of (r_id rq')
                                      (fulfill_updates rid iid f t db))).
    rewrite items_of_fulfill_updates. fold upd.
    rewrite requests_fulfill_updates in Hin.
    pose proof (counts_equal_stored rid
                  (update_item (fr_evidenceId f) (fr_versionId f) t iid db))
      as Hcount.
    rewrite items_of_update_item in Hcount. fold upd in Hcount.
    assert (Hother : forall r, In r (requests db) -> r_id r <> rid ->
              r_status r = stored_status (map upd (items_of (r_id r) db))).
    { intros r Hr Hne. rewrite (Hst r Hr). f_equal.
      rewrite <- (map_id (items_of (r_id r) db)) at 1.
      apply map_ext_in. intros x Hx. apply filter_In in Hx.
      destruct Hx as [Hx Hxr]. apply String.eqb_eq in Hxr.
      unfold upd. destruct (String.eqb (i_id x) iid) eqn:E; [|reflexivity].
      apply String.eqb_eq in E. exfalso. apply Hne.
      assert (x = it) by (eapply nodup_key_eq; eauto; congruence).
      congruence. }
    destruct (counts_equal _) eqn:Hc.
    + apply in_map_iff in Hin. destruct Hin as (r & <- & Hr).
      destruct (String.eqb (r_id r) rid) eqn:E.
      * apply String.eqb_eq in E. simpl. rewrite E, Hcount. reflexivity.
      * apply String.eqb_neq in E. apply Hother; assumption.
    + destruct (String.eqb (r_id rq') rid) eqn:E.
      * apply String.eqb_eq in E. rewrite E, Hcount, (Hst rq' Hin), E.
        unfold stored_status, derived_status.
        destruct (items_of rid db) as [|x l] eqn:Hitems; [reflexivity|].
        destruct (forallb is_fulfilled (x :: l)) eqn:Hall; [|reflexivity].
        exfalso.
        pose proof (counts_equal_spec rid
                      (update_item (fr_evidenceId f) (fr_versionId f) t iid
                                   db)) as Hspec.
        rewrite Hc, items_of_update_item, Hitems in Hspec.
        fold upd in Hspec.
        rewrite <- Hitems in Hspec, Hall.
        pose proof (forallb_fulfilled_update (fr_evidenceId f)
                      (fr_versionId f) t iid _ Hall) as Hall'.
        fold upd in Hall'. rewrite Hitems in Hspec, Hall'.
        simpl map in Hspec. cbv iota in Hspec. simpl map in Hall'.
        congruence.
      * apply String.eqb_neq in E. apply Hother; assumption.
Qed.

Lemma effect_keeps_requests_inv db o db' :
  requests_inv db -> effect db o db' -> requests_inv db'.
Proof.
  intros Hinv He. inversion He; subst; try exact Hinv.
  - apply (create_request_keeps_inv db (generate_id "R" hr)); auto.
    apply new_item_rows_in.
  - match goal with Hc : fulfill_check _ _ _ _ _ _ |- _ =>
      inversion Hc; subst end.
    eapply fulfill_keeps_inv; eauto.
Qed.

Lemma reachable_requests_inv db : reachable db -> requests_inv db.
Proof.
  apply reachable_invariant.
  - split; [split|]; simpl; [apply NoDup_nil|intros ? []|intros ? []].
  - intros. eapply effect_keeps_requests_inv; eauto.
Qed.

Lemma request_rows_fulfill_updates rid iid f t db x :
  fetchone (request_rows x (fulfill_updates rid iid f t db))
  = fetchone (request_rows x db) \/
  fetchone (request_rows x (fulfill_updates rid iid f t db))
  = option_map completed (fetchone (request_rows x db)).
Proof.
  unfold request_rows. rewrite requests_fulfill_updates.
  destruct (counts_equal _); [|auto].
  rewrite filter_map_stable
    by (intros r; destruct (String.eqb (r_id r) rid); reflexivity).
  rewrite fetchone_map.
  destruct (fetchone _) as [r|]; simpl; [|auto].
  destruct (String.eqb (r_id r) rid); auto.
Qed.

(** One call leaves the row of a request as it is or sets its status to
    completed. *)
Lemma exec_request (o : op) (db : DB) (rid : string) (rq : request_row) :
  fetchone (request_rows rid db) = Some rq ->
  fetchone (request_rows rid (exec o db)) = Some rq \/
  fetchone (request_rows rid (exec o db)) = Some (completed rq).
Proof.
  intros Hrq.
  destruct (exec_effect o db) as [->|He]; [auto|].
  remember (exec o db) as db' eqn:Hdb'. clear Hdb'.
  inversion He; subst; auto.
  - left. unfold request_rows in *. simpl.
    apply fetchone_filter_app. exact Hrq.
  - change (fetchone (request_rows rid (fulfill_updates rid0 iid f t1 db))
            = Some rq \/
            fetchone (request_rows rid (fulfill_updates rid0 iid f t1 db))
            = Some (completed rq)).
    destruct (request_rows_fulfill_updates rid0 iid f t1 db rid) as [E|E];
      rewrite E, Hrq; auto.
Qed.

(** ** Version numbers under the effects *)

Lemma fold_max_seq (n a : nat) :
  fold_left Z.max (map Z.of_nat (seq (S a) n)) (Z.of_nat a)
  = Z.of_nat (a + n).
Proof.
  revert a. induction n as [|n IH]; intros a; simpl.
  - f_equal. lia.
  - replace (Z.max (Z.of_nat a) (Z.pos (Pos.of_succ_nat a)))
      with (Z.of_nat (S a)) by lia.
    rewrite IH. f_equal. lia.
Qed.

Lemma sql_max_seq (n : nat) :
  match sql_max (map Z.of_nat (seq 1 n)) with
  | Some m => m
  | None => 0
  end = Z.of_nat n.
Proof.
  destruct n as [|n]; [reflexivity|].
  cbn [seq map sql_max]. rewrite (fold_max_seq n 1). f_equal.
Qed.

Lemma versions_of_app eid db v audit ev :
  versions_of eid (mk_db audit ev (evidence_versions db ++ [v])
                         (requests db) (request_items db) (auth_tokens db))
  = versions_of eid db
    ++ (if String.eqb (v_evidence_id v) eid then [v] else []).
Proof. unfold versions_of. simpl. apply filter_app. Qed.

Lemma versions_of_unknown_evidence eid db :
  versions_inv db -> pk_free e_id eid (evidence db) -> versions_of eid db = [].
Proof.
  intros [Hfk _] Hfree. apply filter_none. intros v Hin.
  apply String.eqb_neq. intros Heq. apply Hfk in Hin. rewrite Heq in Hin.
  apply pk_free_not_in in Hfree. contradiction.
Qed.

Lemma numbered_snoc (l : list version_row) (v : version_row) :
  map v_version_number l = map Z.of_nat (seq 1 (List.length l)) ->
  v_version_number v = Z.of_nat (List.length l) + 1 ->
  map v_version_number (l ++ [v])
  = map Z.of_nat (seq 1 (List.length (l ++ [v]))).
Proof.
  intros Hl Hv. rewrite last_length, seq_S, !map_app, Hl. simpl.
  rewrite Hv. do 2 f_equal. lia.
Qed.

Lemma next_version_number_numbered eid db :
  versions_inv db ->
  next_version_number eid db
  = Z.of_nat (List.length (versions_of eid db)) + 1.
Proof.
  intros [_ Hnum]. unfold next_version_number. rewrite Hnum.
  rewrite sql_max_seq. reflexivity.
Qed.

Lemma versions_inv_ext db db' :
  evidence db' = evidence db ->
  evidence_versions db' = evidence_versions db ->
  versions_inv db -> versions_inv db'.
Proof.
  unfold versions_inv, versions_of. intros -> ->. auto.
Qed.

Lemma effect_keeps_versions_inv db o db' :
  versions_inv db -> effect db o db' -> versions_inv db'.
Proof.
  intros Hinv He. pose proof Hinv as [Hfk Hnum].
  inversion He; subst; try exact Hinv.
  - split.
    + intros v Hin. simpl in *. rewrite map_app. apply in_or_app.
      apply in_app_or in Hin. destruct Hin as [Hin|[<-|[]]].
      * left. apply Hfk. exact Hin.
      * right. simpl. auto.
    + intros eid. rewrite versions_of_app. simpl v_evidence_id.
      destruct (String.eqb (generate_id "E" he) eid) eqn:E.
      * apply String.eqb_eq in E. subst eid.
        rewrite (versions_of_unknown_evidence _ db Hinv) by assumption.
        reflexivity.
      * rewrite app_nil_r. apply Hnum.
  - split.
    + intros v Hin. simpl in *.
      apply in_app_or in Hin. destruct Hin as [Hin|[<-|[]]].
      * apply Hfk. exact Hin.
      * simpl.
        match goal with Hr : fetchone (evidence_rows _ _) = Some _ |- _ =>
          apply fetchone_in in Hr; apply filter_In in Hr;
          destruct Hr as [Hr Hk]; apply String.eqb_eq in Hk;
          rewrite <- Hk; apply in_map; exact Hr
        end.
    + intros x. rewrite versions_of_app. simpl v_evidence_id.
      destruct (String.eqb eid x) eqn:E.
      * apply String.eqb_eq in E. subst x.
        apply numbered_snoc; [apply Hnum|].
        simpl. apply next_version_number_numbered. exact Hinv.
      * rewrite app_nil_r. apply Hnum.
  - eapply versions_inv_ext; [| |exact Hinv]; simpl;
      unfold fulfill_updates; destruct (counts_equal _); reflexivity.
Qed.

Lemma reachable_versions_inv db : reachable db -> versions_inv db.
Proof.
  apply reachable_invariant.
  - split; [intros ? []|intros eid; reflexivity].
  - intros. eapply effect_keeps_versions_inv; eauto.
Qed.

(** ** Primary keys under effects *)

Lemma fixed_fulfill_updates rid iid f t db :
  evidence (fulfill_updates rid iid f t db) = evidence db /\
  evidence_versions (fulfill_updates rid iid f t db) = evidence_versions db /\
  auth_tokens (fulfill_updates rid iid f t db) = auth_tokens db /\
  map request_fixed (requests (fulfill_updates rid iid f t db))
  = map request_fixed (requests db) /\
  map item_fixed (request_items (fulfill_updates rid iid f t db))
  = map item_fixed (request_items db).
Proof.
  assert (Hitems : map item_fixed
                     (request_items (fulfill_updates rid iid f t db))
                   = map item_fixed (request_items db)).
  { rewrite request_items_fulfill_updates, map_map. apply map_ext.
    intros r. destruct (String.eqb (i_id r) iid); reflexivity. }
  assert (Hreq : map request_fixed (requests (fulfill_updates rid iid f t db))
                 = map request_fixed (requests db)).
  { rewrite requests_fulfill_updates. destruct (counts_equal _); [|auto].
    rewrite map_map. apply map_ext.
    intros r. destruct (String.eqb (r_id r) rid); reflexivity. }
  unfold fulfill_updates in *.
  destruct (counts_equal _); simpl in *; auto.
Qed.

Lemma nodup_snoc {R} (key : R -> string) (l : list R) (x : R) :
  NoDup (map key l) -> pk_free key (key x) l -> NoDup (map key (l ++ [x])).
Proof.
  intros Hnd Hfree. rewrite map_app. apply NoDup_app.
  - exact Hnd.
  - simpl. constructor; [intros []|constructor].
  - intros k Hin [<-|[]]. apply pk_free_not_in in Hfree. contradiction.
Qed.

Lemma request_ids_fulfill_updates rid iid f t db :
  map r_id (requests (fulfill_updates rid iid f t db))
  = map r_id (requests db).
Proof.
  rewrite requests_fulfill_updates. destruct (counts_equal _); [|auto].
  rewrite map_map. apply map_ext. intros r.
  destruct (String.eqb (r_id r) rid); reflexivity.
Qed.

Lemma item_ids_fulfill_updates rid iid f t db :
  map i_id (request_items (fulfill_updates rid iid f t db))
  = map i_id (request_items db).
Proof.
  rewrite request_items_fulfill_updates, map_map. apply map_ext. intros r.
  destruct (String.eqb (i_id r) iid); reflexivity.
Qed.

Lemma effect_keeps_keys_unique db o db' :
  keys_unique db -> effect db o db' -> keys_unique db'.
Proof.
  intros (He & Hv & Hr & Hi & Ht) Heff.
  inversion Heff; subst; unfold keys_unique; simpl.
  - repeat split; try assumption. apply nodup_snoc; assumption.
  - repeat split; try assumption; apply nodup_snoc; assumption.
  - repeat split; try assumption. apply nodup_snoc; assumption.
  - repeat split; try assumption.
    + apply nodup_snoc; assumption.
    + rewrite map_app. apply NoDup_app; try assumption.
      intros id Hin Hin'.
      match goal with Hf : forall id, In id _ -> pk_free _ _ _ |- _ =>
        apply Hf in Hin' end.
      apply pk_free_not_in in Hin'. contradiction.
  - destruct (fixed_fulfill_updates rid iid f t1 db)
      as (E1 & E2 & E3 & _ & _).
    rewrite E1, E2, E3, request_ids_fulfill_updates,
      item_ids_fulfill_updates.
    repeat split; assumption.
Qed.

Lemma reachable_keys_unique db : reachable db -> keys_unique db.
Proof.
  apply reachable_invariant.
  - repeat split; apply NoDup_nil.
  - intros. eapply effect_keeps_keys_unique; eauto.
Qed.

Lemma filter_map_fixed {A} (p : A -> bool) (g : A -> A) (l : list A) :
  (forall x, p (g x) = p x) ->
  (forall x, In x l -> p x = true -> g x = x) ->
  filter p (map g l) = filter p l.
Proof.
  intros Hp Hg. rewrite filter_map_stable by exact Hp.
  transitivity (map (fun x => x) (filter p l)); [|apply map_id].
  apply map_ext_in. intros x Hx. apply filter_In in Hx.
  destruct Hx. auto.
Qed.

Lemma fetchone_key {R} (key : R -> string) (k : string) (l : list R)
    (x : R) :
  fetchone (filter (fun r => String.eqb (key r) k) l) = Some x ->
  In x l /\ key x = k.
Proof.
  intros H. apply fetchone_in in H. apply filter_In in H.
  destruct H as [Hin Hk]. apply String.eqb_eq in Hk. auto.
Qed.

Lemma item_rows_found iid rid db it :
  fetchone (item_rows iid rid db) = Some it ->
  In it (request_items db) /\ i_id it = iid /\ i_request_id it = rid.
Proof.
  intros H. apply fetchone_in in H. apply filter_In in H.
  destruct H as [Hin Hk]. apply andb_true_iff in Hk.
  destruct Hk as [H1 H2]. apply String.eqb_eq in H1.
  apply String.eqb_eq in H2. auto.
Qed.

Lemma version_rows_found vid eid db v :
  fetchone (version_rows vid eid db) = Some v ->
  In v (evidence_versions db) /\ v_id v = vid /\ v_evidence_id v = eid.
Proof.
  intros H. apply fetchone_in in H. apply filter_In in H.
  destruct H as [Hin Hk]. apply andb_true_iff in Hk.
  destruct Hk as [H1 H2]. apply String.eqb_eq in H1.
  apply String.eqb_eq in H2. auto.
Qed.

(** The identity behind a header is that of its session row, whenever it is
    resolved and whatever role is asked for. *)
Lemma require_role_same r r' a t t' db u u' :
  require_role r a t db = (Ok u, db) ->
  require_role r' a t' db = (Ok u', db) ->
  u' = u /\ Role_value r' = Role_value r.
Proof.
  intros H H'.
  apply require_role_ok in H. destruct H as (Hg & Hr & _).
  apply require_role_ok in H'. destruct H' as (Hg' & Hr' & _).
  apply get_current_user_ok in Hg.
  destruct Hg as (h & row & Ha & Hrow & _ & Hu).
  apply get_current_user_ok in Hg'.
  destruct Hg' as (h' & row' & Ha' & Hrow' & _ & Hu').
  assert (h' = h) by congruence. subst h'.
  assert (row' = row) by congruence. subst.
  split; [reflexivity|congruence].
Qed.

(** * The properties of the specification, C1 to C10 *)

(** ** C1: fulfilment of an item *)

(** C1, counterexample.  In [fulfilled_db] item I0002 is fulfilled with
    version V0004 at instant 21.  A second [fulfill_request_item] on it, with
    version V000A at instant 31, succeeds and replaces both. *)
Lemma refulfill_counterexample :
  let f := mk_FulfillRequest "E0003" "V000A" in
  let out := fulfill_request_item (Some "Bearer tokF") "R0001" "I0002" f
                                  30 31 32 fulfilled_db in
  item_by_id "I0002" fulfilled_db
  = Some (mk_item "I0002" "R0001" "Test Report" "fulfilled"
                  (Some "E0003") (Some "V0004") (Some 21)) /\
  fst out = Ok (mk_FulfillResponse true "I0002" "fulfilled") /\
  item_by_id "I0002" (snd out)
  = Some (mk_item "I0002" "R0001" "Test Report" "fulfilled"
                  (Some "E0003") (Some "V000A") (Some 31)) /\
  ~ refulfill_keeps_record_on.
Proof.
  refine (conj eq_refl (conj eq_refl (conj eq_refl _))).
  intros Hspec.
  destruct (Hspec (Some "Bearer tokF") "R0001" "I0002"
                  (mk_FulfillRequest "E0003" "V000A") 30 31 32 fulfilled_db
                  (mk_item "I0002" "R0001" "Test Report" "fulfilled"
                           (Some "E0003") (Some "V0004") (Some 21))
                  (mk_item "I0002" "R0001" "Test Report" "fulfilled"
                           (Some "E0003") (Some "V000A") (Some 31))
                  eq_refl eq_refl eq_refl) as (_ & Hv & _).
  discriminate Hv.
Qed.

(** C1, as the code has it.  A fulfilled item stays fulfilled under every
    sequence of calls.  A call changes the row of an item only if it is a
    [fulfill_request_item] on that item, and then to the row that the
    UPDATE writes.  [fulfill_request_item] does not look at the status of
    the item: whenever it succeeds -- on a pending item or on a fulfilled
    one -- the item is fulfilled afterwards and carries the evidence id,
    the version id and the instant of this call. *)
Theorem fulfilled_stays_fulfilled_and_is_overwritten :
  (forall ops db iid it,
     item_by_id iid db = Some it -> i_status it = "fulfilled" ->
     exists it',
       item_by_id iid (run ops db) = Some it' /\
       i_status it' = "fulfilled") /\
  (forall o db iid it it',
     item_by_id iid db = Some it ->
     item_by_id iid (exec o db) = Some it' -> it' <> it ->
     exists a rid f t0 t1 t2,
       o = FulfillItem a rid iid f t0 t1 t2 /\
       it' = fulfilled_with (fr_evidenceId f) (fr_versionId f) t1 it) /\
  (forall a rid iid f t0 t1 t2 db resp db',
     fulfill_request_item a rid iid f t0 t1 t2 db = (Ok resp, db') ->
     exists it,
       item_by_id iid db = Some it /\
       item_by_id iid db'
       = Some (fulfilled_with (fr_evidenceId f) (fr_versionId f) t1 it)).
Proof.
  refine (conj _ (conj _ _)).
  - intros ops. unfold run.
    induction ops as [|o ops IH]; intros db iid it Hit Hst; simpl.
    + eauto.
    + destruct (exec_item o db iid it Hit)
        as [H|(a & rid & f & t0 & t1 & t2 & _ & H)];
        eapply IH; eauto.
  - intros o db iid it it' Hit Hit' Hne.
    destruct (exec_item o db iid it Hit)
      as [H|(a & rid & f & t0 & t1 & t2 & Ho & H)].
    + congruence.
    + exists a, rid, f, t0, t1, t2. split; congruence.
  - intros a rid iid f t0 t1 t2 db resp db' H.
    apply fulfill_ok in H.
    destruct H as (user & rq & it & _ & Hc & _ & ->).
    inversion Hc; subst.
    match goal with
    | Hrow : fetchone (item_rows iid rid db) = Some _ |- _ =>
        apply fetchone_filter_weaken in Hrow; destruct Hrow as [it0 Hit0]
    end.
    exists it0. split; [exact Hit0|].
    change (item_by_id iid (fulfill_updates rid iid f t1 db)
            = Some (fulfilled_with (fr_evidenceId f) (fr_versionId f) t1
                                   it0)).
    rewrite item_by_id_fulfill_updates.
    unfold item_by_id. rewrite Hit0. simpl. rewrite String.eqb_refl.
    reflexivity.
Qed.

Lemma fulfilled_stays_fulfilled_and_is_overwritten_witness :
  (exists it',
     item_by_id "I0002"
       (run [AddVersion (Some "Bearer tokF") "E0003"
               (mk_VersionCreate None None) 40 "000B" 41 42;
             FulfillItem (Some "Bearer tokG") "R0001" "I0002"
               (mk_FulfillRequest "E0005" "V0006") 43 44 45]
            fulfilled_db) = Some it' /\
     i_status it' = "fulfilled") /\
  (exists it,
     item_by_id "I0002" fulfilled_db = Some it /\
     item_by_id "I0002"
       (snd (fulfill_request_item (Some "Bearer tokF") "R0001" "I0002"
               (mk_FulfillRequest "E0003" "V000A") 30 31 32 fulfilled_db))
     = Some (fulfilled_with "E0003" "V000A" 31 it)).
Proof.
  split.
  - apply (proj1 fulfilled_stays_fulfilled_and_is_overwritten _ fulfilled_db
             "I0002"
             (mk_item "I0002" "R0001" "Test Report" "fulfilled"
                      (Some "E0003") (Some "V0004") (Some 21)));
      reflexivity.
  - apply (proj2 (proj2 fulfilled_stays_fulfilled_and_is_overwritten)
             (Some "Bearer tokF") "R0001" "I0002"
             (mk_FulfillRequest "E0003" "V000A") 30 31 32 fulfilled_db
             (mk_FulfillResponse true "I0002" "fulfilled")).
    reflexivity.
Defined.

(** ** C2: the stored status of a request *)

(** C2, counterexample.  In [empty_request_db] the buyer's request R00E0
    has no items.  After the successful fulfilment of item I0002 of request
    R0001, R00E0 is stored "pending" although every item belonging to it --
    there is none -- is fulfilled, for which the derived status is
    "completed". *)
Lemma empty_request_status_counterexample :
  let out := fulfill_request_item (Some "Bearer tokF") "R0001" "I0002"
               (mk_FulfillRequest "E0003" "V0004") 40 41 42
               empty_request_db in
  fst out = Ok (mk_FulfillResponse true "I0002" "fulfilled") /\
  fetchone (request_rows "R00E0" (snd out))
  = Some (mk_request "R00E0" "buyer1" "F001" "Nothing" "pending" 31) /\
  items_of "R00E0" (snd out) = [] /\
  derived_status (items_of "R00E0" (snd out)) = "completed" /\
  ~ every_request_has_derived_status_on.
Proof.
  refine (conj eq_refl (conj eq_refl (conj eq_refl (conj eq_refl _)))).
  intros Hspec.
  assert (Hreach : reachable empty_request_db)
    by (exists empty_request_ops; reflexivity).
  pose proof (Hspec empty_request_db (Some "Bearer tokF") "R0001" "I0002"
                (mk_FulfillRequest "E0003" "V0004") 40 41 42
                (mk_FulfillResponse true "I0002" "fulfilled") _
                Hreach eq_refl
                (mk_request "R00E0" "buyer1" "F001" "Nothing" "pending" 31))
    as H.
  simpl in H. discriminate H. right. left. reflexivity.
Qed.

(** C2, as the code has it.  In every state the service can reach, after a
    successful [fulfill_request_item] the request it names is on record
    with status "completed" if every item of that request is fulfilled and
    "pending" otherwise ([derived_status]).  After that call, and more
    generally in every reachable state, every request that has at least one
    item carries the derived status, and every request that has no item is
    stored "pending".  A
    request whose status is "completed" keeps that status under every
    sequence of calls. *)
Theorem request_status_follows_items :
  (forall db a rid iid f t0 t1 t2 resp db',
     reachable db ->
     fulfill_request_item a rid iid f t0 t1 t2 db = (Ok resp, db') ->
     exists rq',
       fetchone (request_rows rid db') = Some rq' /\
       r_status rq' = derived_status (items_of rid db')) /\
  (forall db a rid iid f t0 t1 t2 resp db' rq,
     reachable db ->
     fulfill_request_item a rid iid f t0 t1 t2 db = (Ok resp, db') ->
     In rq (requests db') ->
     (items_of (r_id rq) db' <> [] ->
      r_status rq = derived_status (items_of (r_id rq) db')) /\
     (items_of (r_id rq) db' = [] -> r_status rq = "pending")) /\
  (forall db rq,
     reachable db -> In rq (requests db) ->
     items_of (r_id rq) db <> [] ->
     r_status rq = derived_status (items_of (r_id rq) db)) /\
  (forall db rq,
     reachable db -> In rq (requests db) ->
     items_of (r_id rq) db = [] ->
     r_status rq = "pending") /\
  (forall ops db rid rq,
     fetchone (request_rows rid db) = Some rq ->
     r_status rq = "completed" ->
     exists rq',
       fetchone (request_rows rid (run ops db)) = Some rq' /\
       r_status rq' = "completed").
Proof.
  refine (conj _ (conj _ (conj _ (conj _ _)))).
  - intros db a rid iid f t0 t1 t2 resp db' Hreach H.
    apply reachable_requests_inv in Hreach.
    apply fulfill_ok in H.
    destruct H as (user & rq & it & _ & Hc & _ & ->).
    inversion Hc; subst.
    match goal with
    | Hr : fetchone (request_rows rid db) = Some _,
      Hi : fetchone (item_rows iid rid db) = Some _ |- _ =>
        pose proof (fulfill_keeps_inv db rid iid f t1 _ _
                      (audit_log db ++
                         [fulfill_audit db rid iid f user rq it t2])
                      Hreach Hr Hi) as [_ Hst];
        rename Hr into Hrq; rename Hi into Hit
    end.
    set (db' := with_audit_log (fulfill_updates rid iid f t1 db)
                  (audit_log db ++
                     [fulfill_audit db rid iid f user rq it t2])) in *.
    assert (Hrow : exists rq', fetchone (request_rows rid db') = Some rq').
    { change (exists rq',
                fetchone (request_rows rid (fulfill_updates rid iid f t1 db))
                = Some rq').
      destruct (request_rows_fulfill_updates rid iid f t1 db rid) as [E|E];
        rewrite E, Hrq; simpl; eauto. }
    destruct Hrow as [rq' Hrq']. exists rq'. split; [exact Hrq'|].
    pose proof (fetchone_in _ _ Hrq') as Hin. apply filter_In in Hin.
    destruct Hin as [Hin Hid]. apply String.eqb_eq in Hid.
    rewrite (Hst rq' Hin), Hid.
    assert (Hne : items_of rid db' <> []).
    { change (items_of rid (fulfill_updates rid iid f t1 db) <> []).
      rewrite items_of_fulfill_updates.
      apply fetchone_in in Hit. apply filter_In in Hit.
      destruct Hit as [Hit Hkey]. apply andb_true_iff in Hkey.
      destruct Hkey as [_ Hkey].
      assert (Hin' : In it (items_of rid db))
        by (apply filter_In; auto).
      destruct (items_of rid db); [destruct Hin'|discriminate]. }
    unfold stored_status. destruct (items_of rid db'); [congruence|].
    reflexivity.
  - intros db a rid iid f t0 t1 t2 resp db' rq Hreach H Hin.
    assert (Hreach' : reachable db').
    { replace db' with (run [FulfillItem a rid iid f t0 t1 t2] db)
        by (unfold run; simpl; rewrite H; reflexivity).
      apply reachable_run. exact Hreach. }
    apply reachable_requests_inv in Hreach'. destruct Hreach' as [_ Hst].
    rewrite (Hst rq Hin). unfold stored_status.
    destruct (items_of (r_id rq) db'); split; intros; congruence.
  - intros db rq Hreach Hin Hne.
    apply reachable_requests_inv in Hreach. destruct Hreach as [_ Hst].
    rewrite (Hst rq Hin). unfold stored_status.
    destruct (items_of (r_id rq) db); [congruence|reflexivity].
  - intros db rq Hreach Hin Hnone.
    apply reachable_requests_inv in Hreach. destruct Hreach as [_ Hst].
    rewrite (Hst rq Hin), Hnone. reflexivity.
  - intros ops. unfold run.
    induction ops as [|o ops IH]; intros db rid rq Hrq Hst; simpl.
    + eauto.
    + destruct (exec_request o db rid rq Hrq) as [H|H];
        eapply IH; eauto.
Qed.

Lemma request_status_follows_items_witness :
  (exists rq',
     fetchone (request_rows "R0001"
       (snd (fulfill_request_item (Some "Bearer tokF") "R0001" "I0002"
               (mk_FulfillRequest "E0003" "V0004") 20 21 22 sample_db)))
     = Some rq' /\
     r_status rq'
     = derived_status
         (items_of "R0001"
            (snd (fulfill_request_item (Some "Bearer tokF") "R0001" "I0002"
                    (mk_FulfillRequest "E0003" "V0004") 20 21 22
                    sample_db)))) /\
  (items_of "R00E0"
     (snd (fulfill_request_item (Some "Bearer tokF") "R0001" "I0002"
             (mk_FulfillRequest "E0003" "V0004") 40 41 42
             empty_request_db)) = [] ->
   r_status (mk_request "R00E0" "buyer1" "F001" "Nothing" "pending" 31)
   = "pending") /\
  r_status (mk_request "R00E0" "buyer1" "F001" "Nothing" "pending" 31)
  = "pending" /\
  (exists rq',
     fetchone (request_rows "R0001"
       (run [Login (mk_LoginRequest "buyer1" BUYER None) "tokD" 50 51 52;
             FulfillItem (Some "Bearer tokF") "R0001" "I0002"
               (mk_FulfillRequest "E0003" "V000A") 53 54 55]
            fulfilled_db)) = Some rq' /\
     r_status rq' = "completed").
Proof.
  refine (conj _ (conj _ (conj _ _))).
  - apply (proj1 request_status_follows_items sample_db
             (Some "Bearer tokF") "R0001" "I0002"
             (mk_FulfillRequest "E0003" "V0004") 20 21 22
             (mk_FulfillResponse true "I0002" "fulfilled")).
    + exists sample_ops. reflexivity.
    + reflexivity.
  - assert (Hreach : reachable empty_request_db)
      by (exists empty_request_ops; reflexivity).
    exact (proj2
             (proj1 (proj2 request_status_follows_items) empty_request_db
                (Some "Bearer tokF") "R0001" "I0002"
                (mk_FulfillRequest "E0003" "V0004") 40 41 42
                (mk_FulfillResponse true "I0002" "fulfilled")
                (snd (fulfill_request_item (Some "Bearer tokF") "R0001"
                        "I0002" (mk_FulfillRequest "E0003" "V0004")
                        40 41 42 empty_request_db))
                (mk_request "R00E0" "buyer1" "F001" "Nothing" "pending" 31)
                Hreach eq_refl (or_intror (or_introl eq_refl)))).
  - apply (proj1 (proj2 (proj2 (proj2 request_status_follows_items)))
             empty_request_db).
    + exists empty_request_ops. reflexivity.
    + simpl. right. left. reflexivity.
    + reflexivity.
  - apply (proj2 (proj2 (proj2 (proj2 request_status_follows_items))) _
             fulfilled_db "R0001"
             (mk_request "R0001" "buyer1" "F001" "Q1" "completed" 7));
      reflexivity.
Defined.

(** ** C3: version numbers *)

(** C3.  In every state the service can reach, the version numbers of each
    evidence id, in the order of insertion, are 1, 2, ..., N, where N is the
    number of its versions.  A successful [create_evidence] inserts the
    first version of the new evidence with number 1.  A successful
    [add_evidence_version] inserts one version whose number is the largest
    number on record for that evidence plus one, and 1 if there is none;
    the request body [VersionCreate] carries no number. *)
Theorem version_numbers_are_contiguous :
  (forall db eid,
     reachable db ->
     map v_version_number (versions_of eid db)
     = map Z.of_nat (seq 1 (List.length (versions_of eid db)))) /\
  (forall a ev t0 he hv t1 t2 t3 db resp db',
     create_evidence a ev t0 he hv t1 t2 t3 db = (Ok resp, db') ->
     evidence_versions db'
     = evidence_versions db ++
         [mk_version (er_versionId resp) (er_evidenceId resp) 1
                     (ec_expiry ev) (ec_notes ev) t2]) /\
  (forall a eid version t0 hv t1 t2 db resp db',
     add_evidence_version a eid version t0 hv t1 t2 db = (Ok resp, db') ->
     evidence_versions db'
     = evidence_versions db ++
         [mk_version (er_versionId resp) eid
            match sql_max (map v_version_number (versions_of eid db)) with
            | Some m => m + 1
            | None => 1
            end
            (vc_expiry version) (vc_notes version) t1]).
Proof.
  refine (conj _ (conj _ _)).
  - intros db eid Hreach. apply reachable_versions_inv in Hreach.
    apply Hreach.
  - intros a ev t0 he hv t1 t2 t3 db resp db'.
    rewrite create_evidence_cases.
    destruct (require_role FACTORY a t0 db) as [[user|e] db0];
      [|discriminate].
    destruct (create_evidence_tx _ _ _ _ _ _ _ db) as [[u|e] db1] eqn:Htx;
      [|discriminate].
    apply create_evidence_tx_ok in Htx.
    destruct Htx as (fid & _ & _ & _ & ->).
    intros H; inversion H; subst. reflexivity.
  - intros a eid version t0 hv t1 t2 db resp db'.
    rewrite add_evidence_version_cases.
    destruct (require_role FACTORY a t0 db) as [[user|e] db0];
      [|discriminate].
    destruct (add_evidence_version_tx _ _ _ _ _ _ db) as [[u|e] db1] eqn:Htx;
      [|discriminate].
    apply add_evidence_version_tx_ok in Htx.
    destruct Htx as (row & _ & _ & _ & -> & ->).
    intros H; inversion H; subst. simpl. unfold next_version_number.
    destruct (sql_max _); reflexivity.
Qed.

Lemma version_numbers_are_contiguous_witness :
  map v_version_number (versions_of "E0003" fulfilled_db)
  = map Z.of_nat (seq 1 (List.length (versions_of "E0003" fulfilled_db))) /\
  evidence_versions
    (snd (add_evidence_version (Some "Bearer tokF") "E0003"
            (mk_VersionCreate (Some "third") None) 60 "000C" 61 62
            fulfilled_db))
  = evidence_versions fulfilled_db ++
      [mk_version "V000C" "E0003"
         match sql_max (map v_version_number
                            (versions_of "E0003" fulfilled_db)) with
         | Some m => m + 1
         | None => 1
         end
         None (Some "third") 61].
Proof.
  split.
  - apply (proj1 version_numbers_are_contiguous fulfilled_db "E0003").
    exists (sample_ops ++
            [ FulfillItem (Some "Bearer tokF") "R0001" "I0002"
                (mk_FulfillRequest "E0003" "V0004") 20 21 22;
              AddVersion (Some "Bearer tokF") "E0003"
                (mk_VersionCreate (Some "renewed") None) 23 "000A" 24 25 ]).
    reflexivity.
  - apply (proj2 (proj2 version_numbers_are_contiguous)
             (Some "Bearer tokF") "E0003"
             (mk_VersionCreate (Some "third") None) 60 "000C" 61 62
             fulfilled_db (mk_EvidenceResponse "E0003" "V000C")).
    reflexivity.
Defined.

(** ** C4: isolation between factories *)

Lemma factory_differs_false (x f : string) (user : User) :
  factoryId user = Some f ->
  (factory_differs x user = false <-> x = f).
Proof.
  intros H. unfold factory_differs. rewrite H.
  rewrite negb_false_iff. apply String.eqb_eq.
Qed.

Lemma factory_differs_true (x f : string) (user : User) :
  factoryId user = Some f ->
  (factory_differs x user = true <-> x <> f).
Proof.
  intros H. unfold factory_differs. rewrite H.
  rewrite negb_true_iff. apply String.eqb_neq.
Qed.

(** C4, counterexample.  Factory F001 calls [fulfill_request_item] with the
    evidence of factory F002 and a request id that does not exist: the first
    check answers 404 "Request not found", not 403. *)
Lemma foreign_evidence_counterexample :
  let f := mk_FulfillRequest "E0005" "V0006" in
  require_role FACTORY (Some "Bearer tokF") 20 sample_db
  = (Ok (mk_User "f1" "factory" (Some "F001")), sample_db) /\
  fetchone (evidence_rows "E0005" sample_db)
  = Some (mk_evidence "E0005" "F002" "Other" "Test Report" 10) /\
  fulfill_request_item (Some "Bearer tokF") "R9999" "I0002" f 20 21 22
                       sample_db
  = (Raise (HTTP 404 "Request not found"), sample_db) /\
  ~ foreign_evidence_always_403_on.
Proof.
  refine (conj eq_refl (conj eq_refl (conj eq_refl _))).
  intros Hspec.
  destruct (Hspec (Some "Bearer tokF") "R9999" "I0002"
                  (mk_FulfillRequest "E0005" "V0006") 20 21 22 sample_db
                  (mk_User "f1" "factory" (Some "F001"))
                  (mk_evidence "E0005" "F002" "Other" "Test Report" 10)
                  eq_refl eq_refl eq_refl) as [detail H].
  discriminate H.
Qed.

(** An item of a request of F1 is not found under a request that a session
    of F2 may fulfil. *)
Lemma foreign_item_hidden F1 F2 user db rid rq0 it rq it0 :
  F1 <> F2 -> keys_unique db -> factoryId user = Some F2 ->
  In it (request_items db) ->
  fetchone (request_rows (i_request_id it) db) = Some rq ->
  r_factory_id rq = F1 ->
  fetchone (request_rows rid db) = Some rq0 ->
  factory_differs (r_factory_id rq0) user = false ->
  fetchone (item_rows (i_id it) rid db) = Some it0 -> False.
Proof.
  intros Hne (_ & _ & _ & Hi & _) Hf2 Hin Hrq Hown Hrq0 Hd Hit0.
  apply item_rows_found in Hit0. destruct Hit0 as (Hin0 & Hid & Hrid).
  assert (it0 = it)
    by (apply (nodup_key_eq i_id (request_items db)); assumption).
  subst it0. rewrite Hrid, Hrq0 in Hrq. inversion Hrq; subst rq0.
  apply (factory_differs_false _ F2 user Hf2) in Hd. congruence.
Qed.

(** A version of evidence of F1 is not found under evidence that a session
    of F2 may use. *)
Lemma foreign_version_hidden F1 F2 user db f v ev ev0 v0 :
  F1 <> F2 -> keys_unique db -> factoryId user = Some F2 ->
  In v (evidence_versions db) -> v_id v = fr_versionId f ->
  fetchone (evidence_rows (v_evidence_id v) db) = Some ev ->
  e_factory_id ev = F1 ->
  fetchone (evidence_rows (fr_evidenceId f) db) = Some ev0 ->
  factory_differs (e_factory_id ev0) user = false ->
  fetchone (version_rows (fr_versionId f) (fr_evidenceId f) db) = Some v0 ->
  False.
Proof.
  intros Hne (_ & Hv & _) Hf2 Hin Hid Hev Hown Hev0 Hd Hv0.
  apply version_rows_found in Hv0. destruct Hv0 as (Hin0 & Hid0 & Heid).
  assert (v0 = v)
    by (apply (nodup_key_eq v_id (evidence_versions db)); congruence).
  subst v0. rewrite Heid, Hev0 in Hev. inversion Hev; subst ev0.
  apply (factory_differs_false _ F2 user Hf2) in Hd. congruence.
Qed.

(** What a successful call under a session of F2 leaves of the requests,
    items, evidence and versions of another factory F1: everything. *)
Lemma effect_keeps_other_factory F1 F2 a t0 db user o db' :
  F1 <> F2 -> keys_unique db ->
  require_role FACTORY a t0 db = (Ok user, db) -> factoryId user = Some F2 ->
  op_header o = Some a -> effect db o db' ->
  requests_for (Some F1) db' = requests_for (Some F1) db /\
  (forall rq, In rq (requests db) -> r_factory_id rq = F1 ->
     items_of (r_id rq) db' = items_of (r_id rq) db) /\
  (forall ev, e_factory_id ev = F1 ->
     (In ev (evidence db') <-> In ev (evidence db))) /\
  (forall ev, In ev (evidence db) -> e_factory_id ev = F1 ->
     versions_of (e_id ev) db' = versions_of (e_id ev) db).
Proof.
  intros Hne Hk Hrole Hf2 Ho He.
  pose proof Hk as (Hke & Hkv & Hkr & Hki & _).
  inversion He; subst o db'; simpl in Ho; try discriminate Ho;
    injection Ho as Ha; subst a0.
  - (* create_evidence *)
    match goal with
    | H : require_role FACTORY a _ db = (Ok ?u, db) |- _ =>
        destruct (require_role_same _ _ _ _ _ _ _ _ Hrole H) as [-> _]
    end.
    assert (fid = F2) by congruence. subst fid.
    refine (conj eq_refl (conj (fun _ _ _ => eq_refl) (conj _ _))).
    + intros ev0 Hown. simpl. rewrite in_app_iff. simpl.
      split; [|auto]. intros [Hold|[Hnew|[]]]; [exact Hold|].
      subst ev0. simpl in Hown. congruence.
    + intros ev0 Hin Hown. unfold versions_of. cbn [evidence_versions].
      rewrite filter_app. cbn [filter v_evidence_id].
      destruct (String.eqb (generate_id "E" he) (e_id ev0)) eqn:E;
        [exfalso|apply app_nil_r].
      apply String.eqb_eq in E.
      match goal with
      | H : pk_free e_id _ (evidence db) |- _ =>
          apply pk_free_not_in in H; apply H
      end.
      rewrite E. apply in_map. exact Hin.
  - (* add_version *)
    match goal with
    | H : require_role FACTORY a _ db = (Ok ?u, db) |- _ =>
        destruct (require_role_same _ _ _ _ _ _ _ _ Hrole H) as [-> _]
    end.
    refine (conj eq_refl (conj (fun _ _ _ => eq_refl) (conj _ _))).
    + intros ev0 _. simpl. tauto.
    + intros ev0 Hin Hown. unfold versions_of. cbn [evidence_versions].
      rewrite filter_app. cbn [filter v_evidence_id].
      destruct (String.eqb eid (e_id ev0)) eqn:E;
        [exfalso|apply app_nil_r].
      apply String.eqb_eq in E.
      match goal with
      | H : fetchone (evidence_rows eid db) = Some _ |- _ =>
          apply fetchone_key in H; destruct H as [Hrin Hrid]
      end.
      assert (ev0 = row)
        by (apply (nodup_key_eq e_id (evidence db)); congruence).
      subst ev0.
      match goal with
      | H : factory_differs _ user = false |- _ =>
          apply (factory_differs_false _ F2 user Hf2) in H
      end.
      congruence.
  - (* create_request: the session is a factory session *)
    match goal with
    | H : require_role BUYER a _ db = (Ok ?u, db) |- _ =>
        destruct (require_role_same _ _ _ _ _ _ _ _ Hrole H) as [_ Hr]
    end.
    discriminate Hr.
  - (* fulfill *)
    match goal with
    | H : require_role FACTORY a _ db = (Ok ?u, db) |- _ =>
        destruct (require_role_same _ _ _ _ _ _ _ _ Hrole H) as [-> _]
    end.
    match goal with
    | H : fulfill_check _ _ _ _ _ _ |- _ => inversion H; subst
    end.
    match goal with
    | Hr : fetchone (request_rows rid db) = Some _,
      Hd : factory_differs (r_factory_id _) user = false,
      Hi : fetchone (item_rows iid rid db) = Some _ |- _ =>
        apply fetchone_key in Hr; destruct Hr as [Hrin Hrid];
        apply (factory_differs_false _ F2 user Hf2) in Hd;
        apply item_rows_found in Hi; destruct Hi as (Hiin & Hiid & Hirid)
    end.
    match goal with
    | |- context [fulfill_updates rid iid f ?t db] =>
        destruct (fixed_fulfill_updates rid iid f t db) as (E1 & E2 & _)
    end.
    refine (conj _ (conj _ (conj _ _))).
    + unfold requests_for. cbn [requests with_audit_log].
      rewrite requests_fulfill_updates.
      destruct (counts_equal _); [|reflexivity].
      apply filter_map_fixed.
      * intros x. destruct (String.eqb (r_id x) rid); reflexivity.
      * intros x Hx Hp.
        destruct (String.eqb (r_id x) rid) eqn:E; [exfalso|reflexivity].
        apply String.eqb_eq in E. apply String.eqb_eq in Hp.
        assert (x = rq)
          by (apply (nodup_key_eq r_id (requests db)); congruence).
        congruence.
    + intros rq1 Hin1 Hown1.
      unfold items_of. cbn [request_items with_audit_log].
      rewrite request_items_fulfill_updates.
      apply filter_map_fixed;
        [intros r; destruct (String.eqb (i_id r) iid); reflexivity|].
      intros r Hr Hreq.
      destruct (String.eqb (i_id r) iid) eqn:E; [exfalso|reflexivity].
      apply String.eqb_eq in E. apply String.eqb_eq in Hreq.
      assert (r = it)
        by (apply (nodup_key_eq i_id (request_items db)); congruence).
      subst r.
      assert (rq1 = rq)
        by (apply (nodup_key_eq r_id (requests db)); congruence).
      congruence.
    + intros ev0 _. cbn [evidence with_audit_log]. rewrite E1. tauto.
    + intros ev0 _ _. unfold versions_of.
      cbn [evidence_versions with_audit_log]. rewrite E2. reflexivity.
Qed.

(** C4, as the code has it.  Let a factory identity be bound to F2 and let
    F1 be another factory id.  [add_evidence_version] on evidence of F1 and
    [fulfill_request_item] on a request of F1 raise 403 and change nothing.
    [fulfill_request_item] naming evidence of F1 never succeeds and changes
    nothing: it raises 403 "Cannot use other factory's evidence" when the
    request is F2's own and the item exists, and otherwise the exception of
    the earlier check that fails (404 for a missing request or item, 403 for
    a request of another factory).  Every request in the listing of
    [get_factory_requests] has factory id F2, so none has F1.

    In every state the service can reach the same holds of the items and
    versions of F1.  [fulfill_request_item] naming an item of a request of
    F1, under whatever request id, is refused by one of the first three
    checks and changes nothing; naming a version of evidence of F1, under
    whatever evidence id, it is refused and changes nothing.  No call of
    [create_evidence], [add_evidence_version], [create_request] or
    [fulfill_request_item] under the header of F2, whatever its outcome,
    changes what F1 has: the requests addressed to F1 with their status, the
    items of each of them, the evidence of F1 and the versions of each
    evidence of F1 are afterwards what they were. *)
Theorem cross_factory_isolation (F1 F2 : string) (a : option string)
    (t0 : Z) (db : DB) (user : User) :
  F1 <> F2 ->
  require_role FACTORY a t0 db = (Ok user, db) ->
  factoryId user = Some F2 ->
  (forall eid version hv t1 t2 ev,
     fetchone (evidence_rows eid db) = Some ev -> e_factory_id ev = F1 ->
     add_evidence_version a eid version t0 hv t1 t2 db
     = (Raise (HTTP 403 "Cannot add version to other factory's evidence"),
        db)) /\
  (forall rid iid f t1 t2 rq,
     fetchone (request_rows rid db) = Some rq -> r_factory_id rq = F1 ->
     fulfill_request_item a rid iid f t0 t1 t2 db
     = (Raise (HTTP 403 "Cannot fulfill other factory's requests"), db)) /\
  (forall rid iid f t1 t2 ev,
     fetchone (evidence_rows (fr_evidenceId f) db) = Some ev ->
     e_factory_id ev = F1 ->
     exists e,
       fulfill_request_item a rid iid f t0 t1 t2 db = (Raise e, db) /\
       In e [HTTP 404 "Request not found";
             HTTP 403 "Cannot fulfill other factory's requests";
             HTTP 404 "Request item not found";
             HTTP 403 "Cannot use other factory's evidence"] /\
       (forall rq it,
          fetchone (request_rows rid db) = Some rq -> r_factory_id rq = F2 ->
          fetchone (item_rows iid rid db) = Some it ->
          e = HTTP 403 "Cannot use other factory's evidence")) /\
  (forall views db',
     get_factory_requests a t0 db = (Ok views, db') ->
     forall v, In v views -> rv_factoryId v = F2 /\ rv_factoryId v <> F1) /\
  (reachable db ->
   forall rid f t1 t2 it rq,
     In it (request_items db) ->
     fetchone (request_rows (i_request_id it) db) = Some rq ->
     r_factory_id rq = F1 ->
     exists e,
       fulfill_request_item a rid (i_id it) f t0 t1 t2 db = (Raise e, db) /\
       In e [HTTP 404 "Request not found";
             HTTP 403 "Cannot fulfill other factory's requests";
             HTTP 404 "Request item not found"]) /\
  (reachable db ->
   forall rid iid f t1 t2 v ev,
     In v (evidence_versions db) -> v_id v = fr_versionId f ->
     fetchone (evidence_rows (v_evidence_id v) db) = Some ev ->
     e_factory_id ev = F1 ->
     exists e,
       fulfill_request_item a rid iid f t0 t1 t2 db = (Raise e, db) /\
       In e [HTTP 404 "Request not found";
             HTTP 403 "Cannot fulfill other factory's requests";
             HTTP 404 "Request item not found";
             HTTP 404 "Evidence not found";
             HTTP 403 "Cannot use other factory's evidence";
             HTTP 404 "Evidence version not found"]) /\
  (reachable db ->
   forall o,
     op_header o = Some a ->
     requests_for (Some F1) (exec o db) = requests_for (Some F1) db /\
     (forall rq, In rq (requests db) -> r_factory_id rq = F1 ->
        items_of (r_id rq) (exec o db) = items_of (r_id rq) db) /\
     (forall ev, e_factory_id ev = F1 ->
        (In ev (evidence (exec o db)) <-> In ev (evidence db))) /\
     (forall ev, In ev (evidence db) -> e_factory_id ev = F1 ->
        versions_of (e_id ev) (exec o db) = versions_of (e_id ev) db)).
Proof.
  intros Hne Hrole Hf2.
  refine (conj _ (conj _ (conj _ (conj _ (conj _ (conj _ _)))))).
  - intros eid version hv t1 t2 ev Hev Hown.
    rewrite add_evidence_version_cases, Hrole.
    unfold add_evidence_version_tx. tx_unfold. rewrite Hev.
    replace (factory_differs (e_factory_id ev) user) with true;
      [reflexivity|].
    symmetry. apply (factory_differs_true _ F2); congruence.
  - intros rid iid f t1 t2 rq Hrq Hown.
    rewrite fulfill_cases, Hrole.
    destruct (fulfill_tx_cases rid iid f user t1 t2 db) as [c [Hc Heq]].
    rewrite Heq.
    assert (Hd : factory_differs (r_factory_id rq) user = true)
      by (apply (factory_differs_true _ F2); congruence).
    inversion Hc; subst; try congruence; reflexivity.
  - intros rid iid f t1 t2 ev Hev Hown.
    rewrite fulfill_cases, Hrole.
    destruct (fulfill_tx_cases rid iid f user t1 t2 db) as [c [Hc Heq]].
    rewrite Heq.
    assert (Hd : factory_differs (e_factory_id ev) user = true)
      by (apply (factory_differs_true _ F2); congruence).
    inversion Hc; subst; try congruence;
      (eexists; split; [reflexivity|split; [simpl; tauto|]]);
      intros rq' it' Hrq' Hown' Hit';
      assert (Hd' : factory_differs (r_factory_id rq') user = false)
        by (apply (factory_differs_false _ F2 user Hf2); assumption);
      congruence.
  - intros views db' H v Hv.
    unfold get_factory_requests in H. unfold bind at 1 in H.
    rewrite Hrole in H. tx_unfold. inversion H; subst. clear H.
    apply in_map_iff in Hv. destruct Hv as (row & <- & Hin). simpl.
    apply in_order_by_desc in Hin. unfold requests_for in Hin.
    apply filter_In in Hin. destruct Hin as [_ Hfac]. rewrite Hf2 in Hfac.
    apply String.eqb_eq in Hfac. split; congruence.
  - intros Hreach rid f t1 t2 it rq Hin Hrq Hown.
    apply reachable_keys_unique in Hreach.
    rewrite fulfill_cases, Hrole.
    destruct (fulfill_tx_cases rid (i_id it) f user t1 t2 db)
      as [c [Hc Heq]].
    rewrite Heq.
    inversion Hc; subst c;
      try (eexists; split; [reflexivity|simpl; tauto]);
      exfalso;
      eapply (foreign_item_hidden F1 F2 user db rid); eassumption.
  - intros Hreach rid iid f t1 t2 v ev Hin Hid Hev Hown.
    apply reachable_keys_unique in Hreach.
    rewrite fulfill_cases, Hrole.
    destruct (fulfill_tx_cases rid iid f user t1 t2 db) as [c [Hc Heq]].
    rewrite Heq.
    inversion Hc; subst c;
      try (eexists; split; [reflexivity|simpl; tauto]).
    exfalso.
    eapply (foreign_version_hidden F1 F2 user db f v); eassumption.
  - intros Hreach o Ho.
    apply reachable_keys_unique in Hreach.
    destruct (exec_effect o db) as [E|He].
    + rewrite E.
      refine (conj eq_refl
                (conj (fun _ _ _ => eq_refl)
                   (conj (fun _ _ => conj (fun H => H) (fun H => H))
                      (fun _ _ _ => eq_refl)))).
    + eapply effect_keeps_other_factory; eassumption.
Qed.

Lemma cross_factory_isolation_witness :
  add_evidence_version (Some "Bearer tokG") "E0003"
    (mk_VersionCreate (Some "Unauthorized version") None) 20 "0009" 21 22
    sample_db
  = (Raise (HTTP 403 "Cannot add version to other factory's evidence"),
     sample_db) /\
  fulfill_request_item (Some "Bearer tokG") "R0001" "I0002"
    (mk_FulfillRequest "E0005" "V0006") 20 21 22 sample_db
  = (Raise (HTTP 403 "Cannot fulfill other factory's requests"), sample_db) /\
  (exists e,
     fulfill_request_item (Some "Bearer tokG") "R0007" "I0002"
       (mk_FulfillRequest "E0005" "V0006") 20 21 22 two_factory_db
     = (Raise e, two_factory_db) /\
     In e [HTTP 404 "Request not found";
           HTTP 403 "Cannot fulfill other factory's requests";
           HTTP 404 "Request item not found"]) /\
  (exists e,
     fulfill_request_item (Some "Bearer tokG") "R0007" "I0008"
       (mk_FulfillRequest "E0005" "V0004") 20 21 22 two_factory_db
     = (Raise e, two_factory_db) /\
     In e [HTTP 404 "Request not found";
           HTTP 403 "Cannot fulfill other factory's requests";
           HTTP 404 "Request item not found";
           HTTP 404 "Evidence not found";
           HTTP 403 "Cannot use other factory's evidence";
           HTTP 404 "Evidence version not found"]) /\
  requests_for (Some "F001")
    (exec (FulfillItem (Some "Bearer tokG") "R0007" "I0008"
             (mk_FulfillRequest "E0005" "V0006") 20 21 22) two_factory_db)
  = requests_for (Some "F001") two_factory_db.
Proof.
  pose proof (cross_factory_isolation "F001" "F002" (Some "Bearer tokG") 20
                sample_db (mk_User "f2" "factory" (Some "F002"))
                ltac:(discriminate) eq_refl eq_refl) as (H1 & H2 & _).
  pose proof (cross_factory_isolation "F001" "F002" (Some "Bearer tokG") 20
                two_factory_db (mk_User "f2" "factory" (Some "F002"))
                ltac:(discriminate) eq_refl eq_refl)
    as (_ & _ & _ & _ & H5 & H6 & H7).
  assert (Hreach : reachable two_factory_db)
    by (exists two_factory_ops; reflexivity).
  refine (conj _ (conj _ (conj _ (conj _ _)))).
  - apply (H1 "E0003" _ "0009" 21 22
              (mk_evidence "E0003" "F001" "Safety" "Test Report" 10));
      reflexivity.
  - apply (H2 "R0001" "I0002" _ 21 22
              (mk_request "R0001" "buyer1" "F001" "Q1" "pending" 7));
      reflexivity.
  - apply (H5 Hreach "R0007" (mk_FulfillRequest "E0005" "V0006") 21 22
              (mk_item "I0002" "R0001" "Test Report" "pending" None None
                       None)
              (mk_request "R0001" "buyer1" "F001" "Q1" "pending" 7)).
    + simpl. tauto.
    + reflexivity.
    + reflexivity.
  - apply (H6 Hreach "R0007" "I0008" (mk_FulfillRequest "E0005" "V0004")
              21 22
              (mk_version "V0004" "E0003" 1 None None 11)
              (mk_evidence "E0003" "F001" "Safety" "Test Report" 10)).
    + simpl. tauto.
    + reflexivity.
    + reflexivity.
    + reflexivity.
  - apply (H7 Hreach
              (FulfillItem (Some "Bearer tokG") "R0007" "I0008"
                 (mk_FulfillRequest "E0005" "V0006") 20 21 22)).
    reflexivity.
Defined.

(** ** C5: a failed fulfilment leaves no trace *)

(** C5.  Whenever [fulfill_request_item] ends in an exception -- any of the
    failing checks, or a failed authentication or role check before them --
    the database after the call is the database before it: no item, no
    request status and no audit record has changed.  The transaction body
    itself has written nothing when a check fails: its working state at the
    exception is still the state at entry, before any rollback. *)
Theorem fulfill_failure_has_no_effect :
  (forall a rid iid f t0 t1 t2 db e,
     fst (fulfill_request_item a rid iid f t0 t1 t2 db) = Raise e ->
     snd (fulfill_request_item a rid iid f t0 t1 t2 db) = db) /\
  (forall rid iid f user t1 t2 db e,
     fst (fulfill_request_item_tx rid iid f user t1 t2 db) = Raise e ->
     snd (fulfill_request_item_tx rid iid f user t1 t2 db) = db).
Proof.
  split.
  - intros a rid iid f t0 t1 t2 db e H.
    destruct (fulfill_request_item a rid iid f t0 t1 t2 db) as [r d] eqn:E.
    simpl in *. subst r. eapply fulfill_raise; eauto.
  - intros rid iid f user t1 t2 db e H.
    destruct (fulfill_request_item_tx rid iid f user t1 t2 db) as [r d]
      eqn:E.
    simpl in *. subst r. eapply fulfill_tx_raise; eauto.
Qed.

Lemma fulfill_failure_has_no_effect_witness :
  snd (fulfill_request_item (Some "Bearer tokF") "R0001" "I0002"
         (mk_FulfillRequest "E0005" "V0006") 20 21 22 sample_db)
  = sample_db /\
  snd (fulfill_request_item_tx "R0001" "I0002"
         (mk_FulfillRequest "E0003" "V0006")
         (mk_User "f1" "factory" (Some "F001")) 21 22 sample_db)
  = sample_db.
Proof.
  split.
  - apply (proj1 fulfill_failure_has_no_effect (Some "Bearer tokF") "R0001"
             "I0002" (mk_FulfillRequest "E0005" "V0006") 20 21 22 sample_db
             (HTTP 403 "Cannot use other factory's evidence")).
    reflexivity.
  - apply (proj2 fulfill_failure_has_no_effect "R0001" "I0002"
             (mk_FulfillRequest "E0003" "V0006")
             (mk_User "f1" "factory" (Some "F001")) 21 22 sample_db
             (HTTP 404 "Evidence version not found")).
    reflexivity.
Defined.

(** ** C6: the expiry boundary of a session *)

(** C6, counterexample.  A session issued at instant 0 expires at
    [hours_24]; at exactly that instant [get_current_user] still returns
    the identity, so resolution does not fail from the expiry instant on. *)
Lemma resolve_at_expiry_counterexample :
  let db := snd (login (mk_LoginRequest "buyer1" BUYER None) "tokB" 0 1 2
                       init_db) in
  fetchone (token_rows "tokB" db)
  = Some (mk_token "tokB" "buyer1" "buyer" None 1 hours_24) /\
  get_current_user (Some "Bearer tokB") hours_24 db
  = (Ok (mk_User "buyer1" "buyer" None), db) /\
  ~ resolve_fails_from_expiry_on.
Proof.
  refine (conj eq_refl (conj eq_refl _)).
  intros Hspec.
  destruct (Hspec
    (snd (login (mk_LoginRequest "buyer1" BUYER None) "tokB" 0 1 2 init_db))
    "Bearer tokB"
    (mk_token "tokB" "buyer1" "buyer" None 1 hours_24)
    hours_24) as [detail H]; try reflexivity.
  discriminate H.
Qed.

(** C6, as the code has it.  For a bearer header whose token is on record,
    [get_current_user] returns the session's identity whenever the current
    time is at most the expiry instant (the expiry instant included), and
    raises 401 "Token expired" exactly when the current time is strictly
    later than the expiry instant; the database is not changed. *)
Theorem resolve_expiry_boundary (db : DB) (header : string) (row : token_row)
    (now : Z) :
  startswith "Bearer " header = true ->
  fetchone (token_rows (bearer_token header) db) = Some row ->
  (now <= t_expires_at row ->
   get_current_user (Some header) now db
   = (Ok (mk_User (t_user_id row) (t_role row) (t_factory_id row)), db)) /\
  (t_expires_at row < now ->
   get_current_user (Some header) now db
   = (Raise (HTTP 401 "Token expired"), db)).
Proof.
  intros Hpre Hrow.
  assert (Hne : String.eqb header "" = false)
    by (eapply startswith_nonempty; [|exact Hpre]; discriminate).
  unfold get_current_user. rewrite Hne, Hpre. cbn [negb andb].
  tx_unfold. rewrite Hrow.
  split; intros Hnow.
  - apply Z.ltb_ge in Hnow. rewrite Hnow. reflexivity.
  - apply Z.ltb_lt in Hnow. rewrite Hnow. reflexivity.
Qed.

Lemma resolve_expiry_boundary_witness :
  let db := snd (login (mk_LoginRequest "buyer1" BUYER None) "tokB" 0 1 2
                       init_db) in
  get_current_user (Some "Bearer tokB") hours_24 db
  = (Ok (mk_User "buyer1" "buyer" None), db) /\
  get_current_user (Some "Bearer tokB") (hours_24 + 1) db
  = (Raise (HTTP 401 "Token expired"), db).
Proof.
  intros db.
  split.
  - apply (resolve_expiry_boundary db "Bearer tokB"
             (mk_token "tokB" "buyer1" "buyer" None 1 hours_24) hours_24);
      [reflexivity | reflexivity | simpl; lia].
  - apply (resolve_expiry_boundary db "Bearer tokB"
             (mk_token "tokB" "buyer1" "buyer" None 1 hours_24)
             (hours_24 + 1));
      [reflexivity | reflexivity | simpl; unfold hours_24; lia].
Defined.

(** ** C7: the order of the checks of [fulfill_request_item] *)

(** C7.  For an authenticated factory identity, [fulfill_request_item]
    checks in a fixed order and stops at the first failing check, each with
    its own exception: request missing (404), request of another factory
    (403), item missing or not of that request (404), evidence missing
    (404), evidence of another factory (403), version missing under that
    evidence (404).  The premises of each case constrain only the checks up
    to the failing one, so whatever the later checks would find is never
    surfaced; the six exceptions are pairwise distinct. *)
Theorem fulfill_validation_order (a : option string) (rid iid : string)
    (f : FulfillRequest) (t0 t1 t2 : Z) (db : DB) (user : User) :
  require_role FACTORY a t0 db = (Ok user, db) ->
  let out := fst (fulfill_request_item a rid iid f t0 t1 t2 db) in
  let rq := fetchone (request_rows rid db) in
  let it := fetchone (item_rows iid rid db) in
  let ev := fetchone (evidence_rows (fr_evidenceId f) db) in
  let v := fetchone (version_rows (fr_versionId f) (fr_evidenceId f) db) in
  (rq = None -> out = Raise (HTTP 404 "Request not found")) /\
  (forall r, rq = Some r -> factory_differs (r_factory_id r) user = true ->
     out = Raise (HTTP 403 "Cannot fulfill other factory's requests")) /\
  (forall r, rq = Some r -> factory_differs (r_factory_id r) user = false ->
     it = None -> out = Raise (HTTP 404 "Request item not found")) /\
  (forall r i, rq = Some r -> factory_differs (r_factory_id r) user = false ->
     it = Some i -> ev = None ->
     out = Raise (HTTP 404 "Evidence not found")) /\
  (forall r i e, rq = Some r ->
     factory_differs (r_factory_id r) user = false ->
     it = Some i -> ev = Some e ->
     factory_differs (e_factory_id e) user = true ->
     out = Raise (HTTP 403 "Cannot use other factory's evidence")) /\
  (forall r i e, rq = Some r ->
     factory_differs (r_factory_id r) user = false ->
     it = Some i -> ev = Some e ->
     factory_differs (e_factory_id e) user = false ->
     v = None -> out = Raise (HTTP 404 "Evidence version not found")) /\
  (forall r i e w, rq = Some r ->
     factory_differs (r_factory_id r) user = false ->
     it = Some i -> ev = Some e ->
     factory_differs (e_factory_id e) user = false ->
     v = Some w -> out = Ok (mk_FulfillResponse true iid "fulfilled")) /\
  NoDup [HTTP 404 "Request not found";
         HTTP 403 "Cannot fulfill other factory's requests";
         HTTP 404 "Request item not found";
         HTTP 404 "Evidence not found";
         HTTP 403 "Cannot use other factory's evidence";
         HTTP 404 "Evidence version not found"].
Proof.
  intros Hrole out rq it ev v. subst out rq it ev v.
  rewrite (fulfill_endpoint _ _ _ _ _ _ _ _ _ Hrole).
  destruct (fulfill_tx_cases rid iid f user t1 t2 db) as [c [Hc Heq]].
  rewrite Heq. clear Heq.
  repeat split; intros;
    try (inversion Hc; subst; simpl; congruence).
  repeat constructor; simpl; intuition discriminate.
Qed.

Lemma fulfill_validation_order_witness :
  let go tok rid iid eid vid :=
    fst (fulfill_request_item (Some tok) rid iid (mk_FulfillRequest eid vid)
                              20 21 22 sample_db) in
  go "Bearer tokF" "R9999" "I0002" "E0003" "V0004"
    = Raise (HTTP 404 "Request not found") /\
  go "Bearer tokG" "R0001" "I9999" "E9999" "V9999"
    = Raise (HTTP 403 "Cannot fulfill other factory's requests") /\
  go "Bearer tokF" "R0001" "I9999" "E9999" "V9999"
    = Raise (HTTP 404 "Request item not found") /\
  go "Bearer tokF" "R0001" "I0002" "E9999" "V0004"
    = Raise (HTTP 404 "Evidence not found") /\
  go "Bearer tokF" "R0001" "I0002" "E0005" "V9999"
    = Raise (HTTP 403 "Cannot use other factory's evidence") /\
  go "Bearer tokF" "R0001" "I0002" "E0003" "V0006"
    = Raise (HTTP 404 "Evidence version not found") /\
  go "Bearer tokF" "R0001" "I0002" "E0003" "V0004"
    = Ok (mk_FulfillResponse true "I0002" "fulfilled").
Proof.
  intros go.
  pose (f1 := mk_User "f1" "factory" (Some "F001")).
  pose (f2 := mk_User "f2" "factory" (Some "F002")).
  refine (conj _ (conj _ (conj _ (conj _ (conj _ (conj _ _)))))).
  - apply (fulfill_validation_order (Some "Bearer tokF") "R9999" "I0002"
             (mk_FulfillRequest "E0003" "V0004") 20 21 22 sample_db f1);
      reflexivity.
  - eapply (fulfill_validation_order (Some "Bearer tokG") "R0001" "I9999"
             (mk_FulfillRequest "E9999" "V9999") 20 21 22 sample_db f2);
      reflexivity.
  - eapply (fulfill_validation_order (Some "Bearer tokF") "R0001" "I9999"
             (mk_FulfillRequest "E9999" "V9999") 20 21 22 sample_db f1);
      reflexivity.
  - eapply (fulfill_validation_order (Some "Bearer tokF") "R0001" "I0002"
             (mk_FulfillRequest "E9999" "V0004") 20 21 22 sample_db f1);
      reflexivity.
  - eapply (fulfill_validation_order (Some "Bearer tokF") "R0001" "I0002"
             (mk_FulfillRequest "E0005" "V9999") 20 21 22 sample_db f1);
      reflexivity.
  - eapply (fulfill_validation_order (Some "Bearer tokF") "R0001" "I0002"
             (mk_FulfillRequest "E0003" "V0006") 20 21 22 sample_db f1);
      reflexivity.
  - eapply (fulfill_validation_order (Some "Bearer tokF") "R0001" "I0002"
             (mk_FulfillRequest "E0003" "V0004") 20 21 22 sample_db f1);
      reflexivity.
Defined.

(** ** C8: one audit record per successful mutation *)

(** C8, counterexample.  The audit record of a successful [login] does not
    name the session it creates: its object id is the placeholder "N/A"
    (which is not the user id either). *)
Lemma login_audit_object_counterexample :
  let request := mk_LoginRequest "buyer1" BUYER None in
  let out := login request "tokB" 0 1 2 init_db in
  fst out = Ok (mk_LoginResponse "tokB" "buyer1" "buyer" None) /\
  auth_tokens (snd out)
  = [mk_token "tokB" "buyer1" "buyer" None 1 hours_24] /\
  audit_log (snd out)
  = [mk_audit 1 2 "buyer1" "buyer" "LOGIN" "Request" "N/A"
              (JObj [("userId", JStr "buyer1"); ("role", JStr "buyer");
                     ("factoryId", JNull)])] /\
  ~ login_audit_names_session_on.
Proof.
  refine (conj eq_refl (conj eq_refl (conj eq_refl _))).
  intros Hspec.
  destruct (Hspec (mk_LoginRequest "buyer1" BUYER None) "tokB" 0 1 2 init_db
                  (mk_LoginResponse "tokB" "buyer1" "buyer" None)
                  (snd (login (mk_LoginRequest "buyer1" BUYER None) "tokB"
                              0 1 2 init_db))
                  eq_refl) as (rec & Hlog & Hid).
  simpl in Hlog. inversion Hlog; subst rec. discriminate Hid.
Qed.

Lemma exec_audit_step (o : op) (db : DB) :
  exec o db = db \/ exists rec, audit_log (exec o db) = audit_log db ++ [rec].
Proof.
  destruct (exec_effect o db) as [->|He]; [auto|]. right.
  remember (exec o db) as db' eqn:Hdb'. clear Hdb'.
  inversion He; subst; simpl; eexists; reflexivity.
Qed.

(** C8, as the code has it.  Each successful [login], [create_evidence],
    [add_evidence_version], [create_request] and [fulfill_request_item]
    appends exactly one audit record, committed together with the rows it
    writes.  The object id of the record is the id of the new evidence, of
    the new version, of the new request and of the fulfilled item; for
    [login] it is the placeholder "N/A" with object type "Request".  The
    metadata are those of [login_audit], [create_evidence_audit],
    [add_version_audit], [create_request_audit] and [fulfill_audit].  No
    call changes the database without appending exactly one record. *)
Theorem audit_record_per_mutation :
  (forall request token t1 t2 t3 db resp db',
     login request token t1 t2 t3 db = (Ok resp, db') ->
     auth_tokens db' =
       auth_tokens db ++ [login_token_row request token t1 t2] /\
     audit_log db' = audit_log db ++ [login_audit db request t3] /\
     a_object_id (login_audit db request t3) = "N/A") /\
  (forall a ev t0 he hv t1 t2 t3 db resp db',
     create_evidence a ev t0 he hv t1 t2 t3 db = (Ok resp, db') ->
     exists user fid,
       get_current_user a t0 db = (Ok user, db) /\
       factoryId user = Some fid /\
       evidence db' =
         evidence db ++ [mk_evidence (er_evidenceId resp) fid (ec_name ev)
                                     (ec_docType ev) t1] /\
       evidence_versions db' =
         evidence_versions db ++
           [mk_version (er_versionId resp) (er_evidenceId resp) 1
                       (ec_expiry ev) (ec_notes ev) t2] /\
       audit_log db' =
         audit_log db ++
           [create_evidence_audit db ev user (er_evidenceId resp)
                                  (er_versionId resp) t3] /\
       a_object_id (create_evidence_audit db ev user (er_evidenceId resp)
                                          (er_versionId resp) t3)
       = er_evidenceId resp) /\
  (forall a eid version t0 hv t1 t2 db resp db',
     add_evidence_version a eid version t0 hv t1 t2 db = (Ok resp, db') ->
     exists user,
       get_current_user a t0 db = (Ok user, db) /\
       evidence_versions db' =
         evidence_versions db ++
           [mk_version (er_versionId resp) eid (next_version_number eid db)
                       (vc_expiry version) (vc_notes version) t1] /\
       audit_log db' =
         audit_log db ++
           [add_version_audit db eid user (er_versionId resp) t2] /\
       a_object_id (add_version_audit db eid user (er_versionId resp) t2)
       = er_versionId resp) /\
  (forall a request t0 hr t1 hex t2 db resp db',
     create_request a request t0 hr t1 hex t2 db = (Ok resp, db') ->
     exists user,
       get_current_user a t0 db = (Ok user, db) /\
       requests db' =
         requests db ++
           [mk_request (rcd_requestId resp) (userId user)
                       (rc_factoryId request) (rc_title request) "pending"
                       t1] /\
       request_items db' =
         request_items db ++
           new_item_rows (rcd_requestId resp) (rc_items request) hex 0 /\
       audit_log db' =
         audit_log db ++
           [create_request_audit db request user (rcd_requestId resp) t2] /\
       a_object_id (create_request_audit db request user
                                         (rcd_requestId resp) t2)
       = rcd_requestId resp) /\
  (forall a rid iid f t0 t1 t2 db resp db',
     fulfill_request_item a rid iid f t0 t1 t2 db = (Ok resp, db') ->
     exists user rq it,
       get_current_user a t0 db = (Ok user, db) /\
       fetchone (request_rows rid db) = Some rq /\
       fetchone (item_rows iid rid db) = Some it /\
       request_items db' =
         request_items (update_item (fr_evidenceId f) (fr_versionId f) t1
                                    iid db) /\
       audit_log db' =
         audit_log db ++ [fulfill_audit db rid iid f user rq it t2] /\
       a_object_id (fulfill_audit db rid iid f user rq it t2) = iid) /\
  (forall o db,
     exec o db = db \/
     exists rec, audit_log (exec o db) = audit_log db ++ [rec]).
Proof.
  refine (conj _ (conj _ (conj _ (conj _ (conj _ exec_audit_step))))).
  - intros request token t1 t2 t3 db resp db' H.
    apply login_ok in H. destruct H as (_ & _ & ->). auto.
  - intros a ev t0 he hv t1 t2 t3 db resp db'.
    rewrite create_evidence_cases.
    destruct (require_role FACTORY a t0 db) as [[user|e] db0] eqn:Hrole;
      [|discriminate].
    apply require_role_ok in Hrole. destruct Hrole as (Hget & _ & ->).
    destruct (create_evidence_tx _ _ _ _ _ _ _ db) as [[u|e] db1] eqn:Htx;
      [|discriminate].
    apply create_evidence_tx_ok in Htx.
    destruct Htx as (fid & Hfid & _ & _ & ->).
    intros H; inversion H; subst. exists user, fid. simpl. auto 10.
  - intros a eid version t0 hv t1 t2 db resp db'.
    rewrite add_evidence_version_cases.
    destruct (require_role FACTORY a t0 db) as [[user|e] db0] eqn:Hrole;
      [|discriminate].
    apply require_role_ok in Hrole. destruct Hrole as (Hget & _ & ->).
    destruct (add_evidence_version_tx _ _ _ _ _ _ db) as [[u|e] db1] eqn:Htx;
      [|discriminate].
    apply add_evidence_version_tx_ok in Htx.
    destruct Htx as (row & _ & _ & _ & -> & ->).
    intros H; inversion H; subst. exists user. simpl. auto 10.
  - intros a request t0 hr t1 hex t2 db resp db'.
    rewrite create_request_cases.
    destruct (require_role BUYER a t0 db) as [[user|e] db0] eqn:Hrole;
      [|discriminate].
    apply require_role_ok in Hrole. destruct Hrole as (Hget & _ & ->).
    destruct (create_request_tx _ _ _ _ _ _ db) as [[u|e] db1] eqn:Htx;
      [|discriminate].
    apply create_request_tx_ok in Htx.
    destruct Htx as (_ & _ & _ & _ & ->).
    intros H; inversion H; subst. exists user. simpl. auto 10.
  - intros a rid iid f t0 t1 t2 db resp db' H.
    apply fulfill_ok in H.
    destruct H as (user & rq & it & Hrole & Hc & _ & ->).
    apply require_role_ok in Hrole. destruct Hrole as (Hget & _ & _).
    exists user, rq, it. inversion Hc; subst. simpl.
    unfold fulfill_updates. destruct (counts_equal _); simpl; auto 10.
Qed.

Lemma audit_record_per_mutation_witness :
  (let request := mk_LoginRequest "buyer2" BUYER None in
   let db' := snd (login request "tokC" 30 31 32 sample_db) in
   auth_tokens db' =
     auth_tokens sample_db ++ [login_token_row request "tokC" 30 31] /\
   audit_log db' = audit_log sample_db ++ [login_audit sample_db request 32] /\
   a_object_id (login_audit sample_db request 32) = "N/A") /\
  (let f := mk_FulfillRequest "E0003" "V0004" in
   let db' := snd (fulfill_request_item (Some "Bearer tokF") "R0001" "I0002"
                     f 20 21 22 sample_db) in
   exists user rq it,
     get_current_user (Some "Bearer tokF") 20 sample_db
       = (Ok user, sample_db) /\
     fetchone (request_rows "R0001" sample_db) = Some rq /\
     fetchone (item_rows "I0002" "R0001" sample_db) = Some it /\
     request_items db' =
       request_items (update_item "E0003" "V0004" 21 "I0002" sample_db) /\
     audit_log db' =
       audit_log sample_db ++
         [fulfill_audit sample_db "R0001" "I0002" f user rq it 22] /\
     a_object_id (fulfill_audit sample_db "R0001" "I0002" f user rq it 22)
       = "I0002").
Proof.
  split.
  - exact (proj1 audit_record_per_mutation
             (mk_LoginRequest "buyer2" BUYER None) "tokC" 30 31 32 sample_db
             (mk_LoginResponse "tokC" "buyer2" "buyer" None) _ eq_refl).
  - exact (proj1 (proj2 (proj2 (proj2 (proj2 audit_record_per_mutation))))
             (Some "Bearer tokF") "R0001" "I0002"
             (mk_FulfillRequest "E0003" "V0004") 20 21 22 sample_db
             (mk_FulfillResponse true "I0002" "fulfilled") _ eq_refl).
Defined.

(** ** C9: a request created without items *)

Lemma item_rows_in_items_of iid rid db it :
  fetchone (item_rows iid rid db) = Some it -> In it (items_of rid db).
Proof.
  intros H. apply fetchone_in in H. apply filter_In in H.
  destruct H as [Hin Hkey]. apply andb_true_iff in Hkey.
  apply filter_In. tauto.
Qed.

Lemma effect_keeps_empty_request rid rq db o db' :
  empty_request rid rq db -> effect db o db' -> empty_request rid rq db'.
Proof.
  intros [Hrq Hnone] He.
  assert (Hid : r_id rq = rid).
  { apply fetchone_in in Hrq. apply filter_In in Hrq.
    apply String.eqb_eq. tauto. }
  inversion He; subst; try (split; assumption).
  - assert (Hne : generate_id "R" hr <> r_id rq).
    { intros Heq.
      match goal with Hf : pk_free r_id _ _ |- _ =>
        apply pk_free_not_in in Hf; apply Hf end.
      rewrite Heq. apply in_map. apply fetchone_in in Hrq.
      apply filter_In in Hrq. tauto. }
    split.
    + unfold request_rows in *. simpl. apply fetchone_filter_app.
      exact Hrq.
    + unfold items_of in *. simpl. rewrite filter_app, Hnone. simpl.
      apply filter_none. intros r Hr. apply new_item_rows_in in Hr.
      apply String.eqb_neq. intuition congruence.
  - match goal with Hc : fulfill_check _ _ _ _ _ _ |- _ =>
      inversion Hc; subst end.
    assert (Hne : rid0 <> r_id rq).
    { intros ->.
      match goal with Hi : fetchone (item_rows _ _ _) = Some _ |- _ =>
        apply item_rows_in_items_of in Hi; rewrite Hnone in Hi;
        destruct Hi end. }
    split.
    + change (fetchone (request_rows (r_id rq)
                          (fulfill_updates rid0 iid f t1 db)) = Some rq).
      unfold request_rows. rewrite requests_fulfill_updates.
      destruct (counts_equal _); [|exact Hrq].
      rewrite filter_map_stable
        by (intros r; destruct (String.eqb (r_id r) rid0); reflexivity).
      rewrite fetchone_map. unfold request_rows in Hrq. rewrite Hrq. simpl.
      replace (String.eqb (r_id rq) rid0) with false; [reflexivity|].
      symmetry. apply String.eqb_neq. congruence.
    + change (items_of (r_id rq) (fulfill_updates rid0 iid f t1 db) = []).
      rewrite items_of_fulfill_updates, Hnone. reflexivity.
Qed.

Lemma fulfill_empty_request_fails rid rq db a iid f t0 t1 t2 :
  empty_request rid rq db ->
  exists e, fst (fulfill_request_item a rid iid f t0 t1 t2 db) = Raise e.
Proof.
  intros [_ Hnone]. rewrite fulfill_cases.
  destruct (require_role FACTORY a t0 db) as [[user|e] db0];
    [|eexists; reflexivity].
  destruct (fulfill_tx_cases rid iid f user t1 t2 db) as [c [Hc Heq]].
  rewrite Heq.
  inversion Hc; subst; simpl; try (eexists; reflexivity);
    match goal with Hi : fetchone (item_rows _ _ _) = Some _ |- _ =>
      apply item_rows_in_items_of in Hi; rewrite Hnone in Hi; destruct Hi
    end.
Qed.

(** C9.  In a reachable state, [create_request] called by an authenticated
    buyer with an empty list of items (and a generated request id that is
    not taken) succeeds: it answers the request id, status "pending" and no
    item ids, inserts the request row with status "pending" and inserts no
    item.  After any further sequence of calls that row is unchanged, still
    "pending", the request still has no item, and every
    [fulfill_request_item] on it raises an exception. *)
Theorem empty_request_is_pending_forever (db : DB) (a : option string)
    (factory title : string) (t0 : Z) (hr : string) (t1 : Z)
    (hex : nat -> string) (t2 : Z) (user : User) :
  reachable db ->
  require_role BUYER a t0 db = (Ok user, db) ->
  pk_free r_id (generate_id "R" hr) (requests db) ->
  let rid := generate_id "R" hr in
  let rq := mk_request rid (userId user) factory title "pending" t1 in
  let out := create_request a (mk_RequestCreate factory title []) t0 hr t1
                            hex t2 db in
  fst out = Ok (mk_RequestCreated rid "pending" []) /\
  requests (snd out) = requests db ++ [rq] /\
  request_items (snd out) = request_items db /\
  forall ops,
    fetchone (request_rows rid (run ops (snd out))) = Some rq /\
    items_of rid (run ops (snd out)) = [] /\
    forall a' iid f t0' t1' t2',
      exists e,
        fst (fulfill_request_item a' rid iid f t0' t1' t2'
                                  (run ops (snd out))) = Raise e.
Proof.
  intros Hreach Hrole Hfree rid rq out.
  assert (Hout : out =
    (Ok (mk_RequestCreated rid "pending" []),
     mk_db (audit_log db ++
              [create_request_audit db (mk_RequestCreate factory title [])
                                    user rid t2])
           (evidence db) (evidence_versions db) (requests db ++ [rq])
           (request_items db ++ []) (auth_tokens db))).
  { subst out. rewrite create_request_cases, Hrole.
    unfold create_request_tx, insert_request, log_audit. tx_unfold.
    rewrite insert_pk_free by exact Hfree. simpl.
    rewrite app_nil_r. reflexivity. }
  rewrite Hout. simpl fst. simpl snd.
  refine (conj eq_refl (conj eq_refl (conj (app_nil_r _) _))).
  intros ops.
  assert (H0 : empty_request rid rq
                 (mk_db (audit_log db ++
                           [create_request_audit db
                              (mk_RequestCreate factory title []) user rid
                              t2])
                        (evidence db) (evidence_versions db)
                        (requests db ++ [rq]) (request_items db ++ [])
                        (auth_tokens db))).
  { split.
    - unfold request_rows. simpl. rewrite filter_app.
      rewrite (pk_free_filter r_id rid (requests db) Hfree). simpl.
      subst rq. simpl. rewrite String.eqb_refl. reflexivity.
    - unfold items_of. simpl. rewrite app_nil_r.
      apply (items_of_unknown_request rid db);
        [apply reachable_requests_inv; exact Hreach | exact Hfree]. }
  pose proof (run_invariant (empty_request rid rq)
                (effect_keeps_empty_request rid rq) ops _ H0) as Hops.
  destruct Hops as [Hrq Hnone].
  refine (conj Hrq (conj Hnone _)).
  intros a' iid f t0' t1' t2'.
  apply (fulfill_empty_request_fails rid rq). split; assumption.
Qed.

Lemma empty_request_is_pending_forever_witness :
  let out := create_request (Some "Bearer tokB")
               (mk_RequestCreate "F001" "Nothing" []) 30 "00E0" 31
               (fun _ => "0000") 32 sample_db in
  let rq := mk_request "R00E0" "buyer1" "F001" "Nothing" "pending" 31 in
  fst out = Ok (mk_RequestCreated "R00E0" "pending" []) /\
  requests (snd out) = requests sample_db ++ [rq] /\
  request_items (snd out) = request_items sample_db /\
  forall ops,
    fetchone (request_rows "R00E0" (run ops (snd out))) = Some rq /\
    items_of "R00E0" (run ops (snd out)) = [] /\
    forall a' iid f t0' t1' t2',
      exists e,
        fst (fulfill_request_item a' "R00E0" iid f t0' t1' t2'
                                  (run ops (snd out))) = Raise e.
Proof.
  apply (empty_request_is_pending_forever sample_db (Some "Bearer tokB")
           "F001" "Nothing" 30 "00E0" 31 (fun _ => "0000") 32
           (mk_User "buyer1" "buyer" None)).
  - exists sample_ops. reflexivity.
  - reflexivity.
  - reflexivity.
Defined.

(** ** C10: the owner of new evidence *)

(** C10.  Whenever [create_evidence] succeeds, the header carries a token
    that is on record, and the single evidence row it inserts has as its
    [factory_id] the factory id of that session; the body [ev], which has no
    factory field, plays no part in it. *)
Theorem create_evidence_owner_is_session_factory
    (a : option string) (ev : EvidenceCreate) (t0 : Z) (he hv : string)
    (t1 t2 t3 : Z) (db : DB) (resp : EvidenceResponse) (db' : DB) :
  create_evidence a ev t0 he hv t1 t2 t3 db = (Ok resp, db') ->
  exists header session fid,
    a = Some header /\
    fetchone (token_rows (bearer_token header) db) = Some session /\
    t_factory_id session = Some fid /\
    evidence db' =
    evidence db ++ [mk_evidence (er_evidenceId resp) fid (ec_name ev)
                                (ec_docType ev) t1].
Proof.
  rewrite create_evidence_cases.
  destruct (require_role FACTORY a t0 db) as [[user|e] db0] eqn:Hrole;
    [|discriminate].
  apply require_role_ok in Hrole. destruct Hrole as (Hget & _ & ->).
  destruct (create_evidence_tx _ _ _ _ _ _ _ db) as [[u|e] db1] eqn:Htx;
    [|discriminate].
  apply create_evidence_tx_ok in Htx.
  destruct Htx as (fid & Hfid & _ & _ & ->).
  apply get_current_user_ok in Hget.
  destruct Hget as (header & session & -> & Hrow & _ & ->).
  intros H; inversion H; subst. simpl in *.
  exists header, session, fid. auto.
Qed.

Lemma create_evidence_owner_is_session_factory_witness :
  exists header session fid,
    Some "Bearer tokF" = Some header /\
    fetchone (token_rows (bearer_token header) sample_db) = Some session /\
    t_factory_id session = Some fid /\
    evidence (snd (create_evidence (Some "Bearer tokF")
                     (mk_EvidenceCreate "ISO" "Certificate" None None)
                     20 "0007" "0008" 21 22 23 sample_db)) =
    evidence sample_db ++ [mk_evidence "E0007" fid "ISO" "Certificate" 21].
Proof.
  apply (create_evidence_owner_is_session_factory (Some "Bearer tokF")
           (mk_EvidenceCreate "ISO" "Certificate" None None)
           20 "0007" "0008" 21 22 23 sample_db
           (mk_EvidenceResponse "E0007" "V0008")).
  reflexivity.
Defined.

(** * Further properties of the code *)

(** ** The [Authorization] header *)

Lemma split_space_cons (s : string) :
  exists w ws, split_space s = w :: ws.
Proof.
  destruct s as [|c s]; simpl; [eauto|].
  destruct (Ascii.eqb c " "); [eauto|].
  destruct (split_space s); eauto.
Qed.

Lemma split_space_app (t s : string) :
  no_space t = true ->
  split_space (t ++ String " " s) = t :: split_space s.
Proof.
  induction t as [|c t IH]; simpl; intros H; [reflexivity|].
  apply andb_true_iff in H. destruct H as [Hc Ht].
  apply negb_true_iff in Hc. rewrite Hc, (IH Ht). reflexivity.
Qed.

Lemma split_space_word (t : string) :
  no_space t = true -> split_space t = [t].
Proof.
  induction t as [|c t IH]; simpl; intros H; [reflexivity|].
  apply andb_true_iff in H. destruct H as [Hc Ht].
  apply negb_true_iff in Hc. rewrite Hc, (IH Ht). reflexivity.
Qed.

Lemma bearer_token_plain (token : string) :
  no_space token = true -> bearer_token ("Bearer " ++ token) = token.
Proof.
  intros H. unfold bearer_token.
  change ("Bearer " ++ token)%string
    with ("Bearer" ++ String " " token)%string.
  rewrite split_space_app by reflexivity.
  rewrite split_space_word by exact H. reflexivity.
Qed.

Lemma bearer_token_rest (token rest : string) :
  no_space token = true ->
  bearer_token ("Bearer " ++ token ++ String " " rest) = token.
Proof.
  intros H. unfold bearer_token.
  change ("Bearer " ++ token ++ String " " rest)%string
    with ("Bearer" ++ String " " (token ++ String " " rest))%string.
  rewrite split_space_app by reflexivity.
  rewrite split_space_app by exact H. reflexivity.
Qed.

(** X1.  [authorization.split(" ")[1]] is the text between the first and
    the second space: for a header "Bearer " followed by a token without
    spaces it is the token, and anything that follows the token after a
    further space is ignored. *)
Theorem bearer_token_is_first_segment (token : string) :
  no_space token = true ->
  bearer_token ("Bearer " ++ token) = token /\
  forall rest, bearer_token ("Bearer " ++ token ++ String " " rest) = token.
Proof.
  intros H. split; [|intros rest].
  - apply bearer_token_plain. exact H.
  - apply bearer_token_rest. exact H.
Qed.

Lemma bearer_token_is_first_segment_witness :
  bearer_token ("Bearer " ++ "tokF") = "tokF" /\
  forall rest, bearer_token ("Bearer " ++ "tokF" ++ String " " rest) = "tokF".
Proof.
  apply (bearer_token_is_first_segment "tokF"). reflexivity.
Defined.

(** ** Authentication and the role check *)

Lemma get_current_user_found (db : DB) (header : string) (row : token_row)
    (now : Z) :
  startswith "Bearer " header = true ->
  fetchone (token_rows (bearer_token header) db) = Some row ->
  get_current_user (Some header) now db
  = if t_expires_at row <? now
    then (Raise (HTTP 401 "Token expired"), db)
    else (Ok (mk_User (t_user_id row) (t_role row) (t_factory_id row)), db).
Proof.
  intros Hpre Hrow.
  assert (Hne : String.eqb header "" = false)
    by (eapply startswith_nonempty; [|exact Hpre]; discriminate).
  unfold get_current_user. rewrite Hne, Hpre. cbn [negb andb].
  tx_unfold. rewrite Hrow. destruct (_ <? _); reflexivity.
Qed.

(** X2.  [get_current_user] rejects with 401 and nothing else: a missing
    header and a header that does not start with "Bearer " give "Missing or
    invalid authorization header", a token that is not on record gives
    "Invalid token"; whatever it raises is one of the three 401 exceptions,
    and it never changes the database. *)
Theorem get_current_user_rejections (db : DB) (now : Z) :
  get_current_user None now db
  = (Raise (HTTP 401 "Missing or invalid authorization header"), db) /\
  (forall header,
     startswith "Bearer " header = false ->
     get_current_user (Some header) now db
     = (Raise (HTTP 401 "Missing or invalid authorization header"), db)) /\
  (forall header,
     startswith "Bearer " header = true ->
     token_rows (bearer_token header) db = [] ->
     get_current_user (Some header) now db
     = (Raise (HTTP 401 "Invalid token"), db)) /\
  (forall a e db',
     get_current_user a now db = (Raise e, db') ->
     db' = db /\
     In e [HTTP 401 "Missing or invalid authorization header";
           HTTP 401 "Invalid token"; HTTP 401 "Token expired"]).
Proof.
  refine (conj eq_refl (conj _ (conj _ _))).
  - intros header H. unfold get_current_user. rewrite H, andb_false_r.
    reflexivity.
  - intros header Hpre Hnone.
    assert (Hne : String.eqb header "" = false)
      by (eapply startswith_nonempty; [|exact Hpre]; discriminate).
    unfold get_current_user. rewrite Hne, Hpre. cbn [negb andb].
    tx_unfold. rewrite Hnone. reflexivity.
  - intros a e db' H.
    pose proof (get_current_user_reads a now db) as Hs.
    rewrite H in Hs. simpl in Hs. split; [exact Hs|].
    unfold get_current_user in H. destruct a as [header|].
    + destruct (negb _).
      * inversion H. simpl. auto.
      * tx_unfold. destruct (fetchone _) as [row|].
        -- destruct (_ <? _); inversion H. simpl. auto.
        -- inversion H. simpl. auto.
    + inversion H. simpl. auto.
Qed.

Lemma get_current_user_rejections_witness :
  get_current_user (Some "Basic tokF") 20 sample_db
  = (Raise (HTTP 401 "Missing or invalid authorization header"), sample_db)
  /\
  get_current_user (Some "Bearer nobody") 20 sample_db
  = (Raise (HTTP 401 "Invalid token"), sample_db).
Proof.
  pose proof (get_current_user_rejections sample_db 20) as (_ & H1 & H2 & _).
  split; [apply H1|apply H2]; reflexivity.
Defined.

Lemma require_role_denied (r : Role) (a : option string) (now : Z) (db : DB)
    (user : User) :
  get_current_user a now db = (Ok user, db) ->
  role user <> Role_value r ->
  require_role r a now db
  = (Raise (HTTP 403 ("Requires " ++ Role_value r ++ " role")%string), db).
Proof.
  intros H Hr. unfold require_role, bind. rewrite H.
  apply String.eqb_neq in Hr. rewrite Hr. reflexivity.
Qed.

Lemma require_role_unauthenticated (r : Role) (a : option string) (now : Z)
    (db db' : DB) (e : exn) :
  get_current_user a now db = (Raise e, db') ->
  require_role r a now db = (Raise e, db').
Proof. intros H. unfold require_role, bind. rewrite H. reflexivity. Qed.

(** X3.  The role check comes before everything an endpoint does.  A caller
    whose session has another role than "factory" gets 403 "Requires factory
    role" from [create_evidence], [add_evidence_version],
    [get_factory_requests] and [fulfill_request_item], whatever the
    arguments, and a caller whose role is not "buyer" gets 403 "Requires
    buyer role" from [create_request]; nothing is written. *)
Theorem wrong_role_is_forbidden (a : option string) (t0 : Z) (db : DB)
    (user : User) :
  get_current_user a t0 db = (Ok user, db) ->
  (role user <> "factory" ->
   (forall ev he hv t1 t2 t3,
      create_evidence a ev t0 he hv t1 t2 t3 db
      = (Raise (HTTP 403 "Requires factory role"), db)) /\
   (forall eid version hv t1 t2,
      add_evidence_version a eid version t0 hv t1 t2 db
      = (Raise (HTTP 403 "Requires factory role"), db)) /\
   get_factory_requests a t0 db
   = (Raise (HTTP 403 "Requires factory role"), db) /\
   (forall rid iid f t1 t2,
      fulfill_request_item a rid iid f t0 t1 t2 db
      = (Raise (HTTP 403 "Requires factory role"), db))) /\
  (role user <> "buyer" ->
   forall request hr t1 hex t2,
     create_request a request t0 hr t1 hex t2 db
     = (Raise (HTTP 403 "Requires buyer role"), db)).
Proof.
  intros Hget. split.
  - intros Hr.
    pose proof (require_role_denied FACTORY a t0 db user Hget Hr) as Hden.
    simpl in Hden.
    refine (conj _ (conj _ (conj _ _))); intros.
    + rewrite create_evidence_cases, Hden. reflexivity.
    + rewrite add_evidence_version_cases, Hden. reflexivity.
    + unfold get_factory_requests. unfold bind at 1. rewrite Hden.
      reflexivity.
    + rewrite fulfill_cases, Hden. reflexivity.
  - intros Hr request hr t1 hex t2.
    pose proof (require_role_denied BUYER a t0 db user Hget Hr) as Hden.
    simpl in Hden. rewrite create_request_cases, Hden. reflexivity.
Qed.

Lemma wrong_role_is_forbidden_witness :
  create_evidence (Some "Bearer tokB")
    (mk_EvidenceCreate "Test" "Report" None (Some "Should fail"))
    20 "0007" "0008" 21 22 23 sample_db
  = (Raise (HTTP 403 "Requires factory role"), sample_db) /\
  create_request (Some "Bearer tokF")
    (mk_RequestCreate "F001" "Own request" [mk_RequestItem "Report"])
    20 "0009" 21 (fun _ => "000A") 22 sample_db
  = (Raise (HTTP 403 "Requires buyer role"), sample_db).
Proof.
  split.
  - apply (proj1 (wrong_role_is_forbidden (Some "Bearer tokB") 20 sample_db
                    (mk_User "buyer1" "buyer" None) eq_refl)).
    discriminate.
  - apply (proj2 (wrong_role_is_forbidden (Some "Bearer tokF") 20 sample_db
                    (mk_User "f1" "factory" (Some "F001")) eq_refl)).
    discriminate.
Defined.

(** X4.  An endpoint that needs a session answers the 401 of
    [get_current_user] before it looks at anything else, and writes
    nothing. *)
Theorem unauthenticated_is_rejected_first (a : option string) (t0 : Z)
    (db db0 : DB) (e : exn) :
  get_current_user a t0 db = (Raise e, db0) ->
  (forall ev he hv t1 t2 t3,
     create_evidence a ev t0 he hv t1 t2 t3 db = (Raise e, db)) /\
  (forall eid version hv t1 t2,
     add_evidence_version a eid version t0 hv t1 t2 db = (Raise e, db)) /\
  (forall request hr t1 hex t2,
     create_request a request t0 hr t1 hex t2 db = (Raise e, db)) /\
  get_factory_requests a t0 db = (Raise e, db) /\
  (forall rid iid f t1 t2,
     fulfill_request_item a rid iid f t0 t1 t2 db = (Raise e, db)) /\
  (forall limit, get_audit_log a limit t0 db = (Raise e, db)).
Proof.
  intros Hget.
  pose proof (get_current_user_reads a t0 db) as Hs.
  rewrite Hget in Hs. simpl in Hs. subst db0.
  pose proof (require_role_unauthenticated FACTORY a t0 db db e Hget) as Hf.
  pose proof (require_role_unauthenticated BUYER a t0 db db e Hget) as Hb.
  refine (conj _ (conj _ (conj _ (conj _ (conj _ _))))); intros.
  - rewrite create_evidence_cases, Hf. reflexivity.
  - rewrite add_evidence_version_cases, Hf. reflexivity.
  - rewrite create_request_cases, Hb. reflexivity.
  - unfold get_factory_requests. unfold bind at 1. rewrite Hf. reflexivity.
  - rewrite fulfill_cases, Hf. reflexivity.
  - unfold get_audit_log. unfold bind at 1. rewrite Hget. reflexivity.
Qed.

Lemma unauthenticated_is_rejected_first_witness :
  get_factory_requests None 20 sample_db
  = (Raise (HTTP 401 "Missing or invalid authorization header"), sample_db).
Proof.
  apply (unauthenticated_is_rejected_first None 20 sample_db sample_db
           (HTTP 401 "Missing or invalid authorization header") eq_refl).
Defined.

(** ** [login] *)

(** X5.  [login] accepts a request exactly when the factory id is present
    (not [None], not the empty string) for role factory and absent for role
    buyer; otherwise it answers 400 and writes nothing.  An accepted request
    stores the session with expiry 24 hours after the instant of issue and
    one audit record, unless the token is already on record: then the
    INSERT fails and nothing is written. *)
Theorem login_outcomes (request : LoginRequest) (token : string)
    (t1 t2 t3 : Z) (db : DB) :
  (lr_role request = FACTORY -> truthy (lr_factoryId request) = false ->
   login request token t1 t2 t3 db
   = (Raise (HTTP 400 "Factory role requires factoryId"), db)) /\
  (lr_role request = BUYER -> truthy (lr_factoryId request) = true ->
   login request token t1 t2 t3 db
   = (Raise (HTTP 400 "Buyer role should not have factoryId"), db)) /\
  (truthy (lr_factoryId request) = is_factory (lr_role request) ->
   pk_free t_token token (auth_tokens db) ->
   login request token t1 t2 t3 db
   = (Ok (mk_LoginResponse token (lr_userId request)
                           (Role_value (lr_role request))
                           (lr_factoryId request)),
      mk_db (audit_log db ++ [login_audit db request t3])
            (evidence db) (evidence_versions db) (requests db)
            (request_items db)
            (auth_tokens db ++
               [mk_token token (lr_userId request)
                         (Role_value (lr_role request))
                         (lr_factoryId request) t2 (t1 + hours_24)]))) /\
  (truthy (lr_factoryId request) = is_factory (lr_role request) ->
   ~ pk_free t_token token (auth_tokens db) ->
   login request token t1 t2 t3 db
   = (Raise (IntegrityError "UNIQUE constraint failed: auth_tokens.token"),
      db)).
Proof.
  unfold login. refine (conj _ (conj _ (conj _ _))).
  - intros -> ->. reflexivity.
  - intros -> ->. reflexivity.
  - intros Hpair Hfree.
    replace (is_factory (lr_role request) &&
             negb (truthy (lr_factoryId request))) with false
      by (rewrite Hpair; destruct (lr_role request); reflexivity).
    replace (is_buyer (lr_role request) && truthy (lr_factoryId request))
      with false
      by (rewrite Hpair; destruct (lr_role request); reflexivity).
    unfold insert_token, log_audit. tx_unfold.
    rewrite insert_pk_free by exact Hfree. reflexivity.
  - intros Hpair Htaken.
    replace (is_factory (lr_role request) &&
             negb (truthy (lr_factoryId request))) with false
      by (rewrite Hpair; destruct (lr_role request); reflexivity).
    replace (is_buyer (lr_role request) && truthy (lr_factoryId request))
      with false
      by (rewrite Hpair; destruct (lr_role request); reflexivity).
    assert (Hex : existsb (fun r => String.eqb (t_token r) token)
                          (auth_tokens db) = true)
      by (unfold pk_free in Htaken;
          destruct (existsb _ (auth_tokens db)); congruence).
    unfold insert_token, log_audit, insert_pk. tx_unfold. simpl.
    rewrite Hex. reflexivity.
Qed.

Lemma login_outcomes_witness :
  login (mk_LoginRequest "factory_user1" FACTORY None) "tokX" 30 31 32
        sample_db
  = (Raise (HTTP 400 "Factory role requires factoryId"), sample_db) /\
  login (mk_LoginRequest "factory_user1" FACTORY (Some "")) "tokX" 30 31 32
        sample_db
  = (Raise (HTTP 400 "Factory role requires factoryId"), sample_db) /\
  login (mk_LoginRequest "buyer1" BUYER (Some "F001")) "tokX" 30 31 32
        sample_db
  = (Raise (HTTP 400 "Buyer role should not have factoryId"), sample_db) /\
  login (mk_LoginRequest "buyer9" BUYER None) "tokB" 30 31 32 sample_db
  = (Raise (IntegrityError "UNIQUE constraint failed: auth_tokens.token"),
     sample_db).
Proof.
  refine (conj _ (conj _ (conj _ _))).
  - apply (login_outcomes (mk_LoginRequest "factory_user1" FACTORY None));
      reflexivity.
  - apply (login_outcomes
             (mk_LoginRequest "factory_user1" FACTORY (Some "")));
      reflexivity.
  - apply (login_outcomes (mk_LoginRequest "buyer1" BUYER (Some "F001")));
      reflexivity.
  - apply (login_outcomes (mk_LoginRequest "buyer9" BUYER None) "tokB");
      [reflexivity | discriminate].
Defined.

(** ** What no call changes *)

Lemma extends_refl {A} (l : list A) : extends l l.
Proof. exists []. symmetry. apply app_nil_r. Qed.

Lemma extends_app {A} (l s : list A) : extends l (l ++ s).
Proof. exists s. reflexivity. Qed.

Lemma extends_trans {A} (l1 l2 l3 : list A) :
  extends l1 l2 -> extends l2 l3 -> extends l1 l3.
Proof.
  intros [s1 ->] [s2 ->]. exists (s1 ++ s2). symmetry. apply app_assoc.
Qed.

Lemma extends_fetchone {A} (p : A -> bool) (l l' : list A) (x : A) :
  extends l l' ->
  fetchone (filter p l) = Some x -> fetchone (filter p l') = Some x.
Proof. intros [s ->]. apply fetchone_filter_app. Qed.

Lemma extends_in {A} (l l' : list A) (x : A) :
  extends l l' -> In x l -> In x l'.
Proof. intros [s ->] H. apply in_or_app. auto. Qed.

(** What one effect leaves in place in each table. *)
Lemma effect_tables db o db' :
  effect db o db' ->
  extends (audit_log db) (audit_log db') /\
  extends (evidence db) (evidence db') /\
  extends (evidence_versions db) (evidence_versions db') /\
  extends (auth_tokens db) (auth_tokens db') /\
  extends (map request_fixed (requests db))
          (map request_fixed (requests db')) /\
  extends (map item_fixed (request_items db))
          (map item_fixed (request_items db')).
Proof.
  intros He. inversion He; subst; simpl;
    rewrite ?map_app;
    try (repeat split; solve [apply extends_refl | apply extends_app]).
  destruct (fixed_fulfill_updates rid iid f t1 db)
    as (He1 & He2 & He3 & He4 & He5).
  rewrite He1, He2, He3, He4, He5.
  repeat split; solve [apply extends_refl | apply extends_app].
Qed.

Lemma run_tables ops db :
  extends (audit_log db) (audit_log (run ops db)) /\
  extends (evidence db) (evidence (run ops db)) /\
  extends (evidence_versions db) (evidence_versions (run ops db)) /\
  extends (auth_tokens db) (auth_tokens (run ops db)) /\
  extends (map request_fixed (requests db))
          (map request_fixed (requests (run ops db))) /\
  extends (map item_fixed (request_items db))
          (map item_fixed (request_items (run ops db))).
Proof.
  apply (run_invariant (fun d =>
    extends (audit_log db) (audit_log d) /\
    extends (evidence db) (evidence d) /\
    extends (evidence_versions db) (evidence_versions d) /\
    extends (auth_tokens db) (auth_tokens d) /\
    extends (map request_fixed (requests db))
            (map request_fixed (requests d)) /\
    extends (map item_fixed (request_items db))
            (map item_fixed (request_items d)))).
  - intros d o d' (H1 & H2 & H3 & H4 & H5 & H6) He.
    apply effect_tables in He.
    destruct He as (E1 & E2 & E3 & E4 & E5 & E6).
    repeat split; eapply extends_trans; eauto.
  - repeat split; apply extends_refl.
Qed.

(** X6.  No call updates or deletes a row of [audit_log], [evidence],
    [evidence_versions] or [auth_tokens]: after any sequence of calls each
    of these tables is the old table with rows appended.  In particular an
    existing version is never edited and the expiry of a session is never
    extended. *)
Theorem append_only_tables (ops : list op) (db : DB) :
  extends (audit_log db) (audit_log (run ops db)) /\
  extends (evidence db) (evidence (run ops db)) /\
  extends (evidence_versions db) (evidence_versions (run ops db)) /\
  extends (auth_tokens db) (auth_tokens (run ops db)).
Proof.
  destruct (run_tables ops db) as (H1 & H2 & H3 & H4 & _). auto.
Qed.

(** X7.  No call deletes a request or an item, and the only columns a call
    ever updates are [requests.status] and the status, evidence id, version
    id and fulfilment instant of an item: id, buyer, factory, title and
    creation instant of every request, and id, request id and document type
    of every item, stay as they were inserted, in the same order. *)
Theorem requests_and_items_keep_their_identity (ops : list op) (db : DB) :
  extends (map request_fixed (requests db))
          (map request_fixed (requests (run ops db))) /\
  extends (map item_fixed (request_items db))
          (map item_fixed (request_items (run ops db))).
Proof.
  destruct (run_tables ops db) as (_ & _ & _ & _ & H5 & H6). auto.
Qed.

(** ** Sessions *)

Lemma startswith_bearer (token : string) :
  startswith "Bearer " ("Bearer " ++ token) = true.
Proof. unfold startswith. simpl. destruct token; reflexivity. Qed.

Lemma login_session_on_record request token t1 t2 t3 db resp db' ops :
  login request token t1 t2 t3 db = (Ok resp, db') ->
  fetchone (token_rows token (run ops db'))
  = Some (login_token_row request token t1 t2).
Proof.
  intros H. apply login_ok in H. destruct H as (Hfree & _ & ->).
  unfold token_rows.
  apply (extends_fetchone _ _ _ _
           (proj1 (proj2 (proj2 (proj2 (run_tables ops _)))))).
  simpl. rewrite filter_app, (pk_free_filter t_token token _ Hfree).
  simpl. rewrite String.eqb_refl. reflexivity.
Qed.

(** X8.  A session minted by [login] can be used, whatever calls happen in
    between, until 24 hours after its issue: with the header "Bearer " and
    the token, [get_current_user] returns the user id, role and factory id
    given at login as long as the current time is at most the instant of
    issue plus 24 hours, and "Token expired" afterwards.  Nothing renews or
    revokes it. *)
Theorem session_lasts_24_hours (request : LoginRequest) (token : string)
    (t1 t2 t3 : Z) (db : DB) (resp : LoginResponse) (db' : DB)
    (ops : list op) (now : Z) :
  login request token t1 t2 t3 db = (Ok resp, db') ->
  no_space token = true ->
  (now <= t1 + hours_24 ->
   get_current_user (Some ("Bearer " ++ token)%string) now (run ops db')
   = (Ok (mk_User (lr_userId request) (Role_value (lr_role request))
                  (lr_factoryId request)), run ops db')) /\
  (t1 + hours_24 < now ->
   get_current_user (Some ("Bearer " ++ token)%string) now (run ops db')
   = (Raise (HTTP 401 "Token expired"), run ops db')).
Proof.
  intros Hlogin Hword.
  pose proof (login_session_on_record _ _ _ _ _ _ _ _ ops Hlogin) as Hrow.
  rewrite <- (bearer_token_plain token Hword) in Hrow at 1.
  rewrite (get_current_user_found (run ops db') ("Bearer " ++ token)%string
             _ now (startswith_bearer token) Hrow).
  simpl t_expires_at. split; intros Hnow.
  - apply Z.ltb_ge in Hnow. rewrite Hnow. reflexivity.
  - apply Z.ltb_lt in Hnow. rewrite Hnow. reflexivity.
Qed.

Lemma session_lasts_24_hours_witness :
  let request := mk_LoginRequest "f3" FACTORY (Some "F003") in
  let db' := snd (login request "tokH" 100 101 102 sample_db) in
  let ops := [CreateEvidence (Some "Bearer tokH")
                (mk_EvidenceCreate "Cert" "ISO Certificate" None None)
                110 "00F1" "00F2" 111 112 113] in
  get_current_user (Some "Bearer tokH") (100 + hours_24) (run ops db')
  = (Ok (mk_User "f3" "factory" (Some "F003")), run ops db') /\
  get_current_user (Some "Bearer tokH") (101 + hours_24) (run ops db')
  = (Raise (HTTP 401 "Token expired"), run ops db').
Proof.
  intros request db' ops. split.
  - apply (session_lasts_24_hours request "tokH" 100 101 102 sample_db
             (mk_LoginResponse "tokH" "f3" "factory" (Some "F003")) db' ops
             (100 + hours_24));
      [reflexivity | reflexivity | lia].
  - apply (session_lasts_24_hours request "tokH" 100 101 102 sample_db
             (mk_LoginResponse "tokH" "f3" "factory" (Some "F003")) db' ops
             (101 + hours_24));
      [reflexivity | reflexivity | lia].
Defined.

(** ** Failure and rollback *)

Lemma guarded_raise {A B} (r : Role) (a : option string) (t0 : Z)
    (body : User -> Tx A) (k : User -> A -> B) (db db' : DB) (e : exn) :
  match require_role r a t0 db with
  | (Raise e, _) => (Raise e, db)
  | (Ok user, _) =>
      match body user db with
      | (Ok x, d) => (Ok (k user x), d)
      | (Raise e, _) => (Raise e, db)
      end
  end = (Raise e, db') -> db' = db.
Proof.
  destruct (require_role r a t0 db) as [[user|e'] d0].
  - destruct (body user db) as [[x|e'] d]; intros H; inversion H.
    reflexivity.
  - intros H; inversion H. reflexivity.
Qed.

(** X9.  Every endpoint is all or nothing.  Whenever [login],
    [create_evidence], [add_evidence_version], [create_request] or
    [fulfill_request_item] ends in an exception -- an HTTP error or a
    failed INSERT in the middle of its writes -- the database is the one
    before the call; [get_factory_requests] and [get_audit_log] never change
    it. *)
Theorem every_failure_rolls_back (db : DB) (e : exn) (db' : DB) :
  (forall request token t1 t2 t3,
     login request token t1 t2 t3 db = (Raise e, db') -> db' = db) /\
  (forall a ev t0 he hv t1 t2 t3,
     create_evidence a ev t0 he hv t1 t2 t3 db = (Raise e, db') ->
     db' = db) /\
  (forall a eid version t0 hv t1 t2,
     add_evidence_version a eid version t0 hv t1 t2 db = (Raise e, db') ->
     db' = db) /\
  (forall a request t0 hr t1 hex t2,
     create_request a request t0 hr t1 hex t2 db = (Raise e, db') ->
     db' = db) /\
  (forall a rid iid f t0 t1 t2,
     fulfill_request_item a rid iid f t0 t1 t2 db = (Raise e, db') ->
     db' = db) /\
  (forall a t0, snd (get_factory_requests a t0 db) = db) /\
  (forall a limit t0, snd (get_audit_log a limit t0 db) = db).
Proof.
  refine (conj _ (conj _ (conj _ (conj _ (conj _ (conj _ _)))))).
  - intros. eapply login_raise; eauto.
  - intros a ev t0 he hv t1 t2 t3. rewrite create_evidence_cases.
    apply (guarded_raise FACTORY a t0
             (fun user => create_evidence_tx ev user (generate_id "E" he)
                            (generate_id "V" hv) t1 t2 t3)
             (fun _ _ => mk_EvidenceResponse (generate_id "E" he)
                                             (generate_id "V" hv))).
  - intros a eid version t0 hv t1 t2. rewrite add_evidence_version_cases.
    apply (guarded_raise FACTORY a t0
             (fun user => add_evidence_version_tx eid version user hv t1 t2)
             (fun _ vid => mk_EvidenceResponse eid vid)).
  - intros a request t0 hr t1 hex t2. rewrite create_request_cases.
    apply (guarded_raise BUYER a t0
             (fun user => create_request_tx request user
                            (generate_id "R" hr) t1 hex t2)
             (fun _ ids => mk_RequestCreated (generate_id "R" hr) "pending"
                             ids)).
  - intros. eapply fulfill_raise; eauto.
  - intros. apply get_factory_requests_reads.
  - intros. apply get_audit_log_reads.
Qed.

(** The generated id of the only item is taken: the transaction has already
    inserted the request row when the INSERT of the item fails, and the
    rollback removes it. *)
Lemma every_failure_rolls_back_witness :
  let request := mk_RequestCreate "F001" "Q2" [mk_RequestItem "Report"] in
  let user := mk_User "buyer1" "buyer" None in
  requests (snd (create_request_tx request user "R0010" 31
                   (fun _ => "0002") 32 sample_db))
  = requests sample_db ++
      [mk_request "R0010" "buyer1" "F001" "Q2" "pending" 31] /\
  create_request (Some "Bearer tokB") request 30 "0010" 31 (fun _ => "0002")
                 32 sample_db
  = (Raise (IntegrityError "UNIQUE constraint failed: request_items.id"),
     sample_db).
Proof.
  intros request user. split; [reflexivity|].
  assert (H : fst (create_request (Some "Bearer tokB") request 30 "0010" 31
                     (fun _ => "0002") 32 sample_db)
              = Raise (IntegrityError
                         "UNIQUE constraint failed: request_items.id"))
    by reflexivity.
  destruct (create_request (Some "Bearer tokB") request 30 "0010" 31
              (fun _ => "0002") 32 sample_db) as [r d] eqn:E.
  simpl in H. subst r. f_equal.
  exact (proj1 (proj2 (proj2 (proj2
           (every_failure_rolls_back sample_db _ d))))
           (Some "Bearer tokB") request 30 "0010" 31 (fun _ => "0002") 32 E).
Defined.

(** ** [create_request] *)

Lemma insert_items_fresh rid items hex : forall k db,
  NoDup (map i_id (new_item_rows rid items hex k)) ->
  (forall id, In id (map i_id (new_item_rows rid items hex k)) ->
              pk_free i_id id (request_items db)) ->
  insert_items rid items hex k db
  = (Ok (map i_id (new_item_rows rid items hex k)),
     with_request_items db
       (request_items db ++ new_item_rows rid items hex k)).
Proof.
  induction items as [|item rest IH]; intros k db Hnd Hfree; simpl.
  - unfold ret, with_request_items. rewrite app_nil_r. destruct db.
    reflexivity.
  - simpl in Hnd, Hfree. inversion Hnd as [|? ? Hnot Hnd']; subst.
    unfold insert_item. tx_unfold.
    rewrite insert_pk_free by (apply Hfree; left; reflexivity).
    simpl. rewrite IH.
    + unfold with_request_items. simpl. rewrite <- app_assoc. reflexivity.
    + exact Hnd'.
    + intros id Hin. simpl. apply pk_free_app. split.
      * apply Hfree. right. exact Hin.
      * unfold pk_free. cbn [existsb i_id]. rewrite orb_false_r.
        apply String.eqb_neq. intros Heq. apply Hnot. rewrite Heq.
        exact Hin.
Qed.

Lemma insert_items_raise rid items hex : forall k db e db',
  insert_items rid items hex k db = (Raise e, db') ->
  e = IntegrityError "UNIQUE constraint failed: request_items.id".
Proof.
  induction items as [|item rest IH]; intros k db e db' H; simpl in H.
  - discriminate.
  - unfold insert_item, insert_pk in H. tx_unfold.
    destruct (existsb _ _); simpl in H; [inversion H; reflexivity|].
    destruct (insert_items rid rest hex (S k) _) as [[ids|e'] d] eqn:Hrec.
    + discriminate.
    + inversion H; subst. eapply IH; eauto.
Qed.

(** X10.  [create_request] validates nothing in the body: for an
    authenticated buyer it succeeds for every factory id (whether or not any
    factory uses it), title and list of items, as soon as the generated
    request id is not taken and the generated item ids are distinct and not
    taken; and when it fails, the exception is the [IntegrityError] of a
    taken id, never an HTTP error. *)
Theorem create_request_checks_only_ids (a : option string)
    (request : RequestCreate) (t0 : Z) (hr : string) (t1 : Z)
    (hex : nat -> string) (t2 : Z) (db : DB) (user : User) :
  require_role BUYER a t0 db = (Ok user, db) ->
  let rid := generate_id "R" hr in
  let rows := new_item_rows rid (rc_items request) hex 0 in
  (pk_free r_id rid (requests db) ->
   NoDup (map i_id rows) ->
   (forall id, In id (map i_id rows) -> pk_free i_id id (request_items db)) ->
   create_request a request t0 hr t1 hex t2 db
   = (Ok (mk_RequestCreated rid "pending" (map i_id rows)),
      mk_db (audit_log db ++ [create_request_audit db request user rid t2])
            (evidence db) (evidence_versions db)
            (requests db ++
               [mk_request rid (userId user) (rc_factoryId request)
                           (rc_title request) "pending" t1])
            (request_items db ++ rows) (auth_tokens db))) /\
  (forall e db',
     create_request a request t0 hr t1 hex t2 db = (Raise e, db') ->
     exists constraint, e = IntegrityError constraint).
Proof.
  intros Hrole rid rows. split.
  - intros Hfree Hnd Hfi.
    rewrite create_request_cases, Hrole.
    unfold create_request_tx, insert_request, log_audit. tx_unfold.
    rewrite insert_pk_free by exact Hfree. simpl.
    rewrite insert_items_fresh by assumption. reflexivity.
  - intros e db'. rewrite create_request_cases, Hrole.
    unfold create_request_tx, insert_request, log_audit, insert_pk.
    tx_unfold.
    destruct (existsb _ (requests db)); simpl.
    + intros H; inversion H. eauto.
    + destruct (insert_items _ _ _ _ _) as [[ids|e'] d] eqn:Hitems.
      * discriminate.
      * apply insert_items_raise in Hitems. intros H; inversion H; subst.
        eauto.
Qed.

Lemma create_request_checks_only_ids_witness :
  fst (create_request (Some "Bearer tokB")
         (mk_RequestCreate "no such factory" ""
            [mk_RequestItem "Test Report"; mk_RequestItem "Test Report"])
         30 "0011" 31 (fun k => match k with O => "0012" | _ => "0013" end)
         32 sample_db)
  = Ok (mk_RequestCreated "R0011" "pending" ["I0012"; "I0013"]).
Proof.
  pose proof (create_request_checks_only_ids (Some "Bearer tokB")
                (mk_RequestCreate "no such factory" ""
                   [mk_RequestItem "Test Report";
                    mk_RequestItem "Test Report"])
                30 "0011" 31
                (fun k => match k with O => "0012" | _ => "0013" end)
                32 sample_db (mk_User "buyer1" "buyer" None) eq_refl)
    as [H _].
  cbv zeta in H. rewrite H.
  - reflexivity.
  - reflexivity.
  - repeat constructor; simpl; intuition discriminate.
  - intros id [<-|[<-|[]]]; reflexivity.
Defined.

Lemma new_item_rows_combine rid items hex : forall k,
  List.length (new_item_rows rid items hex k) = List.length items /\
  new_item_rows rid items hex k
  = map (pending_item rid)
        (combine (map i_id (new_item_rows rid items hex k)) items).
Proof.
  induction items as [|item rest IH]; intros k; simpl; [auto|].
  destruct (IH (S k)) as [Hlen Hrows]. split; [congruence|].
  unfold pending_item at 1. simpl. f_equal. exact Hrows.
Qed.

(** X11.  A successful [create_request] answers status "pending" and one
    item id per requested item, all different; the i-th id is the primary
    key of a new pending item row, without evidence, for the i-th requested
    document type, and these rows are appended in the order of the request.
    On a state the service can reach, they are exactly the items of the new
    request, whose row is on record with status "pending". *)
Theorem create_request_returns_its_items (a : option string)
    (request : RequestCreate) (t0 : Z) (hr : string) (t1 : Z)
    (hex : nat -> string) (t2 : Z) (db : DB) (resp : RequestCreated)
    (db' : DB) :
  create_request a request t0 hr t1 hex t2 db = (Ok resp, db') ->
  let rows := map (pending_item (rcd_requestId resp))
                  (combine (rcd_itemIds resp) (rc_items request)) in
  rcd_status resp = "pending" /\
  List.length (rcd_itemIds resp) = List.length (rc_items request) /\
  NoDup (rcd_itemIds resp) /\
  request_items db' = request_items db ++ rows /\
  (exists rq,
     fetchone (request_rows (rcd_requestId resp) db') = Some rq /\
     r_status rq = "pending" /\ r_factory_id rq = rc_factoryId request) /\
  (reachable db -> items_of (rcd_requestId resp) db' = rows).
Proof.
  rewrite create_request_cases.
  destruct (require_role BUYER a t0 db) as [[user|e] d0]; [|discriminate].
  destruct (create_request_tx _ _ _ _ _ _ db) as [[ids|e] d] eqn:Htx;
    [|discriminate].
  apply create_request_tx_ok in Htx. cbv zeta in Htx.
  destruct Htx as (Hfree & -> & Hnd & Hfi & ->).
  intros H; inversion H; subst. clear H. cbv zeta. simpl.
  destruct (new_item_rows_combine (generate_id "R" hr) (rc_items request)
              hex 0) as [Hlen Hrows].
  rewrite <- Hrows.
  refine (conj eq_refl (conj _ (conj Hnd (conj eq_refl (conj _ _))))).
  - rewrite length_map. exact Hlen.
  - exists (mk_request (generate_id "R" hr) (userId user)
                       (rc_factoryId request) (rc_title request) "pending"
                       t1).
    split; [|split; reflexivity].
    unfold request_rows. simpl.
    rewrite filter_app, (pk_free_filter r_id _ _ Hfree). simpl.
    rewrite String.eqb_refl. reflexivity.
  - intros Hreach. unfold items_of. simpl. rewrite filter_app.
    pose proof (items_of_unknown_request _ db
                  (proj1 (reachable_requests_inv db Hreach)) Hfree) as Hnone.
    unfold items_of in Hnone. rewrite Hnone. simpl.
    apply filter_all. intros r Hr. apply new_item_rows_in in Hr.
    apply String.eqb_eq. tauto.
Qed.

Lemma create_request_returns_its_items_witness :
  let request := mk_RequestCreate "F001" "Q1 Compliance"
                   [mk_RequestItem "Test Report";
                    mk_RequestItem "Certificate"] in
  let out := create_request (Some "Bearer tokB") request 30 "0011" 31
               (fun k => match k with O => "0012" | _ => "0013" end) 32
               sample_db in
  List.length (rcd_itemIds (mk_RequestCreated "R0011" "pending"
                                              ["I0012"; "I0013"]))
  = 2%nat /\
  items_of "R0011" (snd out)
  = [mk_item "I0012" "R0011" "Test Report" "pending" None None None;
     mk_item "I0013" "R0011" "Certificate" "pending" None None None].
Proof.
  intros request out.
  pose proof (create_request_returns_its_items (Some "Bearer tokB") request
                30 "0011" 31
                (fun k => match k with O => "0012" | _ => "0013" end) 32
                sample_db
                (mk_RequestCreated "R0011" "pending" ["I0012"; "I0013"])
                (snd out) eq_refl) as (_ & Hlen & _ & _ & _ & Hitems).
  split; [exact Hlen|].
  apply Hitems. exists sample_ops. reflexivity.
Defined.

(** ** [create_evidence] and [add_evidence_version] *)

Lemma pk_taken {R} (key : R -> string) (k : string) (rows : list R) :
  ~ pk_free key k rows ->
  existsb (fun r => String.eqb (key r) k) rows = true.
Proof.
  unfold pk_free. destruct (existsb _ rows); congruence.
Qed.

(** X12.  For an authenticated factory, [create_evidence] stores the
    evidence row, its version 1 and one audit record when both generated
    ids are free.  When the evidence id is taken, or when the version id is
    taken, the INSERT fails and nothing is stored: in the second case the
    evidence row that was already inserted is rolled back, so no evidence is
    ever left without its first version. *)
Theorem create_evidence_outcomes (a : option string) (ev : EvidenceCreate)
    (t0 : Z) (he hv : string) (t1 t2 t3 : Z) (db : DB) (user : User)
    (fid : string) :
  require_role FACTORY a t0 db = (Ok user, db) ->
  factoryId user = Some fid ->
  let eid := generate_id "E" he in
  let vid := generate_id "V" hv in
  (pk_free e_id eid (evidence db) ->
   pk_free v_id vid (evidence_versions db) ->
   create_evidence a ev t0 he hv t1 t2 t3 db
   = (Ok (mk_EvidenceResponse eid vid),
      mk_db (audit_log db ++ [create_evidence_audit db ev user eid vid t3])
            (evidence db ++
               [mk_evidence eid fid (ec_name ev) (ec_docType ev) t1])
            (evidence_versions db ++
               [mk_version vid eid 1 (ec_expiry ev) (ec_notes ev) t2])
            (requests db) (request_items db) (auth_tokens db))) /\
  (~ pk_free e_id eid (evidence db) ->
   create_evidence a ev t0 he hv t1 t2 t3 db
   = (Raise (IntegrityError "UNIQUE constraint failed: evidence.id"), db)) /\
  (pk_free e_id eid (evidence db) ->
   ~ pk_free v_id vid (evidence_versions db) ->
   create_evidence a ev t0 he hv t1 t2 t3 db
   = (Raise (IntegrityError
               "UNIQUE constraint failed: evidence_versions.id"), db)).
Proof.
  intros Hrole Hfid eid vid.
  rewrite create_evidence_cases, Hrole.
  unfold create_evidence_tx, create_evidence_audit. rewrite Hfid.
  unfold insert_evidence, insert_version, log_audit. tx_unfold.
  refine (conj _ (conj _ _)).
  - intros He Hv. rewrite insert_pk_free by exact He. simpl.
    rewrite insert_pk_free by exact Hv. reflexivity.
  - intros He. apply pk_taken in He. unfold insert_pk. simpl.
    fold eid. rewrite He. reflexivity.
  - intros He Hv. rewrite insert_pk_free by exact He. simpl.
    apply pk_taken in Hv. unfold insert_pk. simpl. fold vid. rewrite Hv.
    reflexivity.
Qed.

Lemma create_evidence_outcomes_witness :
  create_evidence (Some "Bearer tokF")
    (mk_EvidenceCreate "Safety Test Report" "Test Report"
                       (Some "2025-12-31") (Some "Annual compliance"))
    20 "0007" "0004" 21 22 23 sample_db
  = (Raise (IntegrityError "UNIQUE constraint failed: evidence_versions.id"),
     sample_db).
Proof.
  apply (create_evidence_outcomes (Some "Bearer tokF") _ 20 "0007" "0004"
           21 22 23 sample_db (mk_User "f1" "factory" (Some "F001"))
           "F001" eq_refl eq_refl).
  - reflexivity.
  - discriminate.
Defined.

(** X13.  For an authenticated factory, [add_evidence_version] answers 404
    "Evidence not found" when no evidence has the id, before it looks at
    ownership; for evidence of its own it appends one version with the next
    number and answers the evidence id it was given together with the new
    version id, unless the generated version id is taken: then nothing is
    stored. *)
Theorem add_evidence_version_outcomes (a : option string) (eid : string)
    (version : VersionCreate) (t0 : Z) (hv : string) (t1 t2 : Z) (db : DB)
    (user : User) :
  require_role FACTORY a t0 db = (Ok user, db) ->
  let vid := generate_id "V" hv in
  (evidence_rows eid db = [] ->
   add_evidence_version a eid version t0 hv t1 t2 db
   = (Raise (HTTP 404 "Evidence not found"), db)) /\
  (forall row,
     fetchone (evidence_rows eid db) = Some row ->
     factory_differs (e_factory_id row) user = false ->
     (pk_free v_id vid (evidence_versions db) ->
      add_evidence_version a eid version t0 hv t1 t2 db
      = (Ok (mk_EvidenceResponse eid vid),
         mk_db (audit_log db ++ [add_version_audit db eid user vid t2])
               (evidence db)
               (evidence_versions db ++
                  [mk_version vid eid (next_version_number eid db)
                              (vc_expiry version) (vc_notes version) t1])
               (requests db) (request_items db) (auth_tokens db))) /\
     (~ pk_free v_id vid (evidence_versions db) ->
      add_evidence_version a eid version t0 hv t1 t2 db
      = (Raise (IntegrityError
                  "UNIQUE constraint failed: evidence_versions.id"), db))).
Proof.
  intros Hrole vid.
  rewrite add_evidence_version_cases, Hrole.
  unfold add_evidence_version_tx, add_version_audit, next_version_number.
  unfold insert_version, log_audit. tx_unfold.
  split.
  - intros ->. reflexivity.
  - intros row -> ->. split.
    + intros Hv. rewrite insert_pk_free by exact Hv. reflexivity.
    + intros Hv. apply pk_taken in Hv. unfold insert_pk. simpl. fold vid.
      rewrite Hv. reflexivity.
Qed.

Lemma add_evidence_version_outcomes_witness :
  add_evidence_version (Some "Bearer tokF") "E9999"
    (mk_VersionCreate (Some "Updated certificate") (Some "2026-06-30"))
    20 "0007" 21 22 sample_db
  = (Raise (HTTP 404 "Evidence not found"), sample_db) /\
  fst (add_evidence_version (Some "Bearer tokF") "E0003"
         (mk_VersionCreate (Some "Updated certificate") (Some "2026-06-30"))
         20 "0007" 21 22 sample_db)
  = Ok (mk_EvidenceResponse "E0003" "V0007").
Proof.
  pose proof (add_evidence_version_outcomes (Some "Bearer tokF")) as H.
  split.
  - apply (H "E9999" _ 20 "0007" 21 22 sample_db
             (mk_User "f1" "factory" (Some "F001")) eq_refl).
    reflexivity.
  - destruct (H "E0003"
                (mk_VersionCreate (Some "Updated certificate")
                                  (Some "2026-06-30"))
                20 "0007" 21 22 sample_db
                (mk_User "f1" "factory" (Some "F001")) eq_refl)
      as [_ Hown].
    destruct (Hown (mk_evidence "E0003" "F001" "Safety" "Test Report" 10)
                   eq_refl eq_refl) as [Hok _].
    rewrite Hok; reflexivity.
Defined.

(** ** Generated ids *)

Lemma startswith_generate_id (prefix hex : string) :
  startswith prefix (generate_id prefix hex) = true.
Proof.
  unfold startswith, generate_id.
  induction prefix as [|c p IH]; simpl.
  - destruct hex; reflexivity.
  - destruct (ascii_dec c c); [exact IH|congruence].
Qed.

Lemma new_item_rows_prefixed rid items hex : forall k,
  Forall (fun id => startswith "I" id = true)
         (map i_id (new_item_rows rid items hex k)).
Proof.
  induction items as [|item rest IH]; intros k; simpl; constructor.
  - apply startswith_generate_id.
  - apply IH.
Qed.

(** X14.  The ids an endpoint answers carry the prefix of their kind:
    [create_evidence] answers an evidence id that starts with "E" and a
    version id that starts with "V", [add_evidence_version] a version id
    that starts with "V", [create_request] a request id that starts with
    "R" and item ids that start with "I".  Ids of different kinds are
    therefore never equal. *)
Theorem answered_ids_are_prefixed :
  (forall a ev t0 he hv t1 t2 t3 db resp db',
     create_evidence a ev t0 he hv t1 t2 t3 db = (Ok resp, db') ->
     startswith "E" (er_evidenceId resp) = true /\
     startswith "V" (er_versionId resp) = true /\
     er_evidenceId resp <> er_versionId resp) /\
  (forall a eid version t0 hv t1 t2 db resp db',
     add_evidence_version a eid version t0 hv t1 t2 db = (Ok resp, db') ->
     er_evidenceId resp = eid /\
     startswith "V" (er_versionId resp) = true) /\
  (forall a request t0 hr t1 hex t2 db resp db',
     create_request a request t0 hr t1 hex t2 db = (Ok resp, db') ->
     startswith "R" (rcd_requestId resp) = true /\
     Forall (fun id => startswith "I" id = true) (rcd_itemIds resp) /\
     ~ In (rcd_requestId resp) (rcd_itemIds resp)).
Proof.
  refine (conj _ (conj _ _)).
  - intros a ev t0 he hv t1 t2 t3 db resp db'.
    rewrite create_evidence_cases.
    destruct (require_role FACTORY a t0 db) as [[user|e] d0];
      [|discriminate].
    destruct (create_evidence_tx _ _ _ _ _ _ _ db) as [[u|e] d];
      [|discriminate].
    intros H; inversion H; subst. simpl.
    repeat split; try apply startswith_generate_id. discriminate.
  - intros a eid version t0 hv t1 t2 db resp db'.
    rewrite add_evidence_version_cases.
    destruct (require_role FACTORY a t0 db) as [[user|e] d0];
      [|discriminate].
    destruct (add_evidence_version_tx _ _ _ _ _ _ db) as [[vid|e] d] eqn:Htx;
      [|discriminate].
    apply add_evidence_version_tx_ok in Htx.
    destruct Htx as (row & _ & _ & _ & -> & _).
    intros H; inversion H; subst. simpl.
    split; [reflexivity|apply startswith_generate_id].
  - intros a request t0 hr t1 hex t2 db resp db'.
    rewrite create_request_cases.
    destruct (require_role BUYER a t0 db) as [[user|e] d0]; [|discriminate].
    destruct (create_request_tx _ _ _ _ _ _ db) as [[ids|e] d] eqn:Htx;
      [|discriminate].
    apply create_request_tx_ok in Htx. cbv zeta in Htx.
    destruct Htx as (_ & -> & _ & _ & _).
    intros H; inversion H; subst. simpl.
    pose proof (new_item_rows_prefixed (generate_id "R" hr)
                  (rc_items request) hex 0) as Hall.
    split; [apply startswith_generate_id|]. split; [exact Hall|].
    intros Hin. rewrite Forall_forall in Hall. apply Hall in Hin.
    discriminate Hin.
Qed.

Lemma answered_ids_are_prefixed_witness :
  startswith "E" "E0007" = true /\ startswith "V" "V0008" = true /\
  "E0007" <> "V0008".
Proof.
  apply (proj1 answered_ids_are_prefixed (Some "Bearer tokF")
           (mk_EvidenceCreate "ISO" "Certificate" None None)
           20 "0007" "0008" 21 22 23 sample_db
           (mk_EvidenceResponse "E0007" "V0008")
           (snd (create_evidence (Some "Bearer tokF")
                   (mk_EvidenceCreate "ISO" "Certificate" None None)
                   20 "0007" "0008" 21 22 23 sample_db))).
  reflexivity.
Defined.

(** ** [ORDER BY ... DESC] and the two listings *)

Lemma insert_desc_perm {A} (key : A -> Z) (x : A) (l : list A) :
  Permutation (insert_desc key x l) (x :: l).
Proof.
  induction l as [|y l IH]; simpl; [apply Permutation_refl|].
  destruct (key y <=? key x); [apply Permutation_refl|].
  eapply Permutation_trans; [apply perm_skip; exact IH|apply perm_swap].
Qed.

Lemma order_by_desc_perm {A} (key : A -> Z) (l : list A) :
  Permutation (order_by_desc key l) l.
Proof.
  unfold order_by_desc. induction l as [|x l IH]; simpl; [constructor|].
  eapply Permutation_trans; [apply insert_desc_perm|].
  apply perm_skip. exact IH.
Qed.

Lemma insert_desc_sorted {A} (key : A -> Z) (x : A) (l : list A) :
  StronglySorted (desc key) l ->
  StronglySorted (desc key) (insert_desc key x l).
Proof.
  induction l as [|y l IH]; simpl; intros Hs.
  - repeat constructor.
  - inversion Hs as [|? ? Hl Hall]; subst.
    destruct (key y <=? key x) eqn:E.
    + apply Z.leb_le in E. constructor; [exact Hs|].
      constructor; [exact E|].
      rewrite Forall_forall in *. intros z Hz. unfold desc in *.
      specialize (Hall z Hz). lia.
    + apply Z.leb_gt in E. constructor; [apply IH; exact Hl|].
      rewrite Forall_forall in *. intros z Hz.
      apply in_insert_desc in Hz. destruct Hz as [->|Hz].
      * unfold desc. lia.
      * apply Hall. exact Hz.
Qed.

Lemma order_by_desc_sorted {A} (key : A -> Z) (l : list A) :
  StronglySorted (desc key) (order_by_desc key l).
Proof.
  unfold order_by_desc. induction l as [|x l IH]; simpl; [constructor|].
  apply insert_desc_sorted. exact IH.
Qed.

Lemma sorted_map {A B} (f : A -> B) (key : B -> Z) (l : list A) :
  StronglySorted (desc (fun a => key (f a))) l ->
  StronglySorted (desc key) (map f l).
Proof.
  induction 1 as [|x l Hl IH Hall]; simpl; constructor; [exact IH|].
  rewrite Forall_forall in *. intros y Hy. apply in_map_iff in Hy.
  destruct Hy as (z & <- & Hz). apply (Hall z Hz).
Qed.

Lemma sorted_app_above {A} (key : A -> Z) (l1 l2 : list A) :
  StronglySorted (desc key) (l1 ++ l2) ->
  StronglySorted (desc key) l1 /\
  forall x y, In x l1 -> In y l2 -> key y <= key x.
Proof.
  induction l1 as [|z l1 IH]; simpl; intros Hs.
  - split; [constructor|]. intros x y [].
  - inversion Hs as [|? ? Hl Hall]; subst.
    destruct (IH Hl) as [Hs1 Habove]. split.
    + constructor; [exact Hs1|].
      rewrite Forall_forall in *. intros y Hy. apply Hall.
      apply in_or_app. auto.
    + intros x y [<-|Hx] Hy.
      * rewrite Forall_forall in Hall. apply (Hall y). apply in_or_app. auto.
      * apply Habove; assumption.
Qed.

(** X15.  [get_factory_requests] answers every request addressed to the
    caller's factory exactly once (the answer is a rearrangement of those
    rows), newest first by creation instant, each with all the items of
    that request as they now are; it reads only. *)
Theorem factory_listing_is_complete_and_sorted (a : option string) (t0 : Z)
    (db : DB) (views : list RequestView) (db' : DB) :
  get_factory_requests a t0 db = (Ok views, db') ->
  exists user,
    require_role FACTORY a t0 db = (Ok user, db) /\
    db' = db /\
    Permutation views
      (map (request_view db) (requests_for (factoryId user) db)) /\
    StronglySorted (desc rv_createdAt) views /\
    (forall r, In r (requests db) ->
               Some (r_factory_id r) = factoryId user ->
               In (request_view db r) views).
Proof.
  intros H.
  pose proof (get_factory_requests_reads a t0 db) as Hs.
  rewrite H in Hs. simpl in Hs. subst db'.
  unfold get_factory_requests in H. unfold bind at 1 in H.
  destruct (require_role FACTORY a t0 db) as [[user|e] d0] eqn:Hrole;
    [|discriminate].
  pose proof (require_role_ok _ _ _ _ _ _ Hrole) as (_ & _ & ->).
  tx_unfold. inversion H; subst. clear H.
  exists user.
  change (fun row => mk_RequestView (r_id row) (r_buyer_id row)
                       (r_factory_id row) (r_title row) (r_status row)
                       (r_created_at row) (items_of (r_id row) db))
    with (request_view db).
  assert (Hperm : Permutation
            (map (request_view db)
                 (order_by_desc r_created_at
                                (requests_for (factoryId user) db)))
            (map (request_view db) (requests_for (factoryId user) db)))
    by (apply Permutation_map, order_by_desc_perm).
  refine (conj eq_refl (conj eq_refl (conj Hperm (conj _ _)))).
  - apply sorted_map. apply (order_by_desc_sorted r_created_at).
  - intros r Hin Hfac.
    apply (Permutation_in _ (Permutation_sym Hperm)).
    apply in_map. unfold requests_for. apply filter_In. split; [exact Hin|].
    rewrite <- Hfac. apply String.eqb_refl.
Qed.

Lemma factory_listing_is_complete_and_sorted_witness :
  exists user,
    require_role FACTORY (Some "Bearer tokF") 20 sample_db
    = (Ok user, sample_db) /\
    sample_db = sample_db /\
    Permutation
      [request_view sample_db
         (mk_request "R0001" "buyer1" "F001" "Q1" "pending" 7)]
      (map (request_view sample_db)
           (requests_for (factoryId user) sample_db)) /\
    StronglySorted (desc rv_createdAt)
      [request_view sample_db
         (mk_request "R0001" "buyer1" "F001" "Q1" "pending" 7)] /\
    (forall r, In r (requests sample_db) ->
               Some (r_factory_id r) = factoryId user ->
               In (request_view sample_db r)
                  [request_view sample_db
                     (mk_request "R0001" "buyer1" "F001" "Q1" "pending" 7)]).
Proof.
  apply (factory_listing_is_complete_and_sorted (Some "Bearer tokF") 20
           sample_db). reflexivity.
Defined.

(** X16.  [get_audit_log] is open to every authenticated identity, buyer or
    factory, and reads only.  A limit that is not a signed 64-bit integer
    cannot be bound to the statement: the call ends in [OverflowError].  For
    every other limit the call succeeds; its answer is ordered newest first
    by timestamp; with a limit of zero or more it holds the [limit] most
    recent records (all of them if there are fewer): no record left out is
    more recent than a record answered; with a negative limit it holds the
    whole log. *)
Theorem audit_listing_is_the_most_recent (a : option string) (limit : Z)
    (t0 : Z) (db : DB) :
  (forall user,
     get_current_user a t0 db = (Ok user, db) ->
     fits_sqlite_integer limit = true ->
     exists entries, get_audit_log a limit t0 db = (Ok entries, db)) /\
  (forall user,
     get_current_user a t0 db = (Ok user, db) ->
     fits_sqlite_integer limit = false ->
     get_audit_log a limit t0 db
     = (Raise (OverflowError
                 "Python int too large to convert to SQLite INTEGER"), db))
  /\
  (forall entries db',
     get_audit_log a limit t0 db = (Ok entries, db') ->
     db' = db /\
     fits_sqlite_integer limit = true /\
     StronglySorted (desc a_timestamp) entries /\
     List.length entries
     = (if limit <? 0 then List.length (audit_log db)
        else Nat.min (Z.to_nat limit) (List.length (audit_log db))) /\
     exists rest,
       Permutation (entries ++ rest) (audit_log db) /\
       (limit < 0 -> rest = []) /\
       forall e e', In e entries -> In e' rest ->
                    a_timestamp e' <= a_timestamp e).
Proof.
  refine (conj _ (conj _ _)).
  - intros user H Hfit. unfold get_audit_log. unfold bind at 1. rewrite H.
    rewrite Hfit. tx_unfold. eauto.
  - intros user H Hfit. unfold get_audit_log. unfold bind at 1. rewrite H.
    rewrite Hfit. reflexivity.
  - intros entries db' H.
    pose proof (get_audit_log_reads a limit t0 db) as Hs.
    rewrite H in Hs. simpl in Hs. subst db'.
    unfold get_audit_log in H. unfold bind at 1 in H.
    destruct (get_current_user a t0 db) as [[user|e] d0]; [|discriminate].
    destruct (fits_sqlite_integer limit) eqn:Hfit; [|discriminate].
    tx_unfold. inversion H; subst. clear H.
    set (sorted := order_by_desc a_timestamp (audit_log db)).
    assert (Hsorted : StronglySorted (desc a_timestamp) sorted)
      by apply order_by_desc_sorted.
    assert (Hperm : Permutation sorted (audit_log db))
      by apply order_by_desc_perm.
    split; [reflexivity|]. split; [reflexivity|]. unfold sql_limit.
    destruct (limit <? 0) eqn:Hneg.
    + split; [exact Hsorted|]. split.
      * apply Permutation_length. exact Hperm.
      * exists []. rewrite app_nil_r. split; [exact Hperm|].
        split; [reflexivity|]. intros e e' _ [].
    + rewrite <- (firstn_skipn (Z.to_nat limit) sorted) in Hsorted, Hperm.
      apply sorted_app_above in Hsorted. destruct Hsorted as [Hs1 Habove].
      split; [exact Hs1|]. split.
      * rewrite length_firstn. f_equal. subst sorted.
        apply Permutation_length. apply order_by_desc_perm.
      * exists (skipn (Z.to_nat limit) sorted). split; [exact Hperm|].
        split; [|exact Habove].
        apply Z.ltb_ge in Hneg. lia.
Qed.

Lemma audit_listing_is_the_most_recent_witness :
  let out := get_audit_log (Some "Bearer tokB") 2 20 sample_db in
  (exists entries, out = (Ok entries, sample_db)) /\
  get_audit_log (Some "Bearer tokF") (2 ^ 63) 20 sample_db
  = (Raise (OverflowError
              "Python int too large to convert to SQLite INTEGER"),
     sample_db) /\
  (exists entries,
     fst out = Ok entries /\ List.length entries = 2%nat /\
     StronglySorted (desc a_timestamp) entries).
Proof.
  intros out. refine (conj _ (conj _ _)).
  - apply (proj1 (audit_listing_is_the_most_recent (Some "Bearer tokB") 2 20
                    sample_db) (mk_User "buyer1" "buyer" None));
      reflexivity.
  - apply (proj1 (proj2 (audit_listing_is_the_most_recent
                           (Some "Bearer tokF") (2 ^ 63) 20 sample_db))
             (mk_User "f1" "factory" (Some "F001")));
      reflexivity.
  - eexists. split; [reflexivity|].
    destruct (proj2 (proj2 (audit_listing_is_the_most_recent
                              (Some "Bearer tokB") 2 20 sample_db))
                _ _ eq_refl)
      as (_ & _ & Hsorted & Hlen & _).
    split; [exact Hlen|exact Hsorted].
Defined.

(** ** Further invariants of the reachable states *)

(** X17.  In every state the service can reach no two rows of a table have
    the same primary key: evidence ids, version ids, request ids, item ids
    and tokens each identify one row. *)
Theorem primary_keys_are_unique (db : DB) :
  reachable db -> keys_unique db.
Proof.
  apply reachable_invariant.
  - repeat split; apply NoDup_nil.
  - intros. eapply effect_keeps_keys_unique; eauto.
Qed.

Lemma primary_keys_are_unique_witness : keys_unique fulfilled_db.
Proof.
  apply primary_keys_are_unique.
  exists (sample_ops ++
          [ FulfillItem (Some "Bearer tokF") "R0001" "I0002"
              (mk_FulfillRequest "E0003" "V0004") 20 21 22;
            AddVersion (Some "Bearer tokF") "E0003"
              (mk_VersionCreate (Some "renewed") None) 23 "000A" 24 25 ]).
  reflexivity.
Defined.

Lemma effect_audit db o db' :
  effect db o db' ->
  exists rec, audit_log db' = audit_log db ++ [rec] /\
              a_id rec = next_audit_id (audit_log db).
Proof.
  intros He. inversion He; subst; simpl; eexists; split; reflexivity.
Qed.

Lemma next_audit_id_consecutive (db : DB) :
  audit_ids_consecutive db ->
  next_audit_id (audit_log db) = Z.of_nat (List.length (audit_log db)) + 1.
Proof.
  unfold audit_ids_consecutive, next_audit_id. intros ->.
  pose proof (sql_max_seq (List.length (audit_log db))) as H.
  destruct (sql_max _); lia.
Qed.

(** X18.  In every state the service can reach the ids of the audit records
    are 1, 2, ..., n in the order in which the records were written: no id
    is used twice and none is skipped, also after calls that failed and
    were rolled back. *)
Theorem audit_ids_are_consecutive (db : DB) :
  reachable db -> audit_ids_consecutive db.
Proof.
  apply reachable_invariant.
  - reflexivity.
  - intros d o d' Hinv He.
    destruct (effect_audit d o d' He) as (rec & Hlog & Hid).
    pose proof (next_audit_id_consecutive d Hinv) as Hnext.
    unfold audit_ids_consecutive in *. rewrite Hlog.
    rewrite last_length, seq_S, !map_app, Hinv. simpl.
    rewrite Hid, Hnext. do 2 f_equal. lia.
Qed.

Lemma audit_ids_are_consecutive_witness :
  audit_ids_consecutive
    (run (sample_ops ++
          [CreateEvidence (Some "Bearer tokF")
             (mk_EvidenceCreate "Clash" "Report" None None)
             20 "0003" "0009" 21 22 23;
           Login (mk_LoginRequest "buyer2" BUYER None) "tokC" 30 31 32])
         init_db).
Proof.
  apply audit_ids_are_consecutive. eexists. reflexivity.
Defined.

Lemma run_invariant_exec (P : DB -> Prop) :
  (forall db o, P db -> P (exec o db)) ->
  forall ops db, P db -> P (run ops db).
Proof.
  intros Hstep ops. unfold run.
  induction ops as [|o ops IH]; intros db HP; simpl; [exact HP|].
  apply IH. apply Hstep. exact HP.
Qed.

Lemma login_ok_pairing request token t1 t2 t3 db resp db' :
  login request token t1 t2 t3 db = (Ok resp, db') ->
  truthy (lr_factoryId request) = is_factory (lr_role request).
Proof.
  unfold login.
  destruct (lr_role request), (truthy (lr_factoryId request)); simpl;
    try discriminate; reflexivity.
Qed.

Lemma require_role_session r a t0 db user :
  require_role r a t0 db = (Ok user, db) ->
  exists t, In t (auth_tokens db) /\ t_role t = Role_value r /\
            t_factory_id t = factoryId user.
Proof.
  intros H. apply require_role_ok in H. destruct H as (Hget & Hrole & _).
  apply get_current_user_ok in Hget.
  destruct Hget as (header & row & _ & Hrow & _ & ->).
  apply fetchone_in in Hrow. apply filter_In in Hrow.
  exists row. simpl in *. tauto.
Qed.

Lemma evidence_owned_mono db db' e :
  extends (auth_tokens db) (auth_tokens db') ->
  evidence_owned db e -> evidence_owned db' e.
Proof.
  intros Hext (Hne & t & Hin & Hr & Hf). split; [exact Hne|].
  exists t. split; [eapply extends_in; eauto|auto].
Qed.

Lemma exec_keeps_sessions_inv db o :
  sessions_inv db -> sessions_inv (exec o db).
Proof.
  intros [Htok Hev].
  assert (Hframe : forall db',
            effect db o db' ->
            auth_tokens db' = auth_tokens db ->
            (forall e, In e (evidence db') ->
                       In e (evidence db) \/ evidence_owned db' e) ->
            sessions_inv db').
  { intros db' He Ht Hnew. split.
    - rewrite Ht. exact Htok.
    - intros e Hin. destruct (Hnew e Hin) as [Hold|Hown]; [|exact Hown].
      apply (evidence_owned_mono db); [rewrite Ht; apply extends_refl|].
      apply Hev. exact Hold. }
  destruct o; simpl.
  - (* Login *)
    destruct (login request token t_issue t_created t_audit db)
      as [[resp|e] db'] eqn:H; simpl.
    + pose proof (login_ok_pairing _ _ _ _ _ _ _ _ H) as Hpair.
      apply login_ok in H. destruct H as (_ & _ & ->). split; simpl.
      * intros t Hin. apply in_app_or in Hin.
        destruct Hin as [Hin|[<-|[]]]; [apply Htok; exact Hin|].
        unfold session_well_formed, login_token_row. simpl.
        rewrite Hpair. destruct (lr_role request); simpl; auto.
      * intros e Hin. apply (evidence_owned_mono db);
          [simpl; apply extends_app|]. apply Hev. exact Hin.
    + apply login_raise in H. subst. split; assumption.
  - (* CreateEvidence *)
    destruct (exec_effect (CreateEvidence authorization ev t_auth hex_e
                             hex_v t_evidence t_version t_audit) db)
      as [Heq|He];
      [simpl in Heq; rewrite Heq; split; assumption | simpl in He].
    remember (snd (create_evidence _ _ _ _ _ _ _ _ db)) as db'.
    clear Heqdb'. inversion He; subst.
    apply (Hframe _ He eq_refl). simpl. intros e Hin.
    apply in_app_or in Hin. destruct Hin as [Hin|[<-|[]]]; [auto|].
    right.
    match goal with Hr : require_role FACTORY _ _ _ = _ |- _ =>
      apply require_role_session in Hr;
      destruct Hr as (t & Hin & Hrole & Hfac) end.
    match goal with Hf : factoryId _ = Some _ |- _ =>
      rewrite Hf in Hfac end.
    split; simpl.
    * specialize (Htok t Hin).
      destruct Htok as [[_ Htr]|[Hb _]]; [|simpl in Hrole; congruence].
      rewrite Hfac in Htr. simpl in Htr. apply negb_true_iff in Htr.
      apply String.eqb_neq. exact Htr.
    * exists t. auto.
  - (* AddVersion *)
    destruct (exec_effect (AddVersion authorization evidence_id version
                             t_auth hex_v t_version t_audit) db)
      as [Heq|He];
      [simpl in Heq; rewrite Heq; split; assumption | simpl in He].
    remember (snd (add_evidence_version _ _ _ _ _ _ _ db)) as db'.
    clear Heqdb'. inversion He; subst.
    apply (Hframe _ He eq_refl). simpl. auto.
  - (* CreateRequest *)
    destruct (exec_effect (CreateRequest authorization request t_auth hex_r
                             t_request hex_items t_audit) db)
      as [Heq|He];
      [simpl in Heq; rewrite Heq; split; assumption | simpl in He].
    remember (snd (create_request _ _ _ _ _ _ _ db)) as db'.
    clear Heqdb'. inversion He; subst.
    apply (Hframe _ He eq_refl). simpl. auto.
  - rewrite get_factory_requests_reads. split; assumption.
  - (* FulfillItem *)
    destruct (exec_effect (FulfillItem authorization request_id item_id
                             fulfill t_auth t_fulfilled t_audit) db)
      as [Heq|He];
      [simpl in Heq; rewrite Heq; split; assumption | simpl in He].
    remember (snd (fulfill_request_item _ _ _ _ _ _ _ db)) as db'.
    clear Heqdb'. inversion He; subst.
    destruct (fixed_fulfill_updates request_id item_id fulfill t_fulfilled
                db) as (E1 & _ & E3 & _ & _).
    apply (Hframe _ He); simpl; [exact E3|].
    rewrite E1. auto.
  - rewrite get_audit_log_reads. split; assumption.
  - split; assumption.
Qed.

(** X19.  In every state the service can reach, every session is either a
    factory session with a non-empty factory id or a buyer session without
    one (no id or the empty string), and every evidence row has a non-empty
    factory id, that of a factory session on record. *)
Theorem sessions_and_owners_are_well_formed (db : DB) :
  reachable db -> sessions_inv db.
Proof.
  intros [ops ->]. apply run_invariant_exec.
  - intros d o. apply exec_keeps_sessions_inv.
  - split; intros ? [].
Qed.

Lemma sessions_and_owners_are_well_formed_witness : sessions_inv sample_db.
Proof.
  apply sessions_and_owners_are_well_formed. exists sample_ops. reflexivity.
Defined.

Lemma request_persists (l l' : list request_row) (rq : request_row) :
  extends (map request_fixed l) (map request_fixed l') ->
  In rq l ->
  exists rq', In rq' l' /\ r_id rq' = r_id rq /\
              r_factory_id rq' = r_factory_id rq.
Proof.
  intros Hext Hin.
  assert (H : In (request_fixed rq) (map request_fixed l'))
    by (eapply extends_in; [exact Hext|apply in_map; exact Hin]).
  apply in_map_iff in H. destruct H as (rq' & Heq & Hin').
  exists rq'. unfold request_fixed in Heq. inversion Heq. auto.
Qed.

Lemma item_consistent_mono db db' it :
  extends (map request_fixed (requests db))
          (map request_fixed (requests db')) ->
  extends (evidence db) (evidence db') ->
  extends (evidence_versions db) (evidence_versions db') ->
  item_consistent db it -> item_consistent db' it.
Proof.
  intros Hr He Hv [Hp|(Hst & eid & vid & t & rq & ev & v & H)];
    [left; exact Hp|right].
  destruct H as (H1 & H2 & H3 & Hrq & Hrid & Hev & Heid & Hfac & Hvin
                 & Hvid & Hve).
  destruct (request_persists _ _ rq Hr Hrq) as (rq' & Hin' & Hid' & Hfac').
  split; [exact Hst|].
  exists eid, vid, t, rq', ev, v.
  repeat split; try assumption; try congruence;
    eapply extends_in; eauto.
Qed.

Lemma factory_differs_same (x y : string) (user : User) :
  factory_differs x user = false -> factory_differs y user = false -> x = y.
Proof.
  unfold factory_differs. destruct (factoryId user) as [f|]; [|discriminate].
  rewrite !negb_false_iff, !String.eqb_eq. congruence.
Qed.

Lemma new_item_rows_blank rid items hex : forall k r,
  In r (new_item_rows rid items hex k) ->
  i_status r = "pending" /\ i_evidence_id r = None /\
  i_version_id r = None /\ i_fulfilled_at r = None.
Proof.
  induction items as [|item rest IH]; intros k r; simpl; [tauto|].
  intros [<-|Hin]; [auto|]. eapply IH; eauto.
Qed.

Lemma effect_keeps_items_consistent db o db' :
  requests_inv db -> items_consistent db -> effect db o db' ->
  items_consistent db'.
Proof.
  intros [[Hnd _] _] Hcons He.
  destruct (effect_tables db o db' He) as (_ & Hev & Hver & _ & Hreq & _).
  assert (Hold : forall it, In it (request_items db) ->
                            item_consistent db' it)
    by (intros it Hin; eapply item_consistent_mono; eauto).
  inversion He; subst; try exact Hold.
  - intros it Hin. simpl in Hin. apply in_app_or in Hin.
    destruct Hin as [Hin|Hin]; [apply Hold; exact Hin|].
    left. eapply new_item_rows_blank; eauto.
  - intros it' Hin.
    change (In it' (request_items (fulfill_updates rid iid f t1 db))) in Hin.
    rewrite request_items_fulfill_updates in Hin.
    apply in_map_iff in Hin. destruct Hin as (it0 & <- & Hin0).
    destruct (String.eqb (i_id it0) iid) eqn:E; [|apply Hold; exact Hin0].
    apply String.eqb_eq in E.
    match goal with Hc : fulfill_check _ _ _ _ _ _ |- _ =>
      inversion Hc; subst end.
    repeat match goal with
    | Hf : fetchone (filter _ _) = Some _ |- _ =>
        apply fetchone_in in Hf; apply filter_In in Hf
    | Hf : fetchone (request_rows _ _) = Some _ |- _ =>
        apply fetchone_in in Hf; apply filter_In in Hf
    | Hf : fetchone (item_rows _ _ _) = Some _ |- _ =>
        apply fetchone_in in Hf; apply filter_In in Hf
    | Hf : fetchone (evidence_rows _ _) = Some _ |- _ =>
        apply fetchone_in in Hf; apply filter_In in Hf
    | Hf : fetchone (version_rows _ _ _) = Some _ |- _ =>
        apply fetchone_in in Hf; apply filter_In in Hf
    | Hf : _ /\ _ |- _ => destruct Hf
    | Hf : (_ && _) = true |- _ => apply andb_true_iff in Hf
    | Hf : String.eqb _ _ = true |- _ => apply String.eqb_eq in Hf
    end.
    assert (it0 = it) by (eapply nodup_key_eq; eauto; congruence).
    subst it0.
    destruct (request_persists _ _ rq Hreq ltac:(assumption))
      as (rq' & Hin' & Hid' & Hfac').
    right. split; [reflexivity|].
    exists (fr_evidenceId f), (fr_versionId f), t1, rq', ev, v.
    simpl. repeat split; try congruence.
    + exact Hin'.
    + eapply extends_in; eauto.
    + rewrite Hfac'. eapply factory_differs_same; eauto.
    + eapply extends_in; eauto.
Qed.

(** X20.  In every state the service can reach, an item is either pending
    with no evidence id, version id or fulfilment instant, or fulfilled
    with all three, and then the evidence it names is on record, belongs to
    the factory its request is addressed to, and the version it names is a
    version of that evidence. *)
Theorem fulfilled_items_reference_own_evidence (db : DB) :
  reachable db -> items_consistent db.
Proof.
  intros Hreach.
  apply (reachable_invariant
           (fun d => requests_inv d /\ items_consistent d)); [| |exact Hreach].
  - split; [apply reachable_requests_inv; exists []; reflexivity|].
    intros ? [].
  - intros d o d' [Hinv Hcons] He. split.
    + eapply effect_keeps_requests_inv; eauto.
    + eapply effect_keeps_items_consistent; eauto.
Qed.

Lemma fulfilled_items_reference_own_evidence_witness :
  item_consistent fulfilled_db
    (mk_item "I0002" "R0001" "Test Report" "fulfilled"
             (Some "E0003") (Some "V0004") (Some 21)).
Proof.
  apply (fulfilled_items_reference_own_evidence fulfilled_db).
  - exists (sample_ops ++
            [ FulfillItem (Some "Bearer tokF") "R0001" "I0002"
                (mk_FulfillRequest "E0003" "V0004") 20 21 22;
              AddVersion (Some "Bearer tokF") "E0003"
                (mk_VersionCreate (Some "renewed") None) 23 "000A" 24 25 ]).
    reflexivity.
  - left. reflexivity.
Defined.

Lemma effect_keeps_evidence_versioned db o db' :
  evidence_versioned db -> effect db o db' -> evidence_versioned db'.
Proof.
  intros Hinv He.
  destruct (effect_tables db o db' He) as (_ & _ & Hver & _).
  assert (Hold : forall e, In e (evidence db) ->
            exists v, In v (evidence_versions db') /\
                      v_evidence_id v = e_id e /\ v_version_number v = 1).
  { intros e Hin. destruct (Hinv e Hin) as (v & Hv & Hid & Hn).
    exists v. split; [eapply extends_in; eauto|auto]. }
  inversion He; subst; try exact Hold.
  - intros e Hin. simpl in Hin. apply in_app_or in Hin.
    destruct Hin as [Hin|[<-|[]]]; [apply Hold; exact Hin|].
    eexists. split; [simpl; apply in_or_app; right; left; reflexivity|].
    split; reflexivity.
  - intros e Hin. apply Hold.
    destruct (fixed_fulfill_updates rid iid f t1 db) as (E1 & _).
    simpl in Hin. rewrite E1 in Hin. exact Hin.
Qed.

(** X21.  In every state the service can reach, every evidence row has its
    version number 1: no evidence exists without a version. *)
Theorem every_evidence_has_version_one (db : DB) :
  reachable db -> evidence_versioned db.
Proof.
  apply reachable_invariant.
  - intros ? [].
  - intros. eapply effect_keeps_evidence_versioned; eauto.
Qed.

Lemma every_evidence_has_version_one_witness : evidence_versioned sample_db.
Proof.
  apply every_evidence_has_version_one. exists sample_ops. reflexivity.
Defined.

(** ** What a fulfilment leaves alone *)




(** ** Who is recorded *)

Lemma app_snoc_self {A} (l : list A) (x : A) : l <> l ++ [x].
Proof.
  intros H. apply (f_equal (@List.length A)) in H.
  rewrite last_length in H. lia.
Qed.

Lemma require_role_token r a t0 db user :
  require_role r a t0 db = (Ok user, db) ->
  exists header session,
    a = Some header /\
    fetchone (token_rows (bearer_token header) db) = Some session /\
    userId user = t_user_id session /\ role user = t_role session.
Proof.
  intros H. apply require_role_ok in H. destruct H as (Hget & _ & _).
  apply get_current_user_ok in Hget.
  destruct Hget as (header & row & -> & Hrow & _ & ->).
  exists header, row. auto.
Qed.

(** X23.  Whenever a call appends an audit record, the record carries the
    clock reading of that call's [log_audit], and its actor is not taken
    from the body: for [login] it is the user id and role being logged in,
    for every other call it is the user id and role of the session that the
    bearer token of the call resolves to.  [get_factory_requests],
    [get_audit_log] and the root endpoint never append a record. *)
Theorem audit_actor_is_the_session (o : op) (db : DB) (rec : audit_row) :
  audit_log (exec o db) = audit_log db ++ [rec] ->
  op_audit_time o = Some (a_timestamp rec) /\
  match o with
  | Login request _ _ _ _ =>
      a_actor_user_id rec = lr_userId request /\
      a_actor_role rec = Role_value (lr_role request)
  | _ =>
      exists header session,
        op_header o = Some (Some header) /\
        fetchone (token_rows (bearer_token header) db) = Some session /\
        a_actor_user_id rec = t_user_id session /\
        a_actor_role rec = t_role session
  end.
Proof.
  intros Hlog.
  destruct (exec_effect o db) as [Heq|He].
  - rewrite Heq in Hlog. exfalso. eapply app_snoc_self; eauto.
  - remember (exec o db) as db' eqn:Hdb'. clear Hdb'.
    inversion He; subst; simpl in Hlog;
      try rewrite audit_log_fulfill_updates in Hlog;
      apply app_inv_head in Hlog; inversion Hlog; subst; simpl;
      (split; [reflexivity|]); try (split; reflexivity);
      match goal with Hr : require_role _ _ _ _ = _ |- _ =>
        apply require_role_token in Hr;
        destruct Hr as (header & session & -> & Hrow & Hu & Hr)
      end;
      exists header, session; auto.
Qed.

Lemma audit_actor_is_the_session_witness :
  let o := CreateRequest (Some "Bearer tokB")
             (mk_RequestCreate "F001" "Q3" []) 30 "0020" 31
             (fun _ => "0000") 32 in
  let rec := mk_audit 7 32 "buyer1" "buyer" "CREATE_REQUEST" "Request"
               "R0020"
               (JObj [("buyerId", JStr "buyer1"); ("factoryId", JStr "F001");
                      ("title", JStr "Q3"); ("itemCount", JNum 0);
                      ("items", JArr [])]) in
  op_audit_time o = Some (a_timestamp rec) /\
  exists header session,
    op_header o = Some (Some header) /\
    fetchone (token_rows (bearer_token header) sample_db) = Some session /\
    a_actor_user_id rec = t_user_id session /\
    a_actor_role rec = t_role session.
Proof.
  intros o rec.
  apply (audit_actor_is_the_session o sample_db rec). reflexivity.
Defined.

(** ** A whole exchange *)

Lemma login_accepts request token t1 t2 t3 db :
  truthy (lr_factoryId request) = is_factory (lr_role request) ->
  pk_free t_token token (auth_tokens db) ->
  login request token t1 t2 t3 db
  = (Ok (mk_LoginResponse token (lr_userId request)
                          (Role_value (lr_role request))
                          (lr_factoryId request)),
     mk_db (audit_log db ++ [login_audit db request t3])
           (evidence db) (evidence_versions db) (requests db)
           (request_items db)
           (auth_tokens db ++ [login_token_row request token t1 t2])).
Proof.
  intros Hpair Hfree. unfold login.
  replace (is_factory (lr_role request) &&
           negb (truthy (lr_factoryId request))) with false
    by (rewrite Hpair; destruct (lr_role request); reflexivity).
  replace (is_buyer (lr_role request) && truthy (lr_factoryId request))
    with false
    by (rewrite Hpair; destruct (lr_role request); reflexivity).
  unfold insert_token, log_audit. tx_unfold.
  rewrite insert_pk_free by exact Hfree. reflexivity.
Qed.

Lemma session_admits (r : Role) (token : string) (row : token_row)
    (now : Z) (db : DB) :
  fetchone (token_rows token db) = Some row ->
  no_space token = true ->
  now <= t_expires_at row ->
  t_role row = Role_value r ->
  require_role r (Some ("Bearer " ++ token)%string) now db
  = (Ok (mk_User (t_user_id row) (t_role row) (t_factory_id row)), db).
Proof.
  intros Hrow Hword Hnow Hrole.
  rewrite <- (bearer_token_plain token Hword) in Hrow at 1.
  apply require_role_intro; [|exact Hrole].
  rewrite (get_current_user_found db ("Bearer " ++ token)%string row now
             (startswith_bearer token) Hrow).
  apply Z.ltb_ge in Hnow. rewrite Hnow. reflexivity.
Qed.

Lemma create_request_accepts a request t0 hr t1 hex t2 db user :
  require_role BUYER a t0 db = (Ok user, db) ->
  pk_free r_id (generate_id "R" hr) (requests db) ->
  NoDup (map i_id (new_item_rows (generate_id "R" hr) (rc_items request)
                                 hex 0)) ->
  (forall id,
     In id (map i_id (new_item_rows (generate_id "R" hr) (rc_items request)
                                    hex 0)) ->
     pk_free i_id id (request_items db)) ->
  create_request a request t0 hr t1 hex t2 db
  = (Ok (mk_RequestCreated (generate_id "R" hr) "pending"
           (map i_id (new_item_rows (generate_id "R" hr) (rc_items request)
                                    hex 0))),
     mk_db (audit_log db ++
              [create_request_audit db request user (generate_id "R" hr) t2])
           (evidence db) (evidence_versions db)
           (requests db ++
              [mk_request (generate_id "R" hr) (userId user)
                          (rc_factoryId request) (rc_title request)
                          "pending" t1])
           (request_items db ++
              new_item_rows (generate_id "R" hr) (rc_items request) hex 0)
           (auth_tokens db)).
Proof.
  intros Hrole Hfree Hnd Hfi.
  rewrite create_request_cases, Hrole.
  unfold create_request_tx, insert_request, log_audit. tx_unfold.
  rewrite insert_pk_free by exact Hfree. simpl.
  rewrite insert_items_fresh by assumption. reflexivity.
Qed.

Lemma create_evidence_accepts a ev t0 he hv t1 t2 t3 db user fid :
  require_role FACTORY a t0 db = (Ok user, db) ->
  factoryId user = Some fid ->
  pk_free e_id (generate_id "E" he) (evidence db) ->
  pk_free v_id (generate_id "V" hv) (evidence_versions db) ->
  create_evidence a ev t0 he hv t1 t2 t3 db
  = (Ok (mk_EvidenceResponse (generate_id "E" he) (generate_id "V" hv)),
     mk_db (audit_log db ++
              [create_evidence_audit db ev user (generate_id "E" he)
                                     (generate_id "V" hv) t3])
           (evidence db ++
              [mk_evidence (generate_id "E" he) fid (ec_name ev)
                           (ec_docType ev) t1])
           (evidence_versions db ++
              [mk_version (generate_id "V" hv) (generate_id "E" he) 1
                          (ec_expiry ev) (ec_notes ev) t2])
           (requests db) (request_items db) (auth_tokens db)).
Proof.
  intros Hrole Hfid He Hv.
  rewrite create_evidence_cases, Hrole.
  unfold create_evidence_tx, create_evidence_audit. rewrite Hfid.
  unfold insert_evidence, insert_version, log_audit. tx_unfold.
  rewrite insert_pk_free by exact He. simpl.
  rewrite insert_pk_free by exact Hv. reflexivity.
Qed.

Lemma fulfill_accepts a rid iid f t0 t1 t2 db user rq it ev v :
  require_role FACTORY a t0 db = (Ok user, db) ->
  fetchone (request_rows rid db) = Some rq ->
  factory_differs (r_factory_id rq) user = false ->
  fetchone (item_rows iid rid db) = Some it ->
  fetchone (evidence_rows (fr_evidenceId f) db) = Some ev ->
  factory_differs (e_factory_id ev) user = false ->
  fetchone (version_rows (fr_versionId f) (fr_evidenceId f) db) = Some v ->
  fulfill_request_item a rid iid f t0 t1 t2 db
  = (Ok (mk_FulfillResponse true iid "fulfilled"),
     with_audit_log (fulfill_updates rid iid f t1 db)
       (audit_log db ++ [fulfill_audit db rid iid f user rq it t2])).
Proof.
  intros Hrole Hrq Hf1 Hit Hev Hf2 Hv.
  rewrite fulfill_cases, Hrole.
  destruct (fulfill_tx_cases rid iid f user t1 t2 db) as [c [Hc Heq]].
  rewrite Heq. clear Heq.
  inversion Hc; subst; try congruence.
  cbv zeta. rewrite audit_log_fulfill_updates.
  repeat match goal with
  | H1 : ?x = Some ?a, H2 : ?x = Some ?b |- _ =>
      assert (a = b) by congruence; subst; clear H2
  end.
  reflexivity.
Qed.

Lemma token_rows_snoc_hit token rows row audit ev vs rq it :
  pk_free t_token token rows -> t_token row = token ->
  fetchone (token_rows token (mk_db audit ev vs rq it (rows ++ [row])))
  = Some row.
Proof.
  intros Hfree Hid. unfold token_rows. simpl.
  rewrite filter_app, (pk_free_filter t_token token rows Hfree). simpl.
  rewrite Hid, String.eqb_refl. reflexivity.
Qed.

Lemma token_rows_snoc_miss token rows row x audit ev vs rq it :
  t_token row <> token ->
  fetchone (token_rows token (mk_db audit ev vs rq it rows)) = Some x ->
  fetchone (token_rows token (mk_db audit ev vs rq it (rows ++ [row])))
  = Some x.
Proof.
  intros _ H. unfold token_rows in *. simpl in *.
  apply fetchone_filter_app. exact H.
Qed.

Lemma pk_free_filter_and {R} (key : R -> string) (q : R -> bool)
    (k : string) (l : list R) :
  pk_free key k l -> filter (fun r => String.eqb (key r) k && q r) l = [].
Proof.
  intros H. apply filter_none. intros x Hx.
  pose proof (pk_free_filter key k l H) as Hnone.
  destruct (String.eqb (key x) k) eqn:E; [|reflexivity].
  exfalso. assert (Hin : In x (filter (fun r => String.eqb (key r) k) l))
    by (apply filter_In; auto).
  rewrite Hnone in Hin. destruct Hin.
Qed.

(** X24.  The calls compose into the exchange the service is for.  From any
    state the service can reach: a buyer logs in, a factory with a
    non-empty factory id logs in, the buyer requests one document from that
    factory, the factory records one evidence document -- of any document
    type, the type of the request is not compared -- and fulfils the item
    with its version 1.  If the generated tokens and ids are not taken and
    each call is made within 24 hours of the login it uses, every call
    succeeds: the item ends fulfilled with that evidence and version, the
    request ends completed, and the audit log has grown by LOGIN, LOGIN,
    CREATE_REQUEST, CREATE_EVIDENCE, FULFILL_ITEM in this order. *)
Theorem single_item_exchange_completes (db : DB)
    (ub uf F tb tf title hr hi he hv : string) (item : RequestItem)
    (ev : EvidenceCreate)
    (l1 l2 l3 m1 m2 m3 c0 c1 c2 e0 e1 e2 e3 f0 f1 f2 : Z) :
  reachable db ->
  F <> "" ->
  no_space tb = true -> no_space tf = true -> tb <> tf ->
  pk_free t_token tb (auth_tokens db) ->
  pk_free t_token tf (auth_tokens db) ->
  pk_free r_id (generate_id "R" hr) (requests db) ->
  pk_free i_id (generate_id "I" hi) (request_items db) ->
  pk_free e_id (generate_id "E" he) (evidence db) ->
  pk_free v_id (generate_id "V" hv) (evidence_versions db) ->
  c0 <= l1 + hours_24 -> e0 <= m1 + hours_24 -> f0 <= m1 + hours_24 ->
  let rid := generate_id "R" hr in
  let iid := generate_id "I" hi in
  let eid := generate_id "E" he in
  let vid := generate_id "V" hv in
  let buyer := Some ("Bearer " ++ tb)%string in
  let factory := Some ("Bearer " ++ tf)%string in
  let db' :=
    run [ Login (mk_LoginRequest ub BUYER None) tb l1 l2 l3;
          Login (mk_LoginRequest uf FACTORY (Some F)) tf m1 m2 m3;
          CreateRequest buyer (mk_RequestCreate F title [item]) c0 hr c1
                        (fun _ => hi) c2;
          CreateEvidence factory ev e0 he hv e1 e2 e3;
          FulfillItem factory rid iid (mk_FulfillRequest eid vid) f0 f1 f2 ]
        db in
  item_by_id iid db'
  = Some (mk_item iid rid (ri_docType item) "fulfilled" (Some eid) (Some vid)
                  (Some f1)) /\
  fetchone (request_rows rid db')
  = Some (mk_request rid ub F title "completed" c1) /\
  map a_action (audit_log db')
  = map a_action (audit_log db) ++
      ["LOGIN"; "LOGIN"; "CREATE_REQUEST"; "CREATE_EVIDENCE"; "FULFILL_ITEM"].
Proof.
  intros Hreach HF Hwb Hwf Hne Hfb Hff Hfr Hfi Hfe Hfv Hc0 He0 Hf0
         rid iid eid vid buyer factory db'.
  assert (Hitems0 : items_of rid db = []).
  { apply items_of_unknown_request; [|exact Hfr].
    apply reachable_requests_inv. exact Hreach. }
  subst db'. cbn [run fold_left exec].
  set (rowB := login_token_row (mk_LoginRequest ub BUYER None) tb l1 l2).
  set (rowF := login_token_row (mk_LoginRequest uf FACTORY (Some F)) tf m1
                               m2).
  set (rq := mk_request rid ub F title "pending" c1).
  set (it := mk_item iid rid (ri_docType item) "pending" None None None).
  set (evr := mk_evidence eid F (ec_name ev) (ec_docType ev) e1).
  set (vr := mk_version vid eid 1 (ec_expiry ev) (ec_notes ev) e2).
  assert (HtF : truthy (Some F) = true)
    by (simpl; apply negb_true_iff, String.eqb_neq; exact HF).
  (* the two logins *)
  rewrite (login_accepts (mk_LoginRequest ub BUYER None) tb l1 l2 l3 db
             eq_refl Hfb).
  cbn [snd]. fold rowB.
  set (A1 := audit_log db ++ [login_audit db _ l3]).
  assert (HA1 : map a_action A1 = map a_action (audit_log db) ++ ["LOGIN"])
    by (subst A1; rewrite map_app; reflexivity).
  clearbody A1.
  rewrite login_accepts;
    [|simpl lr_factoryId; rewrite HtF; reflexivity
     |simpl; apply pk_free_app; split; [exact Hff|];
      unfold pk_free; simpl; rewrite orb_false_r;
      apply String.eqb_neq; exact Hne].
  cbn [snd audit_log evidence evidence_versions requests request_items
       auth_tokens]. fold rowF.
  set (A2 := A1 ++ [login_audit _ _ m3]).
  assert (HA2 : map a_action A2
                = map a_action (audit_log db) ++ ["LOGIN"; "LOGIN"])
    by (subst A2; rewrite map_app, HA1, <- app_assoc; reflexivity).
  clearbody A2. clear HA1 A1.
  set (T := (auth_tokens db ++ [rowB]) ++ [rowF]).
  assert (HtokB : forall au e vs r i,
            fetchone (token_rows tb (mk_db au e vs r i T)) = Some rowB).
  { intros. subst T. apply token_rows_snoc_miss;
      [simpl; congruence|]. apply token_rows_snoc_hit; auto. }
  assert (HtokF : forall au e vs r i,
            fetchone (token_rows tf (mk_db au e vs r i T)) = Some rowF).
  { intros. subst T. apply token_rows_snoc_hit; [|reflexivity].
    apply pk_free_app. split; [exact Hff|].
    unfold pk_free. simpl. rewrite orb_false_r.
    apply String.eqb_neq. exact Hne. }
  clearbody T.
  (* the request *)
  rewrite (create_request_accepts buyer _ c0 hr c1 _ c2 _
             (mk_User ub "buyer" None));
    [|apply (session_admits BUYER tb rowB); auto
     |exact Hfr
     |simpl; repeat constructor; intros []
     |simpl; intros id [<-|[]]; exact Hfi].
  cbn [snd audit_log evidence evidence_versions requests request_items
       auth_tokens rc_items rc_factoryId rc_title userId new_item_rows].
  fold rid iid rq it.
  set (A3 := A2 ++ [create_request_audit _ _ _ rid c2]).
  assert (HA3 : map a_action A3
                = map a_action (audit_log db)
                  ++ ["LOGIN"; "LOGIN"; "CREATE_REQUEST"])
    by (subst A3; rewrite map_app, HA2, <- app_assoc; reflexivity).
  clearbody A3. clear HA2 A2.
  (* the evidence *)
  rewrite (create_evidence_accepts factory ev e0 he hv e1 e2 e3 _
             (mk_User uf "factory" (Some F)) F);
    [|apply (session_admits FACTORY tf rowF); auto
     |reflexivity|exact Hfe|exact Hfv].
  cbn [snd audit_log evidence evidence_versions requests request_items
       auth_tokens]. fold eid vid evr vr.
  set (A4 := A3 ++ [create_evidence_audit _ _ _ eid vid e3]).
  assert (HA4 : map a_action A4
                = map a_action (audit_log db)
                  ++ ["LOGIN"; "LOGIN"; "CREATE_REQUEST"; "CREATE_EVIDENCE"])
    by (subst A4; rewrite map_app, HA3, <- app_assoc; reflexivity).
  clearbody A4. clear HA3 A3.
  set (D4 := mk_db A4 (evidence db ++ [evr]) (evidence_versions db ++ [vr])
                   (requests db ++ [rq]) (request_items db ++ [it]) T).
  (* the fulfilment *)
  assert (Hrq4 : request_rows rid D4 = [rq]).
  { unfold request_rows. simpl. rewrite filter_app.
    rewrite (pk_free_filter r_id rid _ Hfr). simpl.
    rewrite String.eqb_refl. reflexivity. }
  assert (Hit4 : item_rows iid rid D4 = [it]).
  { unfold item_rows. simpl. rewrite filter_app.
    rewrite (pk_free_filter_and i_id _ iid _ Hfi). simpl.
    rewrite !String.eqb_refl. reflexivity. }
  assert (Hby4 : item_by_id iid D4 = Some it).
  { unfold item_by_id. simpl. rewrite filter_app.
    rewrite (pk_free_filter i_id iid _ Hfi). simpl.
    rewrite String.eqb_refl. reflexivity. }
  assert (Hof4 : items_of rid D4 = [it]).
  { unfold items_of in *. simpl. rewrite filter_app, Hitems0. simpl.
    rewrite String.eqb_refl. reflexivity. }
  assert (Hev4 : evidence_rows eid D4 = [evr]).
  { unfold evidence_rows. simpl. rewrite filter_app.
    rewrite (pk_free_filter e_id eid _ Hfe). simpl.
    rewrite String.eqb_refl. reflexivity. }
  assert (Hv4 : version_rows vid eid D4 = [vr]).
  { unfold version_rows. simpl. rewrite filter_app.
    rewrite (pk_free_filter_and v_id _ vid _ Hfv). simpl.
    rewrite !String.eqb_refl. reflexivity. }
  assert (Hsame : factory_differs F (mk_User uf "factory" (Some F)) = false)
    by (unfold factory_differs; simpl; rewrite String.eqb_refl;
        reflexivity).
  rewrite (fulfill_accepts factory rid iid _ f0 f1 f2 D4
             (mk_User uf "factory" (Some F)) rq it evr vr);
    [|apply (session_admits FACTORY tf rowF); auto; apply HtokF
     |rewrite Hrq4; reflexivity|exact Hsame
     |rewrite Hit4; reflexivity
     |simpl fr_evidenceId; rewrite Hev4; reflexivity|exact Hsame
     |simpl fr_evidenceId; simpl fr_versionId; rewrite Hv4; reflexivity].
  cbn [snd].
  set (f := mk_FulfillRequest eid vid).
  assert (Hcount : counts_equal
                     (item_counts rid (update_item eid vid f1 iid D4))
                   = true).
  { rewrite counts_equal_spec, items_of_update_item, Hof4. simpl.
    rewrite String.eqb_refl. reflexivity. }
  refine (conj _ (conj _ _)).
  - change (item_by_id iid (fulfill_updates rid iid f f1 D4) = Some
              (mk_item iid rid (ri_docType item) "fulfilled" (Some eid)
                       (Some vid) (Some f1))).
    rewrite item_by_id_fulfill_updates, Hby4. simpl.
    rewrite String.eqb_refl. reflexivity.
  - change (fetchone (request_rows rid (fulfill_updates rid iid f f1 D4))
            = Some (mk_request rid ub F title "completed" c1)).
    unfold request_rows at 1. rewrite requests_fulfill_updates.
    simpl fr_evidenceId. simpl fr_versionId. rewrite Hcount.
    rewrite filter_map_stable
      by (intros r; destruct (String.eqb (r_id r) rid) eqn:E; simpl; auto).
    fold (request_rows rid D4). rewrite Hrq4. simpl.
    rewrite String.eqb_refl. reflexivity.
  - simpl audit_log. rewrite map_app, HA4, <- app_assoc. reflexivity.
Qed.

Lemma single_item_exchange_completes_witness :
  let db' :=
    run [ Login (mk_LoginRequest "buyer1" BUYER None) "tB" 0 1 2;
          Login (mk_LoginRequest "factory_user1" FACTORY (Some "F001"))
                "tF" 3 4 5;
          CreateRequest (Some "Bearer tB")
            (mk_RequestCreate "F001" "Test Request"
                              [mk_RequestItem "Test Report"])
            6 "A1" 7 (fun _ => "A2") 8;
          CreateEvidence (Some "Bearer tF")
            (mk_EvidenceCreate "Test Evidence" "ISO Certificate" None
                               (Some "For testing"))
            9 "A3" "A4" 10 11 12;
          FulfillItem (Some "Bearer tF") "RA1" "IA2"
            (mk_FulfillRequest "EA3" "VA4") 13 14 15 ]
        init_db in
  item_by_id "IA2" db'
  = Some (mk_item "IA2" "RA1" "Test Report" "fulfilled" (Some "EA3")
                  (Some "VA4") (Some 14)) /\
  fetchone (request_rows "RA1" db')
  = Some (mk_request "RA1" "buyer1" "F001" "Test Request" "completed" 7) /\
  map a_action (audit_log db')
  = map a_action (audit_log init_db) ++
      ["LOGIN"; "LOGIN"; "CREATE_REQUEST"; "CREATE_EVIDENCE"; "FULFILL_ITEM"].
Proof.
  apply (single_item_exchange_completes init_db "buyer1" "factory_user1"
           "F001" "tB" "tF" "Test Request" "A1" "A2" "A3" "A4"
           (mk_RequestItem "Test Report")
           (mk_EvidenceCreate "Test Evidence" "ISO Certificate" None
                              (Some "For testing"))
           0 1 2 3 4 5 6 7 8 9 10 11 12 13 14 15);
    try reflexivity; try discriminate;
    try (unfold hours_24; lia).
  exists []. reflexivity.
Defined.



(** X25.  A request reaches the factory it is addressed to.  After a
    successful [create_request] on a state the service can reach, the
    listing of every factory session whose factory id is the one named in
    the request contains the new request, with status "pending" and
    exactly the requested items, all pending. *)
Theorem new_request_is_listed (a : option string) (request : RequestCreate)
    (t0 : Z) (hr : string) (t1 : Z) (hex : nat -> string) (t2 : Z) (db : DB)
    (resp : RequestCreated) (db' : DB) (a' : option string) (t : Z)
    (user : User) :
  reachable db ->
  create_request a request t0 hr t1 hex t2 db = (Ok resp, db') ->
  require_role FACTORY a' t db' = (Ok user, db') ->
  factoryId user = Some (rc_factoryId request) ->
  exists views buyer,
    get_factory_requests a' t db' = (Ok views, db') /\
    In (mk_RequestView (rcd_requestId resp) buyer (rc_factoryId request)
          (rc_title request) "pending" t1
          (map (pending_item (rcd_requestId resp))
               (combine (rcd_itemIds resp) (rc_items request))))
       views.
Proof.
  intros Hreach Hcreate Hrole Hfac.
  rewrite create_request_cases in Hcreate.
  destruct (require_role BUYER a t0 db) as [[ub|e] d0]; [|discriminate].
  destruct (create_request_tx _ _ _ _ _ _ db) as [[ids|e] d] eqn:Htx;
    [|discriminate].
  apply create_request_tx_ok in Htx. cbv zeta in Htx.
  destruct Htx as (Hfree & -> & _ & _ & ->).
  inversion Hcreate; subst. clear Hcreate. simpl rcd_requestId.
  simpl rcd_itemIds.
  set (rid := generate_id "R" hr) in *.
  set (rows := new_item_rows rid (rc_items request) hex 0) in *.
  set (rq := mk_request rid (userId ub) (rc_factoryId request)
                        (rc_title request) "pending" t1) in *.
  set (db' := mk_db _ _ _ _ _ _) in *.
  destruct (new_item_rows_combine rid (rc_items request) hex 0)
    as [_ Hrows].
  fold rows in Hrows. rewrite <- Hrows.
  assert (Hitems : items_of rid db' = rows).
  { unfold items_of. simpl. rewrite filter_app.
    pose proof (items_of_unknown_request rid db
                  (proj1 (reachable_requests_inv db Hreach)) Hfree) as Hn.
    unfold items_of in Hn. rewrite Hn. simpl.
    apply filter_all. intros r Hr. apply new_item_rows_in in Hr.
    apply String.eqb_eq. tauto. }
  exists (map (request_view db')
              (order_by_desc r_created_at
                             (requests_for (factoryId user) db'))),
         (userId ub).
  split.
  - unfold get_factory_requests. unfold bind at 1. rewrite Hrole.
    reflexivity.
  - replace (mk_RequestView rid (userId ub) (rc_factoryId request)
               (rc_title request) "pending" t1 rows)
      with (request_view db' rq)
      by (unfold request_view; simpl; rewrite Hitems; reflexivity).
    apply in_map. apply in_order_by_desc. unfold requests_for.
    apply filter_In. split.
    + simpl. apply in_or_app. right. left. reflexivity.
    + rewrite Hfac. simpl. apply String.eqb_refl.
Qed.

Lemma new_request_is_listed_witness :
  let request := mk_RequestCreate "F002" "Test Request"
                                  [mk_RequestItem "Report"] in
  let db' := snd (create_request (Some "Bearer tokB") request 30 "0011" 31
                                 (fun _ => "0012") 32 sample_db) in
  exists views buyer,
    get_factory_requests (Some "Bearer tokG") 40 db' = (Ok views, db') /\
    In (mk_RequestView "R0011" buyer "F002" "Test Request" "pending" 31
          [mk_item "I0012" "R0011" "Report" "pending" None None None])
       views.
Proof.
  intros request db'.
  apply (new_request_is_listed (Some "Bearer tokB") request 30 "0011" 31
           (fun _ => "0012") 32 sample_db
           (mk_RequestCreated "R0011" "pending" ["I0012"]) db'
           (Some "Bearer tokG") 40 (mk_User "f2" "factory" (Some "F002"))).
  - exists sample_ops. reflexivity.
  - reflexivity.
  - reflexivity.
  - reflexivity.
Defined.
